(** * Baseball-Statistics-II: cleaning and discovery pipeline

    A shallow embedding of the parts of [salary_cleaning.py],
    [data_cleaning.py], [baseball_scraper.py] and [salary_scraper.py]
    that the specification makes claims about, and of the functions
    around them, followed by the theorems that settle the claims and by
    further properties of the code.

    Conventions of the embedding
    - Python [str] values are [string]s of ASCII characters; where a
      property depends on how Python treats other characters, its
      statement says that the text is ASCII.
    - A table cell is [option string]: [None] is a missing value (NaN /
      None, the values for which [pd.isna] answers true) and [Some s] is a
      present value with [str(value) = s].  The source only ever looks at
      a cell through [pd.isna] and [str].
    - Python [float] is IEEE binary64, taken from the Standard Library's
      [SpecFloat] at precision 53 and maximal exponent 1024.
    - Exceptions are values of [exn]; fallible code returns [result]. *)

From Stdlib Require Import ZArith List String Ascii Bool Lia Permutation Sorted.
From Stdlib Require Import SpecFloat DecimalString.
From Stdlib Require Decimal DecimalZ DecimalPos.
From stdpp Require gmap strings.
Import ListNotations.
Open Scope string_scope.
Open Scope Z_scope.

(* ===================================================================== *)
(** ** Python exceptions and results                                      *)
(* ===================================================================== *)

Inductive exn := ValueError | OverflowError | IndexError.

Inductive result (A : Type) :=
  | Ok (a : A)
  | Raise (e : exn).
Arguments Ok {A} a.
Arguments Raise {A} e.

Definition bind {A B} (r : result A) (k : A -> result B) : result B :=
  match r with
  | Ok a => k a
  | Raise e => Raise e
  end.

(** [try: body  except ValueError: handler] *)
Definition except_ValueError {A} (body : result A) (handler : result A) : result A :=
  match body with
  | Raise ValueError => handler
  | r => r
  end.

(** Every value of [xs] through a fallible function, stopping at the first
    exception (what [Series.apply] does). *)
Fixpoint mapM {A B} (f : A -> result B) (xs : list A) : result (list B) :=
  match xs with
  | [] => Ok []
  | x :: xs' =>
      bind (f x) (fun y => bind (mapM f xs') (fun ys => Ok (y :: ys)))
  end.

(* ===================================================================== *)
(** ** Python string operations (ASCII)                                   *)
(* ===================================================================== *)

(** The operations are those of Python on texts of ASCII characters.
    On other characters [str.strip], [str.lower], [str.upper] and the
    regex classes for digits, word characters and white space follow
    Unicode; a theorem that depends on them there carries the hypothesis
    that the text is ASCII. *)
Module PyStr.

Definition code (c : ascii) : nat := nat_of_ascii c.

Definition is_digit (c : ascii) : bool :=
  (Nat.leb 48 (code c) && Nat.leb (code c) 57)%bool.

Definition is_upper (c : ascii) : bool :=
  (Nat.leb 65 (code c) && Nat.leb (code c) 90)%bool.

Definition is_lower (c : ascii) : bool :=
  (Nat.leb 97 (code c) && Nat.leb (code c) 122)%bool.

(** [str.isspace] on ASCII: TAB..CR, FS..US and the space. *)
Definition is_space (c : ascii) : bool :=
  (Nat.leb 9 (code c) && Nat.leb (code c) 13
   || Nat.leb 28 (code c) && Nat.leb (code c) 32)%bool.

(** The regex class [\w] on ASCII. *)
Definition is_word (c : ascii) : bool :=
  (is_digit c || is_upper c || is_lower c || Ascii.eqb c "_")%bool.

Definition lower_char (c : ascii) : ascii :=
  if is_upper c then ascii_of_nat (code c + 32) else c.

Definition upper_char (c : ascii) : ascii :=
  if is_lower c then ascii_of_nat (code c - 32) else c.

Fixpoint map_chars (f : ascii -> ascii) (s : string) : string :=
  match s with
  | EmptyString => EmptyString
  | String c s' => String (f c) (map_chars f s')
  end.

Definition lower : string -> string := map_chars lower_char.
Definition upper : string -> string := map_chars upper_char.

Fixpoint rev_onto (s acc : string) : string :=
  match s with
  | EmptyString => acc
  | String c s' => rev_onto s' (String c acc)
  end.

Definition rev (s : string) : string := rev_onto s EmptyString.

Fixpoint lstrip (s : string) : string :=
  match s with
  | String c s' => if is_space c then lstrip s' else s
  | EmptyString => EmptyString
  end.

Definition rstrip (s : string) : string := rev (lstrip (rev s)).

(** [s.strip()] *)
Definition strip (s : string) : string := rstrip (lstrip s).

(** [s.startswith(p)] *)
Fixpoint startswith (p s : string) : bool :=
  match p, s with
  | EmptyString, _ => true
  | String a p', String b s' => (Ascii.eqb a b && startswith p' s')%bool
  | String _ _, EmptyString => false
  end.

(** [p in s] *)
Fixpoint contains (p s : string) : bool :=
  (startswith p s
   || match s with
      | EmptyString => false
      | String _ s' => contains p s'
      end)%bool.

Fixpoint drop (n : nat) (s : string) : string :=
  match n, s with
  | O, _ => s
  | S n', String _ s' => drop n' s'
  | S _, EmptyString => EmptyString
  end.

(** [s.replace(old, new)] for a non-empty [old]: the occurrences are
    taken left to right and do not overlap.  [skip] counts the
    characters of an occurrence already replaced that are still to be
    passed over. *)
Fixpoint replace_from (old new : string) (skip : nat) (s : string) : string :=
  match s with
  | EmptyString => EmptyString
  | String c s' =>
      match skip with
      | S k => replace_from old new k s'
      | O =>
          if startswith old s
          then new ++ replace_from old new (String.length old - 1) s'
          else String c (replace_from old new O s')
      end
  end.

Definition replace (old new s : string) : string :=
  replace_from old new O s.

Fixpoint last_char (s : string) : option ascii :=
  match s with
  | EmptyString => None
  | String c EmptyString => Some c
  | String _ s' => last_char s'
  end.

(** [s[:-1]] *)
Fixpoint drop_last (s : string) : string :=
  match s with
  | EmptyString => EmptyString
  | String _ EmptyString => EmptyString
  | String c s' => String c (drop_last s')
  end.

(** [x in xs] for a list of strings *)
Definition mem (x : string) (xs : list string) : bool :=
  existsb (String.eqb x) xs.

(** [d[k]] / [k in d] for a dict kept in insertion order *)
Fixpoint lookup (k : string) (d : list (string * string)) : option string :=
  match d with
  | [] => None
  | (k', v) :: d' => if String.eqb k k' then Some v else lookup k d'
  end.

(** [any(kw in s for kw in kws)] *)
Definition any_in (kws : list string) (s : string) : bool :=
  existsb (fun kw => contains kw s) kws.

(** [re.sub(r'^[\d]+\.?\s*', '', s)]: a run of one or more digits at the
    start, an optional full stop and the white space after it are
    removed; a string that does not start with a digit is unchanged. *)
Fixpoint skip_while (p : ascii -> bool) (s : string) : string :=
  match s with
  | String c s' => if p c then skip_while p s' else s
  | EmptyString => EmptyString
  end.

Definition strip_rank_prefix (s : string) : string :=
  match s with
  | String c _ =>
      if is_digit c then
        let after_digits := skip_while is_digit s in
        let after_dot :=
          match after_digits with
          | String "." r => r
          | r => r
          end in
        skip_while is_space after_dot
      else s
  | EmptyString => EmptyString
  end.

End PyStr.

(* ===================================================================== *)
(** ** Python floats: [float(str)], [float * int], [int(float)]           *)
(* ===================================================================== *)

Module PyFloat.
Import PyStr.

Definition prec : Z := 53.
Definition emax : Z := 1024.

(** The binary64 number nearest to the integer [n] (ties to even). *)
Definition of_Z (n : Z) : spec_float := binary_normalize prec emax n 0 false.

(** The binary64 number nearest to [m * 10^e10] (ties to even), which is
    what a correctly rounded decimal-to-binary conversion returns. *)
Definition of_decimal (neg : bool) (m : positive) (e10 : Z) : spec_float :=
  if 0 <=? e10
  then binary_normalize prec emax
         (if neg then Z.neg m * 10 ^ e10 else Z.pos m * 10 ^ e10) 0 false
  else SFdiv prec emax (S754_finite neg m 0)
                       (S754_finite false (Z.to_pos (10 ^ (- e10))) 0).

Definition digit_val (c : ascii) : Z := Z.of_nat (code c - 48).

(** The rest of a [digitpart] after its first digit:
    [(["_"] digit)*].  Returns the accumulated value, the number of
    digits read and the unread rest. *)
Fixpoint digits_tail (s : string) (acc : Z) (n : nat) : Z * nat * string :=
  match s with
  | String c s' =>
      if is_digit c then digits_tail s' (acc * 10 + digit_val c) (S n)
      else if Ascii.eqb c "_" then
        match s' with
        | String d s'' =>
            if is_digit d
            then digits_tail s'' (acc * 10 + digit_val d) (S n)
            else (acc, n, s)
        | EmptyString => (acc, n, s)
        end
      else (acc, n, s)
  | EmptyString => (acc, n, s)
  end.

(** [digitpart ::= digit (["_"] digit)*] *)
Definition digitpart (s : string) (acc : Z) : option (Z * nat * string) :=
  match s with
  | String c s' =>
      if is_digit c
      then Some (digits_tail s' (acc * 10 + digit_val c) 1%nat)
      else None
  | EmptyString => None
  end.

(** [[sign]]: the flag is true for a minus sign. *)
Definition sign (s : string) : bool * string :=
  match s with
  | String "-" s' => (true, s')
  | String "+" s' => (false, s')
  | _ => (false, s)
  end.

(** [number ::= [digitpart] "." digitpart | digitpart ["."]]: the digits
    as one integer, the number of digits after the point, the rest. *)
Definition number (s : string) : option (Z * nat * string) :=
  match digitpart s 0 with
  | Some (iv, _, r1) =>
      match r1 with
      | String "." r2 =>
          match digitpart r2 iv with
          | Some (v, nf, r3) => Some (v, nf, r3)
          | None => Some (iv, O, r2)
          end
      | _ => Some (iv, O, r1)
      end
  | None =>
      match s with
      | String "." r2 => digitpart r2 0
      | _ => None
      end
  end.

(** [exponent ::= ("e" | "E") [sign] digitpart], absent when the rest
    does not start with the letter. *)
Definition exponent (s : string) : option (Z * string) :=
  match s with
  | String c s' =>
      if (Ascii.eqb c "e" || Ascii.eqb c "E")%bool then
        let '(neg, r) := sign s' in
        match digitpart r 0 with
        | Some (v, _, r') => Some (if neg then - v else v, r')
        | None => None
        end
      else Some (0, s)
  | EmptyString => Some (0, s)
  end.

(** [float(s)] for a string: surrounding white space is ignored, then
    [[sign] (floatnumber | "inf" | "infinity" | "nan")], the words in
    any case.  Anything else is a [ValueError]. *)
Definition float_of_str (s : string) : result spec_float :=
  let '(neg, body) := sign (strip s) in
  let word := lower body in
  if (String.eqb word "inf" || String.eqb word "infinity")%bool
  then Ok (S754_infinity neg)
  else if String.eqb word "nan" then Ok S754_nan
  else
    match number body with
    | Some (m, nfrac, r) =>
        match exponent r with
        | Some (e, EmptyString) =>
            match m with
            | Z.pos p => Ok (of_decimal neg p (e - Z.of_nat nfrac))
            | _ => Ok (S754_zero neg)
            end
        | _ => Raise ValueError
        end
    | None => Raise ValueError
    end.

(** [f * 1_000_000]: the integer is converted first, exactly. *)
Definition mul_million (f : spec_float) : spec_float :=
  SFmul prec emax f (of_Z 1000000).

(** [int(f)]: truncation towards zero; infinities raise
    [OverflowError] and NaN raises [ValueError]. *)
Definition int_of_float (f : spec_float) : result Z :=
  match f with
  | S754_zero _ => Ok 0
  | S754_infinity _ => Raise OverflowError
  | S754_nan => Raise ValueError
  | S754_finite s m e =>
      let a := if 0 <=? e then Z.pos m * 2 ^ e else Z.pos m / 2 ^ (- e) in
      Ok (if s then - a else a)
  end.

End PyFloat.


(* ===================================================================== *)
(** ** Tables (pandas DataFrames)                                         *)
(* ===================================================================== *)

(** A cell: [None] where [pd.isna] holds, [Some s] with [s = str(value)]. *)
Definition cell := option string.

(** A DataFrame, column by column: the header and the cells below it.
    In a frame that pandas builds, the headers are distinct and every
    column has the same number of cells. *)
Definition DataFrame := list (string * list cell).

Module Frame.

Definition columns (df : DataFrame) : list string := map fst df.

Definition nrows (df : DataFrame) : nat :=
  match df with
  | [] => O
  | (_, cs) :: _ => List.length cs
  end.

(** [df.empty] *)
Definition empty (df : DataFrame) : bool := Nat.eqb (nrows df) 0.

(** [df[col]] *)
Fixpoint column (col : string) (df : DataFrame) : list cell :=
  match df with
  | [] => []
  | (c, cs) :: df' => if String.eqb col c then cs else column col df'
  end.

(** [series.dropna()] *)
Fixpoint dropna {A} (xs : list (option A)) : list A :=
  match xs with
  | [] => []
  | Some x :: xs' => x :: dropna xs'
  | None :: xs' => dropna xs'
  end.

(** [series.astype(str)]: a missing value becomes the text [nan]. *)
Definition astype_str (c : cell) : string :=
  match c with
  | Some s => s
  | None => "nan"
  end.

Fixpoint select {A} (mask : list bool) (xs : list A) : list A :=
  match mask, xs with
  | b :: mask', x :: xs' => if b then x :: select mask' xs' else select mask' xs'
  | _, _ => []
  end.

(** [df[mask]]: the rows at which the mask is true. *)
Definition keep_rows (mask : list bool) (df : DataFrame) : DataFrame :=
  map (fun '(c, cs) => (c, select mask cs)) df.

Fixpoint zip_with {A B C} (f : A -> B -> C) (xs : list A) (ys : list B) : list C :=
  match xs, ys with
  | x :: xs', y :: ys' => f x y :: zip_with f xs' ys'
  | _, _ => []
  end.

Definition is_na (c : cell) : bool :=
  match c with
  | None => true
  | Some _ => false
  end.

(** For each row, whether every one of its cells is missing. *)
Fixpoint all_na (df : DataFrame) : list bool :=
  match df with
  | [] => []
  | [(_, cs)] => map is_na cs
  | (_, cs) :: df' => zip_with andb (map is_na cs) (all_na df')
  end.

(** [df.dropna(how='all')] *)
Definition dropna_all (df : DataFrame) : DataFrame :=
  keep_rows (map negb (all_na df)) df.

(** [df.iloc[:, 0]] *)
Definition first_column (df : DataFrame) : list cell :=
  match df with
  | [] => []
  | (_, cs) :: _ => cs
  end.

End Frame.

(* ===================================================================== *)
(** ** salary_cleaning.py                                                 *)
(* ===================================================================== *)

Record PayrollRecord := { Tm : string; Payroll : Z }.

Module SalaryDataCleaner.
Import PyStr PyFloat.

Definition TEAM_NAME_MAPPINGS : list (string * string) :=
  [ ("Oakland Athletics", "Athletics");
    ("Oakland A's", "Athletics");
    ("Oakland", "Athletics");
    ("A's", "Athletics");
    ("Athletics", "Athletics");
    ("Cleveland Indians", "Cleveland Guardians");
    ("Cleveland", "Cleveland Guardians");
    ("Indians", "Cleveland Guardians");
    ("Guardians", "Cleveland Guardians");
    ("Florida Marlins", "Miami Marlins");
    ("Florida", "Miami Marlins");
    ("Marlins", "Miami Marlins");
    ("Montreal Expos", "Washington Nationals");
    ("Montreal", "Washington Nationals");
    ("Expos", "Washington Nationals");
    ("Washington", "Washington Nationals");
    ("Nationals", "Washington Nationals");
    ("Tampa Bay Devil Rays", "Tampa Bay Rays");
    ("Devil Rays", "Tampa Bay Rays");
    ("Tampa Bay", "Tampa Bay Rays");
    ("Rays", "Tampa Bay Rays");
    ("Anaheim Angels", "Los Angeles Angels");
    ("California Angels", "Los Angeles Angels");
    ("Los Angeles Angels of Anaheim", "Los Angeles Angels");
    ("Anaheim", "Los Angeles Angels");
    ("LA Angels", "Los Angeles Angels");
    ("Angels", "Los Angeles Angels");
    ("NY Yankees", "New York Yankees");
    ("N.Y. Yankees", "New York Yankees");
    ("Yankees", "New York Yankees");
    ("NY Mets", "New York Mets");
    ("N.Y. Mets", "New York Yankees");
    ("Mets", "New York Mets");
    ("LA Dodgers", "Los Angeles Dodgers");
    ("Los Angeles", "Los Angeles Dodgers");
    ("Dodgers", "Los Angeles Dodgers");
    ("SF Giants", "San Francisco Giants");
    ("San Francisco", "San Francisco Giants");
    ("Giants", "San Francisco Giants");
    ("SD Padres", "San Diego Padres");
    ("San Diego", "San Diego Padres");
    ("Padres", "San Diego Padres");
    ("Boston", "Boston Red Sox");
    ("Red Sox", "Boston Red Sox");
    ("Chicago Cubs", "Chicago Cubs");
    ("Cubs", "Chicago Cubs");
    ("Chicago White Sox", "Chicago White Sox");
    ("Ch. White Sox", "Chicago White Sox");
    ("White Sox", "Chicago White Sox");
    ("Philadelphia", "Philadelphia Phillies");
    ("Phillies", "Philadelphia Phillies");
    ("Houston", "Houston Astros");
    ("Astros", "Houston Astros");
    ("Atlanta", "Atlanta Braves");
    ("Braves", "Atlanta Braves");
    ("St. Louis", "St. Louis Cardinals");
    ("St Louis Cardinals", "St. Louis Cardinals");
    ("Cardinals", "St. Louis Cardinals");
    ("Texas", "Texas Rangers");
    ("Rangers", "Texas Rangers");
    ("Seattle", "Seattle Mariners");
    ("Mariners", "Seattle Mariners");
    ("Detroit", "Detroit Tigers");
    ("Tigers", "Detroit Tigers");
    ("Baltimore", "Baltimore Orioles");
    ("Orioles", "Baltimore Orioles");
    ("Minnesota", "Minnesota Twins");
    ("Twins", "Minnesota Twins");
    ("Kansas City", "Kansas City Royals");
    ("KC Royals", "Kansas City Royals");
    ("Royals", "Kansas City Royals");
    ("Colorado", "Colorado Rockies");
    ("Rockies", "Colorado Rockies");
    ("Arizona", "Arizona Diamondbacks");
    ("Diamondbacks", "Arizona Diamondbacks");
    ("D-backs", "Arizona Diamondbacks");
    ("Cincinnati", "Cincinnati Reds");
    ("Reds", "Cincinnati Reds");
    ("Pittsburgh", "Pittsburgh Pirates");
    ("Pirates", "Pittsburgh Pirates");
    ("Milwaukee", "Milwaukee Brewers");
    ("Brewers", "Milwaukee Brewers");
    ("Toronto", "Toronto Blue Jays");
    ("Blue Jays", "Toronto Blue Jays") ].

Definition VALID_TEAM_NAMES : list string :=
  [ "Arizona Diamondbacks";
    "Athletics";
    "Atlanta Braves";
    "Baltimore Orioles";
    "Boston Red Sox";
    "Chicago Cubs";
    "Chicago White Sox";
    "Cincinnati Reds";
    "Cleveland Guardians";
    "Colorado Rockies";
    "Detroit Tigers";
    "Houston Astros";
    "Kansas City Royals";
    "Los Angeles Angels";
    "Los Angeles Dodgers";
    "Miami Marlins";
    "Milwaukee Brewers";
    "Minnesota Twins";
    "New York Mets";
    "New York Yankees";
    "Philadelphia Phillies";
    "Pittsburgh Pirates";
    "San Diego Padres";
    "San Francisco Giants";
    "Seattle Mariners";
    "St. Louis Cardinals";
    "Tampa Bay Rays";
    "Texas Rangers";
    "Toronto Blue Jays";
    "Washington Nationals" ].

Definition HARDCODED_1998 : list PayrollRecord :=
  [ {| Tm := "Baltimore Orioles"; Payroll := 71860921 |};
    {| Tm := "New York Yankees"; Payroll := 65663698 |};
    {| Tm := "Los Angeles Dodgers"; Payroll := 62806667 |};
    {| Tm := "Atlanta Braves"; Payroll := 61708000 |};
    {| Tm := "Texas Rangers"; Payroll := 60519595 |};
    {| Tm := "Cleveland Guardians"; Payroll := 59543165 |};
    {| Tm := "Boston Red Sox"; Payroll := 59497000 |};
    {| Tm := "New York Mets"; Payroll := 58660665 |};
    {| Tm := "San Diego Padres"; Payroll := 53066166 |};
    {| Tm := "Chicago Cubs"; Payroll := 49816000 |};
    {| Tm := "San Francisco Giants"; Payroll := 48514715 |};
    {| Tm := "Los Angeles Angels"; Payroll := 48389000 |};
    {| Tm := "Houston Astros"; Payroll := 48304000 |};
    {| Tm := "Colorado Rockies"; Payroll := 47714648 |};
    {| Tm := "St. Louis Cardinals"; Payroll := 44090854 |};
    {| Tm := "Seattle Mariners"; Payroll := 43698136 |};
    {| Tm := "Kansas City Royals"; Payroll := 35610000 |};
    {| Tm := "Chicago White Sox"; Payroll := 35180000 |};
    {| Tm := "Toronto Blue Jays"; Payroll := 34158500 |};
    {| Tm := "Milwaukee Brewers"; Payroll := 31897903 |};
    {| Tm := "Arizona Diamondbacks"; Payroll := 31614500 |};
    {| Tm := "Philadelphia Phillies"; Payroll := 28622500 |};
    {| Tm := "Tampa Bay Rays"; Payroll := 27370000 |};
    {| Tm := "Minnesota Twins"; Payroll := 24527500 |};
    {| Tm := "Athletics"; Payroll := 22463500 |};
    {| Tm := "Cincinnati Reds"; Payroll := 20707333 |};
    {| Tm := "Detroit Tigers"; Payroll := 19237500 |};
    {| Tm := "Miami Marlins"; Payroll := 15141000 |};
    {| Tm := "Pittsburgh Pirates"; Payroll := 13695000 |};
    {| Tm := "Washington Nationals"; Payroll := 8317000 |} ].

Definition HARDCODED_1999 : list PayrollRecord :=
  [ {| Tm := "New York Yankees"; Payroll := 88180712 |};
    {| Tm := "Texas Rangers"; Payroll := 81576598 |};
    {| Tm := "Atlanta Braves"; Payroll := 74890000 |};
    {| Tm := "Cleveland Guardians"; Payroll := 73278458 |};
    {| Tm := "Baltimore Orioles"; Payroll := 72198363 |};
    {| Tm := "Boston Red Sox"; Payroll := 71725000 |};
    {| Tm := "New York Mets"; Payroll := 71506427 |};
    {| Tm := "Los Angeles Dodgers"; Payroll := 71115786 |};
    {| Tm := "Arizona Diamondbacks"; Payroll := 70496000 |};
    {| Tm := "Chicago Cubs"; Payroll := 55443500 |};
    {| Tm := "Colorado Rockies"; Payroll := 54442505 |};
    {| Tm := "Houston Astros"; Payroll := 54339000 |};
    {| Tm := "Los Angeles Angels"; Payroll := 49868167 |};
    {| Tm := "Toronto Blue Jays"; Payroll := 48455333 |};
    {| Tm := "St. Louis Cardinals"; Payroll := 46173195 |};
    {| Tm := "San Francisco Giants"; Payroll := 45959557 |};
    {| Tm := "San Diego Padres"; Payroll := 45832180 |};
    {| Tm := "Seattle Mariners"; Payroll := 44396336 |};
    {| Tm := "Milwaukee Brewers"; Payroll := 42927395 |};
    {| Tm := "Cincinnati Reds"; Payroll := 42142761 |};
    {| Tm := "Tampa Bay Rays"; Payroll := 38027500 |};
    {| Tm := "Detroit Tigers"; Payroll := 34959667 |};
    {| Tm := "Philadelphia Phillies"; Payroll := 30568167 |};
    {| Tm := "Chicago White Sox"; Payroll := 24535000 |};
    {| Tm := "Athletics"; Payroll := 24175333 |};
    {| Tm := "Pittsburgh Pirates"; Payroll := 24167667 |};
    {| Tm := "Kansas City Royals"; Payroll := 16557000 |};
    {| Tm := "Washington Nationals"; Payroll := 16413000 |};
    {| Tm := "Minnesota Twins"; Payroll := 16345000 |};
    {| Tm := "Miami Marlins"; Payroll := 15150000 |} ].

(** [value_str.upper().endswith('M')] *)
Definition ends_with_M (s : string) : bool :=
  match last_char (upper s) with
  | Some c => Ascii.eqb c "M"
  | None => false
  end.

(** [int(float(s))] *)
Definition int_float (s : string) : result Z :=
  bind (float_of_str s) int_of_float.

(** [clean_currency(value)]: an integer, [None], or an exception that
    the function's own handlers let through. *)
Definition clean_currency (value : cell) : result (option Z) :=
  match value with
  | None => Ok None
  | Some v =>
      let value_str := strip v in
      if mem value_str [""; "-"; "N/A"; "nan"; "None"] then Ok None
      else
        let value_str := replace " " "" (replace "$" "" value_str) in
        let plain :=
          except_ValueError
            (bind (int_float (replace "," "" value_str))
                  (fun n => Ok (Some n)))
            (Ok None) in
        if ends_with_M value_str then
          except_ValueError
            (bind (float_of_str (replace "," "" (drop_last value_str)))
                  (fun num => bind (int_of_float (mul_million num))
                                   (fun n => Ok (Some n))))
            plain
        else plain
  end.

(** The loop [for key, value in TEAM_NAME_MAPPINGS.items()] of
    [standardize_team_name]: the value of the first key that contains, or
    is contained in, the name (both in lower case). *)
Fixpoint partial_match (name_lower : string) (d : list (string * string)) : option string :=
  match d with
  | [] => None
  | (key, value) :: d' =>
      if (contains (lower key) name_lower || contains name_lower (lower key))%bool
      then Some value
      else partial_match name_lower d'
  end.

(** The name after [str(name).strip()], the removal of a rank prefix and
    the second [strip()]. *)
Definition bare_name (s : string) : string :=
  strip (strip_rank_prefix (strip s)).

(** [standardize_team_name(name)]; [None] is Python's [None]. *)
Definition standardize_team_name (name : cell) : option string :=
  match name with
  | None => None
  | Some s =>
      let name := bare_name s in
      match lookup name TEAM_NAME_MAPPINGS with
      | Some v => Some v
      | None =>
          if mem name VALID_TEAM_NAMES then Some name
          else
            match partial_match (lower name) TEAM_NAME_MAPPINGS with
            | Some v => Some v
            | None => Some name
            end
      end
  end.

(** The test of [identify_team_column] on one sampled value. *)
Definition looks_like_team (val : string) : bool :=
  let clean_val := strip (strip_rank_prefix val) in
  match lookup clean_val TEAM_NAME_MAPPINGS with
  | Some _ => true
  | None => mem clean_val VALID_TEAM_NAMES
  end.

(** [team_matches] over [series.dropna().head(10).astype(str)] *)
Definition team_matches (cs : list cell) : nat :=
  List.length (filter looks_like_team (firstn 10 (Frame.dropna cs))).

Definition team_keywords : list string := ["team"; "tm"; "name"; "club"].

(** [identify_team_column(df)]; a frame without columns makes
    [df.columns[0]] raise. *)
Definition identify_team_column (df : DataFrame) : result string :=
  match find (fun col => any_in team_keywords (lower col)) (Frame.columns df) with
  | Some col => Ok col
  | None =>
      match df with
      | [] => Raise IndexError
      | (first_col, cs) :: _ =>
          if Nat.leb 3 (team_matches cs) then Ok first_col
          else
            match find (fun '(_, cs') => Nat.leb 3 (team_matches cs')) df with
            | Some (col, _) => Ok col
            | None => Ok first_col
            end
      end
  end.

Definition avoid_keywords : list string :=
  ["average"; "avg"; "median"; "mean"; "per"; "minimum"; "min"].

Definition payroll_keywords : list string :=
  ["payroll"; "total"; "salary"; "opening"].

(** Ascending insertion sort, for the median. *)
Fixpoint insert_asc (x : Z) (l : list Z) : list Z :=
  match l with
  | [] => [x]
  | y :: l' => if x <=? y then x :: l else y :: insert_asc x l'
  end.

Definition sort_asc (l : list Z) : list Z := fold_right insert_asc [] l.

(** Twice the median of a list of integers: twice the middle
    element of the sorted values, or the sum of the two middle ones.
    [median > 5_000_000] is [median2 > 10_000_000].  pandas computes the
    median in binary64, which is exact for sums below 2^53. *)
Definition median2 (l : list Z) : Z :=
  let s := sort_asc l in
  let n := List.length l in
  if Nat.even n
  then nth (n / 2 - 1) s 0 + nth (n / 2) s 0
  else 2 * nth (n / 2) s 0.

(** [series.max()] of a non-empty list *)
Definition max_of (l : list Z) : Z :=
  match l with
  | [] => 0
  | x :: l' => fold_left Z.max l' x
  end.

(** A candidate [(col, max_val, priority)]. *)
Definition candidate := (string * Z * Z)%type.

(** [cleaned_values.dropna()] of one column, or the exception that
    [apply(self.clean_currency)] ran into. *)
Definition valid_values (cs : list cell) : result (list Z) :=
  bind (mapM clean_currency cs) (fun cleaned => Ok (Frame.dropna cleaned)).

(** The body of the first loop for one column: the candidate it appends,
    if any.  An exception under the [try] is a [continue]. *)
Definition threshold_candidate (team_col : string) (c : string * list cell)
  : option candidate :=
  let '(col, cs) := c in
  if String.eqb col team_col then None
  else
    let col_lower := lower col in
    if any_in avoid_keywords col_lower then None
    else
      match valid_values cs with
      | Raise _ => None
      | Ok vs =>
          if Nat.ltb (List.length vs) 10 then None
          else
            let max_val := max_of vs in
            if ((10000000 <? max_val) && (10000000 <? median2 vs))%bool
            then Some (col, max_val,
                       if any_in payroll_keywords col_lower then 2 else 1)
            else None
      end.

(** The body of the fallback loop for one column. *)
Definition fallback_candidate (team_col : string) (c : string * list cell)
  : option candidate :=
  let '(col, cs) := c in
  if String.eqb col team_col then None
  else
    match valid_values cs with
    | Raise _ => None
    | Ok vs =>
        if Nat.leb 10 (List.length vs) then
          let max_val := max_of vs in
          if 0 <? max_val then Some (col, max_val, 0) else None
        else None
    end.

(** The candidates a loop appends, in column order. *)
Fixpoint collect {A B} (f : A -> option B) (xs : list A) : list B :=
  match xs with
  | [] => []
  | x :: xs' =>
      match f x with
      | Some y => y :: collect f xs'
      | None => collect f xs'
      end
  end.

(** [x] sorts strictly before [y] under
    [sort(key=lambda x: (x[2], x[1]), reverse=True)]. *)
Definition key_gt (x y : candidate) : bool :=
  let '(_, mx, px) := x in
  let '(_, my, py) := y in
  ((py <? px) || ((px =? py) && (my <? mx)))%bool.

(** The stable descending sort: equal keys keep their order. *)
Fixpoint insert_desc (x : candidate) (l : list candidate) : list candidate :=
  match l with
  | [] => [x]
  | y :: l' => if key_gt y x then y :: insert_desc x l' else x :: l
  end.

Definition sort_candidates (l : list candidate) : list candidate :=
  fold_right insert_desc [] l.

(** [identify_payroll_column(df, team_col)] *)
Definition identify_payroll_column (df : DataFrame) (team_col : string)
  : option string :=
  let candidate_columns := collect (threshold_candidate team_col) df in
  let candidate_columns :=
    match candidate_columns with
    | [] => collect (fallback_candidate team_col) df
    | _ => candidate_columns
    end in
  match sort_candidates candidate_columns with
  | (col, _, _) :: _ => Some col
  | [] => None
  end.

(** The "try harder" loop of [clean_dataframe]: the first valid name that
    contains, or is contained in, the team (both in lower case). *)
Definition try_harder (team : string) : option string :=
  find (fun valid_name =>
          (contains (lower team) (lower valid_name)
           || contains (lower valid_name) (lower team))%bool)
       VALID_TEAM_NAMES.

(** What one iteration of [for _, row in df.iterrows()] does: it appends a
    record, prints the "Unrecognized team" warning, or does neither. *)
Inductive row_outcome :=
  | Appended (r : PayrollRecord)
  | Warned (team : string)
  | Skipped.

Definition clean_row (team_raw payroll_raw : cell) : result row_outcome :=
  let team := standardize_team_name team_raw in
  bind (clean_currency payroll_raw) (fun payroll =>
    match team, payroll with
    | Some team, Some payroll =>
        if (negb (String.eqb team "") && negb (payroll =? 0) && (0 <? payroll))%bool
        then
          if mem team VALID_TEAM_NAMES
          then Ok (Appended {| Tm := team; Payroll := payroll |})
          else
            match try_harder team with
            | Some valid_name =>
                Ok (Appended {| Tm := valid_name; Payroll := payroll |})
            | None =>
                if Nat.ltb 3 (String.length team) then Ok (Warned team)
                else Ok Skipped
            end
        else Ok Skipped
    | _, _ => Ok Skipped
    end).

Definition appended (o : row_outcome) : option PayrollRecord :=
  match o with
  | Appended r => Some r
  | _ => None
  end.

Definition warned (o : row_outcome) : option string :=
  match o with
  | Warned t => Some t
  | _ => None
  end.

(** [sort_values('Payroll', ascending=False)].  Records with equal
    payrolls are kept in their order here; pandas sorts with quicksort
    and does not promise an order among them, so the theorems use only
    that the result is a permutation in descending order of payroll. *)
Fixpoint insert_record (x : PayrollRecord) (l : list PayrollRecord) : list PayrollRecord :=
  match l with
  | [] => [x]
  | y :: l' => if Payroll x <? Payroll y then y :: insert_record x l' else x :: l
  end.

Definition sort_values (l : list PayrollRecord) : list PayrollRecord :=
  fold_right insert_record [] l.

(** The regex [league|average|avg|total|rank], case-insensitive. *)
Definition header_or_league_row (c : cell) : bool :=
  any_in ["league"; "average"; "avg"; "total"; "rank"] (lower (Frame.astype_str c)).

(** The frame after the two row filters at the top of [clean_dataframe]. *)
Definition filter_rows (df : DataFrame) : DataFrame :=
  let df := Frame.dropna_all df in
  Frame.keep_rows (map (fun c => negb (header_or_league_row c)) (Frame.first_column df)) df.

(** [clean_dataframe(df, year)]: the cleaned records ([None] where the
    source returns [None]) and the teams of the "Unrecognized team"
    warnings it prints, in order. *)
Definition clean_dataframe (df : DataFrame) (year : Z)
  : result (option (list PayrollRecord) * list string) :=
  if Frame.empty df then Ok (None, [])
  else
    let df := filter_rows df in
    bind (identify_team_column df) (fun team_col =>
      match identify_payroll_column df team_col with
      | None => Ok (None, [])
      | Some payroll_col =>
          bind (mapM (fun '(team_raw, payroll_raw) => clean_row team_raw payroll_raw)
                     (combine (Frame.column team_col df) (Frame.column payroll_col df)))
               (fun outcomes =>
                  let clean_data := collect appended outcomes in
                  let warnings := collect warned outcomes in
                  match clean_data with
                  | [] => Ok (None, warnings)
                  | _ => Ok (Some (sort_values clean_data), warnings)
                  end)
      end).

(** [process_file(filepath, year)].  [read_csv] is what
    [pd.read_csv(filepath)] would return or raise; the result is the
    records written back to [filepath] ([None]: nothing written) and the
    returned pair [(success, row_count)].  Writing is the storage
    collaborator's and is taken to succeed. *)
Definition process_file (read_csv : result DataFrame) (year : Z)
  : option (list PayrollRecord) * (bool * nat) :=
  if year =? 1998 then
    (Some HARDCODED_1998, (true, List.length HARDCODED_1998))
  else if year =? 1999 then
    (Some HARDCODED_1999, (true, List.length HARDCODED_1999))
  else
    match bind read_csv (fun df => clean_dataframe df year) with
    | Ok (Some (r :: clean_df), _) =>
        (Some (r :: clean_df), (true, List.length (r :: clean_df)))
    | Ok (_, _) => (None, (false, O))
    | Raise _ => (None, (false, O))
    end.

(** The dict that [process_all_years] returns. *)
Record summary := {
  processed : nat;
  success : nat;
  failed : nat;
  total_teams : nat
}.

(** [range(start, stop)] *)
Definition range (start stop : Z) : list Z :=
  map (fun i => start + Z.of_nat i) (seq 0 (Z.to_nat (stop - start))).

(** The body of the loop of [process_all_years] for one year.
    [files year] is [None] when [Salaries_{year}.csv] does not exist, and
    otherwise what reading it gives. *)
Definition process_one_year (files : Z -> option (result DataFrame))
    (results : summary) (year : Z) : summary :=
  match files year with
  | Some read_csv =>
      let '(_, (ok, count)) := process_file read_csv year in
      if ok then
        {| processed := S (processed results);
           success := S (success results);
           failed := failed results;
           total_teams := (total_teams results + count)%nat |}
      else
        {| processed := S (processed results);
           success := success results;
           failed := S (failed results);
           total_teams := total_teams results |}
  | None => results
  end.

(** [process_all_years(start_year, end_year)] *)
Definition process_all_years (files : Z -> option (result DataFrame))
    (start_year end_year : Z) : summary :=
  fold_left (process_one_year files) (range start_year (end_year + 1))
    {| processed := 0; success := 0; failed := 0; total_teams := 0 |}.

End SalaryDataCleaner.

(* ===================================================================== *)
(** ** data_cleaning.py                                                   *)
(* ===================================================================== *)

Module BaseballDataCleaner.
Import PyStr.

Definition STANDARD_TEAM_NAMES : list (string * string) :=
  [ ("Arizona Diamondbacks", "Arizona Diamondbacks");
    ("Athletics", "Athletics");
    ("Atlanta Braves", "Atlanta Braves");
    ("Baltimore Orioles", "Baltimore Orioles");
    ("Boston Red Sox", "Boston Red Sox");
    ("Chicago Cubs", "Chicago Cubs");
    ("Chicago White Sox", "Chicago White Sox");
    ("Cincinnati Reds", "Cincinnati Reds");
    ("Cleveland Guardians", "Cleveland Guardians");
    ("Colorado Rockies", "Colorado Rockies");
    ("Detroit Tigers", "Detroit Tigers");
    ("Houston Astros", "Houston Astros");
    ("Kansas City Royals", "Kansas City Royals");
    ("Los Angeles Angels", "Los Angeles Angels");
    ("Los Angeles Dodgers", "Los Angeles Dodgers");
    ("Miami Marlins", "Miami Marlins");
    ("Milwaukee Brewers", "Milwaukee Brewers");
    ("Minnesota Twins", "Minnesota Twins");
    ("New York Mets", "New York Mets");
    ("New York Yankees", "New York Yankees");
    ("Philadelphia Phillies", "Philadelphia Phillies");
    ("Pittsburgh Pirates", "Pittsburgh Pirates");
    ("San Diego Padres", "San Diego Padres");
    ("Seattle Mariners", "Seattle Mariners");
    ("San Francisco Giants", "San Francisco Giants");
    ("St. Louis Cardinals", "St. Louis Cardinals");
    ("Tampa Bay Rays", "Tampa Bay Rays");
    ("Texas Rangers", "Texas Rangers");
    ("Toronto Blue Jays", "Toronto Blue Jays");
    ("Washington Nationals", "Washington Nationals") ].

Definition NAME_MAPPINGS : list (string * string) :=
  [ ("Oakland Athletics", "Athletics");
    ("Oakland A's", "Athletics");
    ("Oakland", "Athletics");
    ("Cleveland Indians", "Cleveland Guardians");
    ("Washington Nationals", "Washington Nationals");
    ("LA Angels", "Los Angeles Angels");
    ("LA Dodgers", "Los Angeles Dodgers");
    ("NY Mets", "New York Mets");
    ("NY Yankees", "New York Yankees");
    ("SF Giants", "San Francisco Giants");
    ("SD Padres", "San Diego Padres");
    ("TB Rays", "Tampa Bay Rays");
    ("KC Royals", "Kansas City Royals");
    ("Los Angeles Angels of Anaheim", "Los Angeles Angels");
    ("Anaheim Angels", "Los Angeles Angels");
    ("California Angels", "Los Angeles Angels");
    ("Florida Marlins", "Miami Marlins");
    ("Tampa Bay Devil Rays", "Tampa Bay Rays");
    ("Montreal Expos", "Washington Nationals") ].

Definition ABBREVIATION_MAPPINGS : list (string * string) :=
  [ ("OAK", "ATH");
    ("CWS", "CHW");
    ("KC", "KCR");
    ("KAN", "KCR");
    ("SD", "SDP");
    ("WAS", "WSN");
    ("WSH", "WSN");
    ("ANA", "LAA");
    ("CAL", "LAA");
    ("FLA", "MIA");
    ("MON", "WSN");
    ("TBD", "TBR");
    ("CLV", "CLE") ].

(** [standardize_team_name(name)]; a missing value is returned as it is. *)
Definition standardize_team_name (name : cell) : cell :=
  match name with
  | None => None
  | Some s =>
      let name := strip s in
      match lookup name STANDARD_TEAM_NAMES with
      | Some _ => Some name
      | None =>
          match lookup name NAME_MAPPINGS with
          | Some v => Some v
          | None => Some name
          end
      end
  end.

(** One step of the first loop of [standardize_cell_value]. *)
Definition replace_name (value_str : string) (m : string * string) : string :=
  let '(old_name, new_name) := m in
  if contains old_name value_str
  then replace old_name new_name value_str
  else value_str.

Definition newline : ascii := ascii_of_nat 10.

(** The lookahead [(?=[\d\.\-]|$)]: a digit, a full stop or a hyphen
    follows, or the string ends here ([$] also holds just before a final
    newline). *)
Definition lookahead (rest : string) : bool :=
  match rest with
  | EmptyString => true
  | String c r =>
      (is_digit c || Ascii.eqb c "." || Ascii.eqb c "-"
       || (Ascii.eqb c newline && String.eqb r ""))%bool
  end.

(** A literal matched under [re.IGNORECASE]. *)
Fixpoint startswith_ci (p s : string) : bool :=
  match p, s with
  | EmptyString, _ => true
  | String a p', String b s' =>
      (Ascii.eqb (lower_char a) (lower_char b) && startswith_ci p' s')%bool
  | String _ _, EmptyString => false
  end.

(** The pattern [\b old (?=[\d\.\-]|$)] at the start of [s], where
    [prev_word] tells whether the character before is a word character. *)
Definition abbr_match (old : string) (prev_word : bool) (s : string) : bool :=
  match s with
  | EmptyString => false
  | String c _ =>
      (xorb prev_word (is_word c)
       && startswith_ci old s
       && lookahead (drop (String.length old) s))%bool
  end.

(** [re.sub(pattern, new, s, flags=re.IGNORECASE)] for that pattern and a
    non-empty [old]: matches are taken left to right and do not
    overlap. *)
Fixpoint sub_from (old new : string) (prev_word : bool) (skip : nat) (s : string) : string :=
  match s with
  | EmptyString => EmptyString
  | String c s' =>
      match skip with
      | S k => sub_from old new (is_word c) k s'
      | O =>
          if abbr_match old prev_word s
          then new ++ sub_from old new (is_word c) (String.length old - 1) s'
          else String c (sub_from old new (is_word c) O s')
      end
  end.

Definition replace_abbr (value_str : string) (m : string * string) : string :=
  let '(old_abbr, new_abbr) := m in
  sub_from old_abbr new_abbr false O value_str.

(** [standardize_cell_value(value)] *)
Definition standardize_cell_value (value : cell) : cell :=
  match value with
  | None => None
  | Some value_str =>
      let value_str := fold_left replace_name NAME_MAPPINGS value_str in
      Some (fold_left replace_abbr ABBREVIATION_MAPPINGS value_str)
  end.

Definition STANDARD_ABBREVIATIONS : list (string * string) :=
  [ ("ARI", "ARI");
    ("ATH", "ATH");
    ("ATL", "ATL");
    ("BAL", "BAL");
    ("BOS", "BOS");
    ("CHC", "CHC");
    ("CHW", "CHW");
    ("CIN", "CIN");
    ("CLE", "CLE");
    ("COL", "COL");
    ("DET", "DET");
    ("HOU", "HOU");
    ("KCR", "KCR");
    ("LAA", "LAA");
    ("LAD", "LAD");
    ("MIA", "MIA");
    ("MIL", "MIL");
    ("MIN", "MIN");
    ("NYM", "NYM");
    ("NYY", "NYY");
    ("PHI", "PHI");
    ("PIT", "PIT");
    ("SDP", "SDP");
    ("SEA", "SEA");
    ("SFG", "SFG");
    ("STL", "STL");
    ("TBR", "TBR");
    ("TEX", "TEX");
    ("TOR", "TOR");
    ("WSN", "WSN") ].

(** [standardize_abbreviation(abbr)]; a missing value is returned as it
    is. *)
Definition standardize_abbreviation (abbr : cell) : cell :=
  match abbr with
  | None => None
  | Some s =>
      let abbr := upper (strip s) in
      match lookup abbr STANDARD_ABBREVIATIONS with
      | Some _ => Some abbr
      | None =>
          match lookup abbr ABBREVIATION_MAPPINGS with
          | Some v => Some v
          | None => Some abbr
          end
      end
  end.

(** An entry of the list of changes; [row] is the index label of the
    cell, and [None] stands for the text [N/A] of a header entry. *)
Record change := {
  file : string;
  column : string;
  row : option nat;
  old_value : cell;
  new_value : cell;
  type : string
}.

Definition team_name_columns : list string := ["Tm"; "Team"; "team"; "Name"].

(** The body of the loops over [df_clean[col].items()]: the cell after
    the iteration and the entry appended, if any. *)
Definition clean_cell (filename col : string) (idx : nat) (value : cell)
  : cell * list change :=
  let is_team := mem col team_name_columns in
  let new_value :=
    if is_team then standardize_team_name value else standardize_cell_value value in
  if String.eqb (Frame.astype_str value) (Frame.astype_str new_value)
  then (value, [])
  else (new_value,
        [ {| file := filename; column := col; row := Some idx;
             old_value := value; new_value := new_value;
             type := if is_team then "team_name" else "embedded" |} ]).

Fixpoint clean_cells (filename col : string) (idx : nat) (cells : list cell)
  : list cell * list change :=
  match cells with
  | [] => ([], [])
  | value :: cells' =>
      let '(v, ch) := clean_cell filename col idx value in
      let '(vs, chs) := clean_cells filename col (S idx) cells' in
      (v :: vs, (ch ++ chs)%list)
  end.

(** The first loop of [clean_dataframe], over the columns. *)
Fixpoint clean_columns (filename : string) (df : DataFrame)
  : DataFrame * list change :=
  match df with
  | [] => ([], [])
  | (col, cells) :: df' =>
      let '(cells', ch) := clean_cells filename col O cells in
      let '(df'', chs) := clean_columns filename df' in
      ((col, cells') :: df'', (ch ++ chs)%list)
  end.

(** The second loop, over the headers. *)
Definition clean_header (filename col : string) : string * list change :=
  match standardize_cell_value (Some col) with
  | Some new_col =>
      if String.eqb col new_col then (new_col, [])
      else (new_col,
            [ {| file := filename; column := "header"; row := None;
                 old_value := Some col; new_value := Some new_col;
                 type := "header" |} ])
  | None => (col, [])
  end.

Fixpoint clean_headers (filename : string) (df : DataFrame)
  : DataFrame * list change :=
  match df with
  | [] => ([], [])
  | (col, cells) :: df' =>
      let '(new_col, ch) := clean_header filename col in
      let '(df'', chs) := clean_headers filename df' in
      ((new_col, cells) :: df'', (ch ++ chs)%list)
  end.

(** [clean_dataframe(df, filename)]: the cleaned frame and the list of
    changes. *)
Definition clean_dataframe (df : DataFrame) (filename : string)
  : DataFrame * list change :=
  let '(df_clean, cell_changes) := clean_columns filename df in
  let '(df_clean, header_changes) := clean_headers filename df_clean in
  (df_clean, (cell_changes ++ header_changes)%list).

(** [process_file(filepath)].  [read_csv] is what reading the file gives
    and [changes_made] the list kept in the cleaner; the result is the
    frame written back ([None]: nothing written), the list afterwards and
    the returned pair. *)
Definition process_file (filename : string) (read_csv : result DataFrame)
    (changes_made : list change)
  : option DataFrame * list change * (bool * nat) :=
  match read_csv with
  | Ok df =>
      let '(df_clean, changes) := clean_dataframe df filename in
      match changes with
      | [] => (None, changes_made, (true, O))
      | _ => (Some df_clean, (changes_made ++ changes)%list,
              (true, List.length changes))
      end
  | Raise _ => (None, changes_made, (false, O))
  end.

(** The dict that [process_year] returns for a folder that exists. *)
Record year_results := {
  files_processed : nat;
  changes_made_count : nat;
  errors : nat
}.

(** The loop of [process_year] over the CSV files of the folder, each
    given by its name and what reading it gives. *)
Fixpoint process_files (csv_files : list (string * result DataFrame))
    (results : year_results) (changes_made : list change)
  : year_results * list change :=
  match csv_files with
  | [] => (results, changes_made)
  | (filename, read_csv) :: rest =>
      let '(_, changes_made', (ok, changes)) :=
        process_file filename read_csv changes_made in
      let results' :=
        if ok then
          {| files_processed := S (files_processed results);
             changes_made_count := (changes_made_count results + changes)%nat;
             errors := errors results |}
        else
          {| files_processed := files_processed results;
             changes_made_count := changes_made_count results;
             errors := S (errors results) |} in
      process_files rest results' changes_made'
  end.

(** The dict that [process_year] returns: for a folder that does not
    exist the dict with the keys [success] and [error], and otherwise the
    dict of the three counts. *)
Inductive year_report :=
  | NotProcessed (success : bool) (error : string)
  | Counted (results : year_results).

(** [process_year(year)].  [folder] is [None] when [year_path.exists()]
    is false, and otherwise the files of [year_path.glob("*.csv")], each
    given by its name and what reading it gives. *)
Definition process_year (folder : option (list (string * result DataFrame)))
    (changes_made : list change) : year_report * list change :=
  match folder with
  | None => (NotProcessed false "Folder not found", changes_made)
  | Some csv_files =>
      let '(results, changes_made') :=
        process_files csv_files
          {| files_processed := 0; changes_made_count := 0; errors := 0 |}
          changes_made in
      (Counted results, changes_made')
  end.

End BaseballDataCleaner.

(* ===================================================================== *)
(** ** baseball_scraper.py: bounded table discovery                       *)
(* ===================================================================== *)

Module BaseballScraper.
Import stdpp.base stdpp.gmap stdpp.strings.

Section GetAllTables.

(** The DataFrames that [pd.read_html] builds are opaque here. *)
Variable DF : Type.

(** A [<table>] element that has an [id] attribute: the attribute and the
    outcome of [pd.read_html(str(table))[0]]. *)
Record table_elem := { table_id : string; read_html : result DF }.

(** A match of [<!--(.*?)-->]: whether the text [<table] occurs in it,
    and the outcome of parsing it and listing its tables with an id. *)
Record comment := {
  has_table_tag : bool;
  comment_tables : result (list table_elem)
}.

(** The page: the tables of the visible DOM and the comment blocks, in
    document order. *)
Record page := { visible : list table_elem; comments : list comment }.

(** Successive readings of [time.time()]: [clock n] is what the call
    number [n] of this run returns.  The budget [timeout_seconds] is in
    the same unit. *)
Definition clock := nat -> Z.

Variable time : clock.
Variable timeout_seconds : Z.

(** [time.time() - start_time > timeout_seconds] at call number [n] *)
Definition over_budget (start_time : Z) (n : nat) : bool :=
  (timeout_seconds <? time n - start_time)%Z.

(** The body of the visible loop after the time check. *)
Definition add_visible (t : table_elem) (tables : gmap string DF) : gmap string DF :=
  if String.eqb (table_id t) "" then tables
  else
    match read_html t with
    | Ok df => <[table_id t := df]> tables
    | Raise _ => tables
    end.

(** One table of a comment: taken only when its id is not a key yet. *)
Definition add_hidden (tables : gmap string DF) (t : table_elem) : gmap string DF :=
  if String.eqb (table_id t) "" then tables
  else
    match tables !! table_id t with
    | Some _ => tables
    | None =>
        match read_html t with
        | Ok df => <[table_id t := df]> tables
        | Raise _ => tables
        end
    end.

(** The body of the comment loop after the time check and the cap. *)
Definition add_comment (c : comment) (tables : gmap string DF) : gmap string DF :=
  if has_table_tag c then
    match comment_tables c with
    | Ok ts => fold_left add_hidden ts tables
    | Raise _ => tables
    end
  else tables.

Definition max_comments : nat := 50.

(** How a loop was left: by the [return tables] under a time check, or
    at its end (or by [break]). *)
Inductive loop_exit := Returned | Finished.

(** [for table in soup.find_all('table', {'id': True})]; [n] is the number
    of clock readings taken so far. *)
Fixpoint visible_loop (start_time : Z) (ts : list table_elem) (n : nat)
    (tables : gmap string DF) : loop_exit * gmap string DF * nat :=
  match ts with
  | [] => (Finished, tables, n)
  | t :: ts' =>
      if over_budget start_time n then (Returned, tables, S n)
      else visible_loop start_time ts' (S n) (add_visible t tables)
  end.

(** [for match in comment_pattern.finditer(page_source)] *)
Fixpoint comment_loop (start_time : Z) (cs : list comment) (comment_count n : nat)
    (tables : gmap string DF) : loop_exit * gmap string DF * nat :=
  match cs with
  | [] => (Finished, tables, n)
  | c :: cs' =>
      if over_budget start_time n then (Returned, tables, S n)
      else
        let comment_count := S comment_count in
        if Nat.ltb max_comments comment_count then (Finished, tables, S n)
        else comment_loop start_time cs' comment_count (S n) (add_comment c tables)
  end.

(** [get_all_tables(timeout_seconds)]; [page_source] is the outcome of
    [self.driver.page_source]. *)
Definition get_all_tables (page_source : result page) : result (gmap string DF) :=
  let start_time := time 0%nat in
  match page_source with
  | Raise _ => Ok ∅
  | Ok src =>
      if over_budget start_time 1 then Ok ∅
      else
        match visible_loop start_time (visible src) 2 ∅ with
        | (Returned, tables, _) => Ok tables
        | (Finished, tables, n) =>
            match comment_loop start_time (comments src) 0 n tables with
            | (_, tables, _) => Ok tables
            end
        end
  end.

End GetAllTables.

End BaseballScraper.

(* ===================================================================== *)
(** ** salary_scraper.py                                                  *)
(* ===================================================================== *)

Module SalaryScraper.
Import stdpp.base stdpp.gmap.
Import PyStr.

(** The pattern [(19\d{2}|20[0-2]\d)] on four characters of an ASCII
    text, where [\d] is one of the ten digits 0 to 9.  (On other text
    Python lets [\d] match every Unicode decimal digit.) *)
Definition year_at (a b c d : ascii) : bool :=
  ((Ascii.eqb a "1" && Ascii.eqb b "9" && is_digit c && is_digit d)
   || (Ascii.eqb a "2" && Ascii.eqb b "0"
       && (Nat.leb 48 (code c) && Nat.leb (code c) 50) && is_digit d))%bool.

Definition digit (c : ascii) : Z := Z.of_nat (code c - 48).

(** [int(re.search(r'(19\d{2}|20[0-2]\d)', text).group(1))], or [None]
    when the pattern matches nowhere: the leftmost match is taken. *)
Fixpoint search_year (text : string) : option Z :=
  match text with
  | String a rest =>
      match rest with
      | String b (String c (String d _)) =>
          if year_at a b c d
          then Some (1000 * digit a + 100 * digit b + 10 * digit c + digit d)%Z
          else search_year rest
      | _ => None
      end
  | EmptyString => None
  end.

(** [parse_year_from_header(element)], on the text [str(element)]. *)
Definition parse_year_from_header (element : string) : option Z :=
  search_year element.

Section ExtractPayrollTables.

(** The [table] elements are opaque. *)
Variable T : Type.

(** What [soup.find_all(['h2', 'h3', 'table', 'b', 'strong'])] lists, in
    document order: a heading element with its text, or a table. *)
Inductive element :=
  | Heading (text : string)
  | Table (t : T).

(** The year of a heading that the first loop takes as a section. *)
Definition listed_year (header_text : string) : option Z :=
  match search_year header_text with
  | Some y =>
      if (contains "payroll" (lower header_text) || contains "mlb" (lower header_text)
          || contains "opening" (lower header_text))%bool
      then Some y else None
  | None => None
  end.

(** The year of a heading that the second loop takes as a section. *)
Definition section_year (text : string) : option Z :=
  match search_year text with
  | Some y =>
      if (contains "payroll" (lower text) || contains "mlb" (lower text)
          || contains "team" (lower text))%bool
      then Some y else None
  | None => None
  end.

(** [if year not in year_data: year_data[year] = []] *)
Definition ensure_key (year : Z) (year_data : gmap Z (list T)) : gmap Z (list T) :=
  match year_data !! year with
  | Some _ => year_data
  | None => <[year := []]> year_data
  end.

(** [year_data[year].append(elem)] after [ensure_key] *)
Definition append_table (year : Z) (t : T) (year_data : gmap Z (list T))
  : gmap Z (list T) :=
  match year_data !! year with
  | Some l => <[year := (l ++ [t])%list]> year_data
  | None => <[year := [t]]> year_data
  end.

(** The first loop, over the headings. *)
Fixpoint list_years (elems : list element) (year_data : gmap Z (list T))
  : gmap Z (list T) :=
  match elems with
  | [] => year_data
  | Heading text :: rest =>
      match listed_year text with
      | Some y => list_years rest (ensure_key y year_data)
      | None => list_years rest year_data
      end
  | Table _ :: rest => list_years rest year_data
  end.

(** The second loop, over the headings and the tables. *)
Fixpoint attach_tables (elems : list element) (current_year : option Z)
    (year_data : gmap Z (list T)) : gmap Z (list T) :=
  match elems with
  | [] => year_data
  | Heading text :: rest =>
      match section_year text with
      | Some y => attach_tables rest (Some y) year_data
      | None => attach_tables rest current_year year_data
      end
  | Table t :: rest =>
      match current_year with
      | Some y =>
          if (y =? 0)%Z then attach_tables rest current_year year_data
          else attach_tables rest current_year (append_table y t year_data)
      | None => attach_tables rest current_year year_data
      end
  end.

(** [extract_payroll_tables(soup)] *)
Definition extract_payroll_tables (elems : list element) : gmap Z (list T) :=
  attach_tables elems None (list_years elems ∅).

End ExtractPayrollTables.

(** The loop of [scrape_payrolls] that chooses the frame of a year.  Each
    table is given by what [table_to_dataframe] makes of it; [df] is the
    variable of that name. *)
Fixpoint choose_frame (tables : list (option DataFrame)) (df : option DataFrame)
  : option DataFrame :=
  match tables with
  | [] => df
  | table :: rest =>
      match table with
      | Some d =>
          if Nat.leb 20 (Frame.nrows d) then Some d else choose_frame rest (Some d)
      | None => choose_frame rest None
      end
  end.

(** The result dict of [scrape_payrolls]: the failure with its message,
    or the files created, each given by its year and the frame written to
    [Salaries_{year}.csv], and the years processed. *)
Inductive payroll_report :=
  | Failure (error : string)
  | Success (files_created : list (Z * DataFrame)) (years_processed : list Z).

(** The body of the loop over [sorted(year_tables.keys())]. *)
Definition scrape_one_year (start_year end_year : Z)
    (year_tables : gmap Z (list (option DataFrame)))
    (acc : list (Z * DataFrame) * list Z) (year : Z)
  : list (Z * DataFrame) * list Z :=
  if ((year <? start_year) || (end_year <? year))%bool%Z then acc
  else
    match year_tables !! year with
    | None | Some [] => acc
    | Some tables =>
        match choose_frame tables None with
        | Some df =>
            if Frame.empty df then acc
            else ((fst acc ++ [(year, df)])%list, (snd acc ++ [year])%list)
        | None => acc
        end
    end.

(** [scrape_payrolls(base_path, start_year, end_year)].  With no year
    between the bounds, [create_directory_structure] raises [ValueError]
    ([min] of an empty list).  [get] is the outcome of
    [self.driver.get], [loaded] that of [wait_for_page_load], which
    returns [False] on a [TimeoutException] and lets other exceptions
    through, and [elems] what the page holds. *)
Definition scrape_payrolls (get : result unit) (loaded : result bool)
    (elems : list (element (option DataFrame))) (start_year end_year : Z)
  : result payroll_report :=
  if (end_year <? start_year)%Z then Raise ValueError
  else
    bind get (fun _ =>
    bind loaded (fun loaded =>
      if negb loaded then Ok (Failure "Page load failed")
      else
        let year_tables := extract_payroll_tables (option DataFrame) elems in
        let years := SalaryDataCleaner.sort_asc (map fst (map_to_list year_tables)) in
        let '(files_created, years_processed) :=
          fold_left (scrape_one_year start_year end_year year_tables) years ([], []) in
        Ok (Success files_created years_processed))).

End SalaryScraper.



(* ===================================================================== *)
(** * [baseball_scraper.py]: cleaning and saving the tables of a year      *)
(* ===================================================================== *)

Module BaseballScraperYear.
Import stdpp.base stdpp.gmap stdpp.strings.
Import PyStr.
Local Open Scope Z_scope.

(** A cell of a frame that [pd.read_html] built: a Python [str], or a
    value of another type (a number, NaN), given by its [str()]. *)
Inductive value :=
  | Str (s : string)
  | NonStr (repr : string).

(** A frame, column by column: [df.columns] is an [Index] of names, or a
    [MultiIndex] of tuples of names. *)
Inductive frame :=
  | Flat (cols : list (string * list value))
  | Multi (cols : list (list string * list value)).

(** The exceptions of this part: the ones of [exn], [AttributeError],
    and any other exception, given by the name of its class. *)
Inductive error :=
  | AttributeError
  | Builtin (e : exn)
  | Other (name : string).

Inductive outcome (A : Type) :=
  | Returns (a : A)
  | Raises (e : error).
Arguments Returns {A} a.
Arguments Raises {A} e.

(** [sep.join(parts)] *)
Fixpoint join (sep : string) (parts : list string) : string :=
  match parts with
  | [] => ""
  | [p] => p
  | p :: rest => p ++ sep ++ join sep rest
  end.

(** The columns after
    [df.columns = [' '.join(col).strip() ... for col in df.columns]],
    which is run for a [MultiIndex] only. *)
Definition flatten (df : frame) : list (string * list value) :=
  match df with
  | Flat cols => cols
  | Multi cols => map (fun c => (strip (join " " (fst c)), snd c)) cols
  end.

(** [value != label], for a label that is a [str] *)
Definition differs (label : string) (v : value) : bool :=
  match v with
  | Str s => negb (String.eqb s label)
  | NonStr _ => true
  end.

(** What [astype(str)] makes of a cell. *)
Definition astype_str (v : value) : string :=
  match v with
  | Str s => s
  | NonStr repr => repr
  end.

(** [str.contains('Avg|Average|League', case=False, na=False)] *)
Definition league_row (s : string) : bool :=
  (contains "avg" (lower s) || contains "average" (lower s)
   || contains "league" (lower s))%bool.

(** [xs[mask]]: the entries at the positions where the mask is true. *)
Fixpoint keep {A : Type} (mask : list bool) (xs : list A) : list A :=
  match mask, xs with
  | b :: mask', x :: xs' => if b then x :: keep mask' xs' else keep mask' xs'
  | _, _ => []
  end.

(** [df[mask]] *)
Definition keep_rows (mask : list bool) (cols : list (string * list value))
  : list (string * list value) :=
  map (fun c => (fst c, keep mask (snd c))) cols.

(** How many columns bear the name. *)
Definition count_name (name : string) (cols : list (string * list value)) : nat :=
  List.length (List.filter (fun c => String.eqb (fst c) name) cols).

(** [df.empty] *)
Definition empty (df : frame) : bool :=
  match flatten df with
  | [] => true
  | (_, cells) :: _ => Nat.eqb (List.length cells) 0
  end.

(** [clean_dataframe(df)].  [df.iloc[:, 0]] raises [IndexError] on a
    frame without columns; [df[first_col]] is a frame, which has no
    [.str], when several columns bear the name of the first one. *)
Definition clean_dataframe (df : option frame) : outcome (option frame) :=
  match df with
  | None => Returns None
  | Some df =>
      match flatten df with
      | [] => Raises (Builtin IndexError)
      | (label, cells) :: rest =>
          let df := keep_rows (map (differs label) cells) ((label, cells) :: rest) in
          match df with
          | [] => Raises (Builtin IndexError)
          | (first_col, cells) :: _ =>
              if Nat.ltb 1 (count_name first_col df) then Raises AttributeError
              else
                Returns (Some (Flat
                  (keep_rows (map (fun v => negb (league_row (astype_str v))) cells) df)))
          end
      end
  end.

(** The files of a year: [f"{kind}_{year}.csv"]. *)
Inductive kind := Batting | Pitching | Fielding | WAA_Positions | Postseason.

(** [table_mapping.items()], each file name given by its kind. *)
Definition table_mapping : list (string * kind) :=
  [ ("teams_standard_batting", Batting);
    ("teams_standard_pitching", Pitching);
    ("teams_standard_fielding", Fielding);
    ("team_output", WAA_Positions);
    ("postseason", Postseason) ].

(** [alternatives]: [None] for a file name that is no key. *)
Definition alternatives (filename : kind) : option (list string) :=
  match filename with
  | Batting => Some ["teams_batting"; "teams_batting_totals"]
  | Pitching => Some ["teams_pitching"; "teams_pitching_totals"]
  | Fielding => Some ["teams_fielding"; "teams_fielding_totals"]
  | WAA_Positions => Some ["teams_war_batting"; "teams_pos_batting"]
  | Postseason => None
  end.

(** The result dict of [scrape_year]: the failure with its message, or
    the files created, each given by its kind and the frame written, and
    the tables found (the keys of [all_tables]; their order is not
    kept). *)
Inductive report :=
  | Failure (error : string)
  | Success (files_created : list (kind * frame)) (tables_found : gset string).

(** [for alt_id in alternatives[filename]]: the frame to write, if any. *)
Fixpoint try_alternatives (all_tables : gmap string frame) (alt_ids : list string)
  : outcome (option frame) :=
  match alt_ids with
  | [] => Returns None
  | alt_id :: rest =>
      match all_tables !! alt_id with
      | Some table =>
          match clean_dataframe (Some table) with
          | Raises e => Raises e
          | Returns (Some df) =>
              if empty df then try_alternatives all_tables rest else Returns (Some df)
          | Returns None => try_alternatives all_tables rest
          end
      | None => try_alternatives all_tables rest
      end
  end.

(** The body of [for table_id, filename in table_mapping.items()]. *)
Definition save_table (all_tables : gmap string frame)
    (files_created : list (kind * frame)) (table_id : string) (filename : kind)
  : outcome (list (kind * frame)) :=
  match all_tables !! table_id with
  | Some table =>
      match clean_dataframe (Some table) with
      | Raises e => Raises e
      | Returns (Some df) =>
          if empty df then Returns files_created
          else Returns (files_created ++ [(filename, df)])%list
      | Returns None => Returns files_created
      end
  | None =>
      match alternatives filename with
      | Some alt_ids =>
          match try_alternatives all_tables alt_ids with
          | Raises e => Raises e
          | Returns (Some df) => Returns (files_created ++ [(filename, df)])%list
          | Returns None => Returns files_created
          end
      | None => Returns files_created
      end
  end.

Fixpoint save_tables (all_tables : gmap string frame)
    (mapping : list (string * kind)) (files_created : list (kind * frame))
  : outcome (list (kind * frame)) :=
  match mapping with
  | [] => Returns files_created
  | (table_id, filename) :: rest =>
      match save_table all_tables files_created table_id filename with
      | Raises e => Raises e
      | Returns files_created => save_tables all_tables rest files_created
      end
  end.

(** [scrape_year(year, base_path, max_time)].  [time] gives the readings
    of [time.time()], [get] is [None] when [self.driver.get] returns and
    the text of its exception otherwise, [loaded] is the outcome of
    [wait_for_page_load], which returns [False] on a [TimeoutException]
    and lets every other exception through, and [page_source] is what
    [get_all_tables] finds the page to be.  The directory and the files
    are taken to be written without error. *)
Definition scrape_year (time : BaseballScraper.clock) (get : option string)
    (loaded : outcome bool) (page_source : result (BaseballScraper.page frame))
    (max_time : Z) : outcome report :=
  let start_time := time 0%nat in
  match get with
  | Some e => Returns (Failure ("Navigation failed: " ++ e))
  | None =>
      match loaded with
      | Raises e => Raises e
      | Returns false => Returns (Failure "Page load failed")
      | Returns true =>
        let elapsed := time 1%nat - start_time in
        if max_time <? elapsed then Returns (Failure "Timeout during page load")
        else
          let elapsed := time 2%nat - start_time in
          let remaining_time := max_time - elapsed in
          if remaining_time <? 10 then Returns (Failure "Timeout before table extraction")
          else
            match BaseballScraper.get_all_tables frame (fun n => time (3 + n)%nat)
                    (Z.min remaining_time 60) page_source with
            | Raise e => Raises (Builtin e)
            | Ok all_tables =>
                match save_tables all_tables table_mapping [] with
                | Raises e => Raises e
                | Returns files_created =>
                    Returns (Success files_created (dom all_tables))
                end
            end
      end
  end.

End BaseballScraperYear.

(* ===================================================================== *)
(** ** Definitions used to state the theorems                             *)
(* ===================================================================== *)

(** [str(n)] for a Python integer: its plain decimal string. *)
Definition str_of_int (n : Z) : string := NilEmpty.string_of_int (Z.to_int n).

(** The integer that the digits of [d] denote, after the digits already
    read as [acc]. *)
Fixpoint uint_value (d : Decimal.uint) (acc : Z) : Z :=
  match d with
  | Decimal.Nil => acc
  | Decimal.D0 d' => uint_value d' (acc * 10 + 0)
  | Decimal.D1 d' => uint_value d' (acc * 10 + 1)
  | Decimal.D2 d' => uint_value d' (acc * 10 + 2)
  | Decimal.D3 d' => uint_value d' (acc * 10 + 3)
  | Decimal.D4 d' => uint_value d' (acc * 10 + 4)
  | Decimal.D5 d' => uint_value d' (acc * 10 + 5)
  | Decimal.D6 d' => uint_value d' (acc * 10 + 6)
  | Decimal.D7 d' => uint_value d' (acc * 10 + 7)
  | Decimal.D8 d' => uint_value d' (acc * 10 + 8)
  | Decimal.D9 d' => uint_value d' (acc * 10 + 9)
  end.

Fixpoint all_chars (p : ascii -> bool) (s : string) : bool :=
  match s with
  | EmptyString => true
  | String c s' => (p c && all_chars p s')%bool
  end.

(** An ASCII character.  On a text of ASCII characters the string
    operations of [PyStr], the classes [\d], [\w], [\s] and the case
    mappings are those of Python; on other characters Python follows
    Unicode. *)
Definition is_ascii (c : ascii) : bool := Nat.ltb (PyStr.code c) 128.

(** The characters of [str(n)]. *)
Definition dash_or_digit (c : ascii) : bool :=
  (PyStr.is_digit c || Ascii.eqb c "-")%bool.

(** [re.search] for the abbreviation pattern of [old]: whether it matches
    somewhere in [s]. *)
Fixpoint abbr_search (old : string) (prev_word : bool) (s : string) : bool :=
  match s with
  | EmptyString => false
  | String c s' =>
      (BaseballDataCleaner.abbr_match old prev_word s
       || abbr_search old (PyStr.is_word c) s')%bool
  end.







Module Discovery.
Import stdpp.base stdpp.gmap stdpp.strings.
Import BaseballScraper.

(** The time check made at reading number [n] of the clock. *)
Definition over (time : clock) (timeout_seconds : Z) (n : nat) : bool :=
  over_budget time timeout_seconds (time 0%nat) n.

Section Accumulated.
Variable DF : Type.

(** The visible loop and the comment loop without their time checks. *)
Definition scan_visible (ts : list (table_elem DF)) (tables : gmap string DF)
  : gmap string DF :=
  fold_left (fun acc t => add_visible DF t acc) ts tables.

Definition scan_comments (cs : list (comment DF)) (tables : gmap string DF)
  : gmap string DF :=
  fold_left (fun acc c => add_comment DF c acc) cs tables.

(** The dictionary after the first [i] visible tables and the first [j]
    comment blocks of the page. *)
Definition accumulated (src : page DF) (i j : nat) : gmap string DF :=
  scan_comments (firstn j (comments DF src))
                (scan_visible (firstn i (visible DF src)) ∅).

(** The page offers the table [df] under [id]: a visible table, or a
    table of a comment block with the text [<table] in it, has this id
    and was read as [df]. *)
Definition offered (src : page DF) (id : string) (df : DF) : Prop :=
  (exists t, In t (visible DF src) /\ table_id DF t = id /\ read_html DF t = Ok df)
  \/ (exists c ts t,
        In c (comments DF src) /\ has_table_tag DF c = true
        /\ comment_tables DF c = Ok ts
        /\ In t ts /\ table_id DF t = id /\ read_html DF t = Ok df).

(** Every entry of the dictionary comes from the page. *)
Definition from_page (src : page DF) (tables : gmap string DF) : Prop :=
  forall id df, tables !! id = Some df -> id <> "" /\ offered src id df.

End Accumulated.
End Discovery.

(** A small page and a clock that advances by 10 at every reading, used
    as a concrete instance below: two visible tables, and a comment that
    hides a table with the id of the first one and a new one. *)
Definition sample_page : BaseballScraper.page nat :=
  {| BaseballScraper.visible :=
       [ {| BaseballScraper.table_id := "batting"; BaseballScraper.read_html := Ok 1%nat |};
         {| BaseballScraper.table_id := "pitching"; BaseballScraper.read_html := Ok 2%nat |} ];
     BaseballScraper.comments :=
       [ {| BaseballScraper.has_table_tag := true;
            BaseballScraper.comment_tables :=
              Ok [ {| BaseballScraper.table_id := "batting";
                      BaseballScraper.read_html := Ok 3%nat |};
                   {| BaseballScraper.table_id := "fielding";
                      BaseballScraper.read_html := Ok 4%nat |} ] |} ] |}.

Definition sample_clock : BaseballScraper.clock := fun n => Z.of_nat n * 10.

(** A table of three rows with a team column, an average-salary column
    and a total-payroll column, and the same table with the two money
    columns in the other order. *)
Definition three_teams : DataFrame :=
  [ ("Team", [Some "Boston Red Sox"; Some "New York Yankees"; Some "Chicago Cubs"]);
    ("AvgSalary", [Some "$3,000,000"; Some "$2,900,000"; Some "$2,800,000"]);
    ("TotalPayroll", [Some "$150,000,000"; Some "$120,000,000"; Some "$80,000,000"]) ].

Definition three_teams_swapped : DataFrame :=
  [ ("Team", [Some "Boston Red Sox"; Some "New York Yankees"; Some "Chicago Cubs"]);
    ("TotalPayroll", [Some "$150,000,000"; Some "$120,000,000"; Some "$80,000,000"]);
    ("AvgSalary", [Some "$3,000,000"; Some "$2,900,000"; Some "$2,800,000"]) ].

(** Ten teams with their average salary and total payroll; the total
    payroll comes first and its header carries no keyword at all. *)
Definition ten_teams : DataFrame :=
  [ ("Club",
     [ Some "1. New York Yankees"; Some "2. Boston Red Sox"; Some "3. Chicago Cubs";
       Some "4. Los Angeles Dodgers"; Some "5. Seattle Mariners"; Some "6. Atlanta Braves";
       Some "7. Houston Astros"; Some "8. Texas Rangers"; Some "9. Detroit Tigers";
       Some "10. Minnesota Twins" ]);
    ("2004",
     [ Some "$150,000,000"; Some "$140,000,000"; Some "$130,000,000"; Some "$120,000,000";
       Some "$110,000,000"; Some "$100,000,000"; Some "$95,000,000"; Some "$90,000,000";
       Some "$85,000,000"; Some "$80,000,000" ]);
    ("Avg Salary",
     [ Some "$3,000,000"; Some "$2,900,000"; Some "$2,800,000"; Some "$2,700,000";
       Some "$2,600,000"; Some "$2,500,000"; Some "$2,400,000"; Some "$2,300,000";
       Some "$2,200,000"; Some "$2,100,000" ]) ].

(** The ten teams again, with one more row for the Yankees under another
    spelling and another amount. *)
Definition one_more_row (team payroll avg : string) (df : DataFrame) : DataFrame :=
  map (fun col : string * list cell =>
         (fst col,
          (snd col ++ [Some (if String.eqb (fst col) "Club" then team
                             else if String.eqb (fst col) "2004" then payroll
                                  else avg)])%list))
      df.

Definition duplicate_team : DataFrame :=
  one_more_row "11. NY Yankees" "$149,000,000" "$2,000,000" ten_teams.

(** The ten teams with two more rows whose clubs are in no table. *)
Definition unknown_teams : DataFrame :=
  one_more_row "12. SK" "$98,000,000" "$1,900,000"
    (one_more_row "11. Yomiuri" "$99,000,000" "$2,000,000" ten_teams).

(** A token that matches nothing: not a key of the mapping, not a valid
    name, and no key contains it or is contained in it. *)
Definition matches_nothing (s : string) : bool :=
  let name := SalaryDataCleaner.bare_name s in
  match PyStr.lookup name SalaryDataCleaner.TEAM_NAME_MAPPINGS with
  | Some _ => false
  | None =>
      (negb (PyStr.mem name SalaryDataCleaner.VALID_TEAM_NAMES)
       && match SalaryDataCleaner.partial_match (PyStr.lower name)
                  SalaryDataCleaner.TEAM_NAME_MAPPINGS with
          | Some _ => false
          | None => true
          end)%bool
  end.

(** Payrolls from the greatest to the least. *)
Fixpoint descending (l : list PayrollRecord) : Prop :=
  match l with
  | [] => True
  | x :: l' => Forall (fun y => Payroll y <= Payroll x) l' /\ descending l'
  end.

(** The first character of a string. *)
Definition first_char (s : string) : option ascii :=
  match s with
  | EmptyString => None
  | String c _ => Some c
  end.

(** No white space at the start, resp. at the end. *)
Definition head_ok (s : string) : bool :=
  match first_char s with
  | Some c => negb (PyStr.is_space c)
  | None => true
  end.

Definition tail_ok (s : string) : bool :=
  match PyStr.last_char s with
  | Some c => negb (PyStr.is_space c)
  | None => true
  end.

Definition is_letter (c : ascii) : bool :=
  (PyStr.is_upper c || PyStr.is_lower c)%bool.

Definition starts_with_letter (s : string) : bool :=
  match s with
  | String a _ => is_letter a
  | EmptyString => false
  end.

Definition all_ascii : list ascii := map ascii_of_nat (seq 0 256).


(** A frame of twenty rows. *)
Definition twenty_rows : DataFrame :=
  [("Team", repeat (Some "Boston Red Sox") 20); ("Payroll", repeat (Some "$1") 20)].

(** What the loop of [scrape_payrolls] saves for a year: the year is
    within the bounds, and the frame kept from the year's tables is
    there and not empty. *)
Definition saved (start_year end_year : Z)
    (year_tables : stdpp.gmap.gmap Z (list (option DataFrame)))
    (year : Z) (df : DataFrame) : Prop :=
  start_year <= year <= end_year
  /\ Frame.empty df = false
  /\ exists tables,
       stdpp.base.lookup year year_tables = Some tables
       /\ SalaryScraper.choose_frame tables None = Some df.

(** A page with one section before the bounds and one within. *)
Definition payroll_page : list (SalaryScraper.element (option DataFrame)) :=
  [ SalaryScraper.Heading _ "1997 MLB Payrolls";
    SalaryScraper.Table _ (Some twenty_rows);
    SalaryScraper.Heading _ "2019 MLB Team Payrolls";
    SalaryScraper.Table _ (Some three_teams);
    SalaryScraper.Table _ (Some twenty_rows);
    SalaryScraper.Table _ None ].


(** Where the frame of a file of [scrape_year] comes from: the cleaned
    table under the primary id of the file, or, when that id is no key,
    the cleaned table under one of the alternative ids. *)
Definition written_from
    (all_tables : stdpp.gmap.gmap string BaseballScraperYear.frame)
    (filename : BaseballScraperYear.kind) (df : BaseballScraperYear.frame) : Prop :=
  BaseballScraperYear.empty df = false
  /\ exists table_id table,
       stdpp.base.lookup table_id all_tables = Some table
       /\ BaseballScraperYear.clean_dataframe (Some table)
          = BaseballScraperYear.Returns (Some df)
       /\ (In (table_id, filename) BaseballScraperYear.table_mapping
           \/ exists primary alt_ids,
                In (primary, filename) BaseballScraperYear.table_mapping
                /\ stdpp.base.lookup primary all_tables = None
                /\ BaseballScraperYear.alternatives filename = Some alt_ids
                /\ In table_id alt_ids).

(** A batting table with a repeated header row and a league row, under a
    two-level header. *)
Definition batting_table : BaseballScraperYear.frame :=
  BaseballScraperYear.Multi
    [ (["Unnamed: 0_level_0"; "Tm"],
       [BaseballScraperYear.Str "Boston Red Sox"; BaseballScraperYear.Str "Unnamed: 0_level_0 Tm";
        BaseballScraperYear.Str "New York Yankees"; BaseballScraperYear.Str "League Average";
        BaseballScraperYear.NonStr "nan"]);
      (["Batting"; "R"],
       [BaseballScraperYear.NonStr "735"; BaseballScraperYear.Str "R";
        BaseballScraperYear.NonStr "804"; BaseballScraperYear.NonStr "728";
        BaseballScraperYear.NonStr "nan"]) ].

(** A table whose rows are all header repeats. *)
Definition header_only_table : BaseballScraperYear.frame :=
  BaseballScraperYear.Flat
    [ ("Tm", [BaseballScraperYear.Str "Tm"; BaseballScraperYear.Str "Tm"]);
      ("R", [BaseballScraperYear.Str "R"; BaseballScraperYear.Str "R"]) ].

(** A table in which two columns bear the name of the first. *)
Definition twin_columns_table : BaseballScraperYear.frame :=
  BaseballScraperYear.Flat
    [ ("Tm", [BaseballScraperYear.Str "Boston Red Sox"]);
      ("Tm", [BaseballScraperYear.Str "BOS"]) ].

(** A page of [scrape_year]: the primary batting table only repeats its
    header, an alternative batting table is there, and the pitching
    table is found under an alternative id. *)
Definition year_page : BaseballScraper.page BaseballScraperYear.frame :=
  {| BaseballScraper.visible :=
       [ {| BaseballScraper.table_id := "teams_standard_batting";
            BaseballScraper.read_html := Ok header_only_table |};
         {| BaseballScraper.table_id := "teams_batting";
            BaseballScraper.read_html := Ok batting_table |};
         {| BaseballScraper.table_id := "teams_pitching_totals";
            BaseballScraper.read_html := Ok batting_table |} ];
     BaseballScraper.comments := [] |}.

(** Clock readings one unit apart. *)
Definition steady_clock : BaseballScraper.clock := fun n => Z.of_nat n.

(** What cleaning makes of [batting_table]. *)
Definition batting_cleaned : BaseballScraperYear.frame :=
  BaseballScraperYear.Flat
    [ ("Unnamed: 0_level_0 Tm",
       [BaseballScraperYear.Str "Boston Red Sox"; BaseballScraperYear.Str "New York Yankees";
        BaseballScraperYear.NonStr "nan"]);
      ("Batting R",
       [BaseballScraperYear.NonStr "735"; BaseballScraperYear.NonStr "804";
        BaseballScraperYear.NonStr "nan"]) ].

(** The tables that discovery finds on [year_page]. *)
Definition year_tables : stdpp.gmap.gmap string BaseballScraperYear.frame :=
  stdpp.base.insert "teams_standard_batting" header_only_table
    (stdpp.base.insert "teams_batting" batting_table
       (stdpp.base.insert "teams_pitching_totals" batting_table stdpp.base.empty)).

(** A page whose fielding table has two columns of one name. *)
Definition twin_page : BaseballScraper.page BaseballScraperYear.frame :=
  {| BaseballScraper.visible :=
       [ {| BaseballScraper.table_id := "teams_standard_fielding";
            BaseballScraper.read_html := Ok twin_columns_table |} ];
     BaseballScraper.comments := [] |}.


(** The cell of row [i] in a column; a row beyond the end of the column
    has a missing value there. *)
Definition cell_at (i : nat) (cs : list cell) : cell := nth i cs None.

(** Every column has as many cells as the frame has rows. *)
Definition rectangular (df : DataFrame) : Prop :=
  Forall (fun c => List.length (snd c) = Frame.nrows df) df.

(** The words of the filter on the first column: a text with one of
    them, in any letter case, marks a repeated header or a league row. *)
Definition names_a_summary (text : string) : bool :=
  existsb (fun word => PyStr.contains word (PyStr.lower text))
          ["league"; "average"; "avg"; "total"; "rank"].

(** Row [i] of the input passes the two filters at the top of
    [clean_dataframe]: some cell of it is present, and the text of its
    first cell ([nan] for a missing one) names no summary. *)
Definition row_passes (df : DataFrame) (i : nat) : bool :=
  (negb (forallb (fun c => Frame.is_na (cell_at i (snd c))) df)
   && negb (names_a_summary
              (match cell_at i (Frame.first_column df) with
               | Some text => text
               | None => "nan"
               end)))%bool.

(** The record that row [i] of the input leaves in the cleaned table,
    if any. *)
Definition row_record (df : DataFrame) (team_col payroll_col : string) (i : nat)
  : option PayrollRecord :=
  if row_passes df i then
    match SalaryDataCleaner.clean_row (cell_at i (Frame.column team_col df))
                                      (cell_at i (Frame.column payroll_col df)) with
    | Ok (SalaryDataCleaner.Appended r) => Some r
    | _ => None
    end
  else None.








(* ===================================================================== *)
(** * Theorems                                                            *)
(* ===================================================================== *)

Import PyStr PyFloat.

(** ** Team-name normalization *)

(** C10.  In the salary cleaner the variant [N.Y. Mets] is sent to the
    Yankees while [NY Mets] is sent to the Mets: two variants of one
    franchise end at two different canonical names. *)
Theorem mets_variants_diverge :
  SalaryDataCleaner.standardize_team_name (Some "N.Y. Mets") = Some "New York Yankees"
  /\ SalaryDataCleaner.standardize_team_name (Some "NY Mets") = Some "New York Mets"
  /\ SalaryDataCleaner.standardize_team_name (Some "N.Y. Mets")
     <> SalaryDataCleaner.standardize_team_name (Some "NY Mets").
Proof.
  repeat split; try (vm_compute; reflexivity).
  vm_compute. discriminate.
Qed.

(** C8.  There are 30 canonical names, the statistics cleaner knows the
    same 30, and each of them is a fixed point of [standardize_team_name]
    in the salary cleaner and in the statistics cleaner.  Both functions
    are total: neither has a path that raises. *)
Theorem canonical_names_fixed :
  List.length SalaryDataCleaner.VALID_TEAM_NAMES = 30%nat
  /\ Permutation (map fst BaseballDataCleaner.STANDARD_TEAM_NAMES)
                 SalaryDataCleaner.VALID_TEAM_NAMES
  /\ Forall (fun c =>
               SalaryDataCleaner.standardize_team_name (Some c) = Some c
               /\ BaseballDataCleaner.standardize_team_name (Some c) = Some c)
            SalaryDataCleaner.VALID_TEAM_NAMES.
Proof.
  split; [reflexivity | split].
  - cbn [map fst BaseballDataCleaner.STANDARD_TEAM_NAMES
         SalaryDataCleaner.VALID_TEAM_NAMES].
    do 23 apply perm_skip.
    eapply perm_trans; [apply perm_swap |].
    reflexivity.
  - unfold SalaryDataCleaner.VALID_TEAM_NAMES.
    repeat (apply Forall_cons; [split; vm_compute; reflexivity |]).
    apply Forall_nil.
Qed.

(** ** The curated override for 1998 *)

(** C2.  For the year 1998 [process_file] does not look at the scraped
    file at all: whatever reading it would give (a table, or an error),
    the records written are the curated list itself, and the call
    reports success with 30 rows.  The list has one record for each of
    the 30 canonical teams, Baltimore's being 71860921. *)
Theorem process_file_1998 :
  forall read_csv : result DataFrame,
    SalaryDataCleaner.process_file read_csv 1998
    = (Some SalaryDataCleaner.HARDCODED_1998, (true, 30%nat))
    /\ List.length SalaryDataCleaner.HARDCODED_1998 = 30%nat
    /\ nth_error SalaryDataCleaner.HARDCODED_1998 0
       = Some {| Tm := "Baltimore Orioles"; Payroll := 71860921 |}
    /\ NoDup (map Tm SalaryDataCleaner.HARDCODED_1998)
    /\ incl (map Tm SalaryDataCleaner.HARDCODED_1998)
            SalaryDataCleaner.VALID_TEAM_NAMES.
Proof.
  intros read_csv. repeat split.
  - apply (NoDup_count_occ' string_dec). intros x Hx.
    cbn [map Tm SalaryDataCleaner.HARDCODED_1998] in Hx.
    repeat (destruct Hx as [<- | Hx]; [vm_compute; reflexivity |]).
    destruct Hx.
  - intros x Hx.
    cbn [map Tm SalaryDataCleaner.HARDCODED_1998] in Hx.
    repeat (destruct Hx as [<- | Hx]; [vm_compute; tauto |]).
    destruct Hx.
Qed.

(** ** Currency parsing *)

(** *** Integers that binary64 holds exactly *)

Lemma digits2_bounds (p : positive) :
  2 ^ (Z.pos (digits2_pos p) - 1) <= Z.pos p < 2 ^ Z.pos (digits2_pos p).
Proof.
  induction p as [p IH | p IH |]; cbn [digits2_pos].
  - rewrite Pos2Z.inj_succ.
    replace (Z.succ (Z.pos (digits2_pos p)) - 1) with (Z.succ (Z.pos (digits2_pos p) - 1)) by lia.
    rewrite !Z.pow_succ_r by lia. lia.
  - rewrite Pos2Z.inj_succ.
    replace (Z.succ (Z.pos (digits2_pos p)) - 1) with (Z.succ (Z.pos (digits2_pos p) - 1)) by lia.
    rewrite !Z.pow_succ_r by lia. lia.
  - cbn. lia.
Qed.

Lemma iter_xO_spec (p k : positive) :
  Z.pos (Pos.iter xO p k) = Z.pos p * 2 ^ Z.pos k
  /\ digits2_pos (Pos.iter xO p k) = (digits2_pos p + k)%positive.
Proof.
  apply Pos.iter_ind.
  - split; [lia | cbn [digits2_pos]; lia].
  - intros k' m [Hv Hd]. split.
    + rewrite Pos2Z.inj_xO, Hv, Pos2Z.inj_succ, Z.pow_succ_r by lia. lia.
    + cbn [digits2_pos]. rewrite Hd. lia.
Qed.

(** A 53-bit mantissa with an exponent in range is already rounded. *)
Lemma binary_round_aux_exact (s : bool) (m : positive) (e : Z) :
  digits2_pos m = 53%positive -> -1074 <= e <= 971 ->
  binary_round_aux prec emax s (Z.pos m) e loc_Exact = S754_finite s m e.
Proof.
  intros Hd He.
  assert (Hshift : fexp prec emax (Zdigits2 (Z.pos m) + e) - e = 0).
  { unfold fexp, emin, Zdigits2, prec, emax. rewrite Hd. lia. }
  unfold binary_round_aux, shr_fexp.
  rewrite Hshift. cbn [shr shr_record_of_loc shr_m loc_of_shr_record round_nearest_even].
  rewrite Hshift. cbn [shr shr_record_of_loc shr_m].
  replace (e <=? emax - prec) with true; [reflexivity |].
  symmetry. apply Z.leb_le. unfold emax, prec. lia.
Qed.

(** [int(float(n))] is [n] up to 2^53 in absolute value. *)
Lemma int_of_binary_round (s : bool) (p : positive) :
  Z.pos p <= 2 ^ 53 ->
  int_of_float (binary_round prec emax s p 0)
  = Ok (if s then Z.neg p else Z.pos p).
Proof.
  intros Hle.
  pose proof (digits2_bounds p) as Hb.
  set (d := digits2_pos p) in *.
  assert (Hd54 : Z.pos d <= 54).
  { destruct (Z_le_gt_dec (Z.pos d) 54) as [|Hgt]; [assumption | exfalso].
    assert (2 ^ 54 <= 2 ^ (Z.pos d - 1)) by (apply Z.pow_le_mono_r; lia).
    assert (2 ^ 53 < 2 ^ 54) by (apply Z.pow_lt_mono_r; lia).
    lia. }
  destruct (Z.eq_dec (Z.pos d) 54) as [E54 | N54].
  - (* p = 2^53 *)
    assert (Z.pos p = 2 ^ 53) as Hp.
    { rewrite E54 in Hb. replace (54 - 1) with 53 in Hb by lia. lia. }
    assert (p = 9007199254740992%positive) as -> by (apply Pos2Z.inj; rewrite Hp; reflexivity).
    destruct s; vm_compute; reflexivity.
  - unfold binary_round, shl_align.
    fold d.
    assert (Hf : fexp prec emax (Z.pos d + 0) = Z.pos d - 53).
    { unfold fexp, emin, prec, emax. lia. }
    rewrite Hf.
    destruct (Z.pos d - 53 - 0) as [| q | q] eqn:Hq; try lia.
    + (* 53 bits already *)
      rewrite binary_round_aux_exact by (try lia; apply Pos2Z.inj; fold d; lia).
      cbn [int_of_float]. cbn [Z.leb Z.compare]. rewrite Z.pow_0_r, Z.mul_1_r.
      destruct s; reflexivity.
    + destruct (iter_xO_spec p q) as [Hv Hdig]. fold d in Hdig.
      rewrite binary_round_aux_exact by (try lia; rewrite Hdig; apply Pos2Z.inj; lia).
      cbn [int_of_float].
      replace (0 <=? Z.pos d - 53) with false by (symmetry; apply Z.leb_gt; lia).
      rewrite Hv. replace (- (Z.pos d - 53)) with (Z.pos q) by lia.
      rewrite Z.div_mul by (apply Z.pow_nonzero; lia).
      destruct s; reflexivity.
Qed.

Lemma int_of_Z_exact (n : Z) :
  - 2 ^ 53 <= n <= 2 ^ 53 ->
  int_of_float (binary_normalize prec emax n 0 false) = Ok n.
Proof.
  intros H. destruct n as [| p | p]; cbn [binary_normalize].
  - reflexivity.
  - apply (int_of_binary_round false). lia.
  - apply (int_of_binary_round true). lia.
Qed.

(** *** Strings of digits *)

Lemma all_chars_impl (p q : ascii -> bool) (s : string) :
  (forall c, p c = true -> q c = true) ->
  all_chars p s = true -> all_chars q s = true.
Proof.
  intros Hpq. induction s as [| c s IH]; cbn; [reflexivity |].
  intros H. apply andb_prop in H as [Hc Hs].
  rewrite (Hpq c Hc), (IH Hs). reflexivity.
Qed.

Lemma rev_onto_rev_onto (s a b : string) :
  rev_onto (rev_onto s a) b = rev_onto a (s ++ b).
Proof.
  revert a b. induction s as [| c s IH]; intros a b; cbn; [reflexivity |].
  rewrite IH. reflexivity.
Qed.

Lemma append_empty_r (s : string) : s ++ "" = s.
Proof.
  induction s as [| c s IH]; [reflexivity |].
  change (String c (s ++ "") = String c s). rewrite IH. reflexivity.
Qed.

Lemma rev_involutive (s : string) : rev (rev s) = s.
Proof. unfold rev. rewrite rev_onto_rev_onto. cbn [rev_onto]. apply append_empty_r. Qed.

Lemma all_chars_rev_onto (p : ascii -> bool) (s a : string) :
  all_chars p (rev_onto s a) = (all_chars p s && all_chars p a)%bool.
Proof.
  revert a. induction s as [| c s IH]; intros a; cbn; [reflexivity |].
  rewrite IH. cbn. destruct (p c), (all_chars p s); reflexivity.
Qed.

Lemma lstrip_no_space (s : string) :
  all_chars (fun c => negb (is_space c)) s = true -> lstrip s = s.
Proof.
  destruct s as [| c s]; cbn; [reflexivity |].
  intros H. apply andb_prop in H as [Hc _].
  destruct (is_space c); [discriminate | reflexivity].
Qed.

Lemma strip_no_space (s : string) :
  all_chars (fun c => negb (is_space c)) s = true -> strip s = s.
Proof.
  intros H. unfold strip, rstrip. rewrite (lstrip_no_space s H).
  rewrite lstrip_no_space; [apply rev_involutive |].
  unfold rev. rewrite all_chars_rev_onto, H. reflexivity.
Qed.

Lemma replace_char_absent (a : ascii) (new s : string) :
  all_chars (fun c => negb (Ascii.eqb a c)) s = true ->
  replace (String a "") new s = s.
Proof.
  unfold replace. induction s as [| c s IH]; cbn; [reflexivity |].
  intros H. apply andb_prop in H as [Hc Hs].
  destruct (Ascii.eqb a c); [discriminate |]. cbn. rewrite (IH Hs). reflexivity.
Qed.

Lemma last_char_map (f : ascii -> ascii) (s : string) :
  last_char (map_chars f s) = option_map f (last_char s).
Proof.
  induction s as [| c s IH]; [reflexivity |].
  destruct s as [| c' s']; [reflexivity |].
  cbn [map_chars last_char] in *. exact IH.
Qed.

Lemma last_char_all (p : ascii -> bool) (s : string) (c : ascii) :
  all_chars p s = true -> last_char s = Some c -> p c = true.
Proof.
  induction s as [| c0 s IH]; [discriminate |].
  intros H Hl. cbn [all_chars] in H. apply andb_prop in H as [Hc Hs].
  destruct s as [| c' s'].
  - cbn in Hl. congruence.
  - apply IH; assumption.
Qed.

Lemma map_chars_id (f : ascii -> ascii) (s : string) :
  all_chars (fun c => Ascii.eqb (f c) c) s = true -> map_chars f s = s.
Proof.
  induction s as [| c s IH]; cbn; [reflexivity |].
  intros H. apply andb_prop in H as [Hc Hs].
  apply Ascii.eqb_eq in Hc. rewrite Hc, (IH Hs). reflexivity.
Qed.

(** What the parser needs to know of a character of [str(n)]. *)
Lemma dash_or_digit_plain (c : ascii) :
  dash_or_digit c = true ->
  negb (is_space c) = true
  /\ negb (Ascii.eqb "$" c) = true
  /\ negb (Ascii.eqb " " c) = true
  /\ negb (Ascii.eqb "," c) = true
  /\ negb (Ascii.eqb (upper_char c) "M") = true
  /\ Ascii.eqb (lower_char c) c = true.
Proof.
  destruct c as [[] [] [] [] [] [] [] []]; vm_compute; intros H;
    try discriminate H; repeat split.
Qed.

Lemma digits_tail_uint (d : Decimal.uint) (acc : Z) (n : nat) :
  digits_tail (NilEmpty.string_of_uint d) acc n
  = (uint_value d acc, (n + Decimal.nb_digits d)%nat, "").
Proof.
  revert acc n.
  induction d as [| d IH | d IH | d IH | d IH | d IH | d IH | d IH | d IH | d IH | d IH];
    intros acc n; cbn [NilEmpty.string_of_uint uint_value Decimal.nb_digits];
    [ cbn; rewrite Nat.add_0_r; reflexivity | .. ];
    cbn [digits_tail is_digit code nat_of_ascii]; cbn -[digits_tail uint_value Z.mul Z.add];
    rewrite IH; rewrite <- plus_n_Sm; reflexivity.
Qed.

Lemma uint_value_spec (d : Decimal.uint) (acc : Z) :
  uint_value d acc
  = Z.of_N (DecimalPos.Unsigned.of_lu (Decimal.rev d))
    + acc * 10 ^ Z.of_N (DecimalPos.Unsigned.usize d).
Proof.
  revert acc.
  induction d as [| d IH | d IH | d IH | d IH | d IH | d IH | d IH | d IH | d IH | d IH];
    intros acc; cbn [uint_value];
    [ cbn; lia | .. ];
    rewrite IH;
    match goal with
    | |- context [Decimal.rev (?D d)] =>
        change (Decimal.rev (D d)) with (Decimal.revapp d (D Decimal.Nil));
        rewrite (DecimalPos.Unsigned.of_lu_revapp d (D Decimal.Nil))
    end;
    cbn [DecimalPos.Unsigned.usize];
    rewrite N2Z.inj_add, N2Z.inj_mul, N2Z.inj_pow, N2Z.inj_succ, Z.pow_succ_r
      by apply N2Z.is_nonneg;
    match goal with
    | |- context [DecimalPos.Unsigned.of_lu (?D Decimal.Nil)] =>
        let v := eval vm_compute in (Z.of_N (DecimalPos.Unsigned.of_lu (D Decimal.Nil))) in
        change (Z.of_N (DecimalPos.Unsigned.of_lu (D Decimal.Nil))) with v
    end;
    change (Z.of_N 10) with 10;
    generalize (10 ^ Z.of_N (DecimalPos.Unsigned.usize d)); intros pw;
    ring.
Qed.

Lemma uint_value_to_uint (p : positive) :
  uint_value (Pos.to_uint p) 0 = Z.pos p.
Proof.
  rewrite uint_value_spec, <- DecimalPos.Unsigned.of_uint_alt,
    DecimalPos.Unsigned.of_to.
  cbn [Z.of_N]. lia.
Qed.

Lemma all_chars_uint (d : Decimal.uint) :
  all_chars dash_or_digit (NilEmpty.string_of_uint d) = true.
Proof.
  induction d; cbn [NilEmpty.string_of_uint all_chars]; try rewrite IHd; reflexivity.
Qed.

Lemma no_space_uint (d : Decimal.uint) (pre : string) :
  all_chars dash_or_digit pre = true ->
  all_chars (fun c => negb (is_space c)) (pre ++ NilEmpty.string_of_uint d) = true.
Proof.
  intros Hpre.
  apply (all_chars_impl dash_or_digit); [intros c Hc; apply dash_or_digit_plain, Hc |].
  induction pre as [| c pre IH].
  - apply all_chars_uint.
  - change (String c pre ++ NilEmpty.string_of_uint d)
      with (String c (pre ++ NilEmpty.string_of_uint d)).
    cbn [all_chars] in *. apply andb_prop in Hpre as [Hc Hp].
    rewrite Hc, (IH Hp). reflexivity.
Qed.

(** [float] of a run of digits, with or without a minus sign in front. *)
Lemma float_of_str_uint (neg : bool) (d : Decimal.uint) (p : positive) :
  d <> Decimal.Nil -> uint_value d 0 = Z.pos p ->
  float_of_str ((if neg then "-" else "") ++ NilEmpty.string_of_uint d)
  = Ok (of_decimal neg p 0).
Proof.
  intros Hnil Hval. unfold float_of_str.
  rewrite strip_no_space by (apply no_space_uint; destruct neg; reflexivity).
  assert (Hbody : forall body,
    body = NilEmpty.string_of_uint d ->
    sign ((if neg then "-" else "") ++ body) = (neg, body)).
  { intros body ->. destruct neg.
    - reflexivity.
    - destruct d; solve [congruence | reflexivity]. }
  rewrite (Hbody _ eq_refl).
  assert (Hlow : lower (NilEmpty.string_of_uint d) = NilEmpty.string_of_uint d).
  { apply map_chars_id. apply (all_chars_impl dash_or_digit);
      [intros c Hc; apply dash_or_digit_plain, Hc | apply all_chars_uint]. }
  rewrite Hlow.
  assert (Hnum : number (NilEmpty.string_of_uint d) = Some (Z.pos p, O, "")).
  { rewrite <- Hval. unfold number, digitpart.
    destruct d; [congruence | ..];
      cbn [NilEmpty.string_of_uint is_digit code nat_of_ascii];
      cbn -[digits_tail uint_value]; rewrite digits_tail_uint; reflexivity. }
  rewrite Hnum.
  assert (Hword : (String.eqb (NilEmpty.string_of_uint d) "inf"
                   || String.eqb (NilEmpty.string_of_uint d) "infinity")%bool = false
                  /\ String.eqb (NilEmpty.string_of_uint d) "nan" = false).
  { destruct d; [congruence | ..]; split; reflexivity. }
  destruct Hword as [-> ->].
  reflexivity.
Qed.

Lemma int_float_str_of_int (n : Z) :
  - 2 ^ 53 <= n <= 2 ^ 53 ->
  SalaryDataCleaner.int_float (str_of_int n) = Ok n.
Proof.
  intros Hn. unfold SalaryDataCleaner.int_float, str_of_int.
  destruct n as [| p | p]; cbn [Z.to_int NilEmpty.string_of_int].
  - vm_compute. reflexivity.
  - change (NilEmpty.string_of_uint (Pos.to_uint p))
      with ("" ++ NilEmpty.string_of_uint (Pos.to_uint p)).
    rewrite (float_of_str_uint false _ p
               (DecimalPos.Unsigned.to_uint_nonnil p) (uint_value_to_uint p)).
    cbn [bind]. unfold of_decimal. cbn [Z.leb Z.compare].
    rewrite Z.pow_0_r, Z.mul_1_r. apply int_of_Z_exact. exact Hn.
  - change (String "-" (NilEmpty.string_of_uint (Pos.to_uint p)))
      with ("-" ++ NilEmpty.string_of_uint (Pos.to_uint p)).
    rewrite (float_of_str_uint true _ p
               (DecimalPos.Unsigned.to_uint_nonnil p) (uint_value_to_uint p)).
    cbn [bind]. unfold of_decimal. cbn [Z.leb Z.compare].
    rewrite Z.pow_0_r, Z.mul_1_r. apply int_of_Z_exact. exact Hn.
Qed.

Lemma all_chars_str_of_int (n : Z) :
  all_chars dash_or_digit (str_of_int n) = true.
Proof.
  unfold str_of_int. destruct n as [| p | p]; cbn [Z.to_int NilEmpty.string_of_int].
  - reflexivity.
  - apply all_chars_uint.
  - cbn [all_chars]. rewrite all_chars_uint. reflexivity.
Qed.

Lemma str_of_int_not_sentinel (n : Z) :
  mem (str_of_int n) [""; "-"; "N/A"; "nan"; "None"] = false.
Proof.
  unfold str_of_int. destruct n as [| p | p]; cbn [Z.to_int NilEmpty.string_of_int].
  - reflexivity.
  - pose proof (DecimalPos.Unsigned.to_uint_nonnil p) as Hnil.
    destruct (Pos.to_uint p); [congruence | ..]; reflexivity.
  - pose proof (DecimalPos.Unsigned.to_uint_nonnil p) as Hnil.
    destruct (Pos.to_uint p); [congruence | ..]; reflexivity.
Qed.

Lemma ends_with_M_plain (s : string) :
  all_chars dash_or_digit s = true -> SalaryDataCleaner.ends_with_M s = false.
Proof.
  intros H. unfold SalaryDataCleaner.ends_with_M, upper.
  rewrite last_char_map.
  destruct (last_char s) as [c |] eqn:E; [| reflexivity].
  cbn [option_map].
  pose proof (last_char_all _ _ _ H E) as Hc.
  apply dash_or_digit_plain in Hc as (_ & _ & _ & _ & HM & _).
  apply negb_true_iff in HM. exact HM.
Qed.

(** Parsing the decimal string of an integer of at most 53 bits gives the
    integer back. *)
Lemma clean_currency_str_of_int (n : Z) :
  - 2 ^ 53 <= n <= 2 ^ 53 ->
  SalaryDataCleaner.clean_currency (Some (str_of_int n)) = Ok (Some n).
Proof.
  intros Hn. pose proof (all_chars_str_of_int n) as Hall.
  assert (Hq : forall q : ascii -> bool,
             (forall c, dash_or_digit c = true -> q c = true) ->
             all_chars q (str_of_int n) = true).
  { intros q Hq. exact (all_chars_impl _ _ _ Hq Hall). }
  unfold SalaryDataCleaner.clean_currency.
  rewrite strip_no_space by (apply Hq; intros c Hc; apply dash_or_digit_plain, Hc).
  rewrite str_of_int_not_sentinel.
  rewrite (replace_char_absent "$") by (apply Hq; intros c Hc; apply dash_or_digit_plain, Hc).
  rewrite (replace_char_absent " ") by (apply Hq; intros c Hc; apply dash_or_digit_plain, Hc).
  rewrite (ends_with_M_plain _ Hall).
  rewrite (replace_char_absent ",") by (apply Hq; intros c Hc; apply dash_or_digit_plain, Hc).
  rewrite (int_float_str_of_int n Hn). reflexivity.
Qed.

(** C7 (the failing inputs).  The missing-value tokens and a non-numeric
    residue give [None], but a text that [float] reads as an infinity
    makes [int] raise [OverflowError], which the handlers for
    [ValueError] let through: [clean_currency] raises on [inf],
    [Infinity], [1e999] and [infM]. *)
Theorem clean_currency_raises_on_infinity :
  SalaryDataCleaner.clean_currency (Some "inf") = Raise OverflowError
  /\ SalaryDataCleaner.clean_currency (Some "Infinity") = Raise OverflowError
  /\ SalaryDataCleaner.clean_currency (Some "1e999") = Raise OverflowError
  /\ SalaryDataCleaner.clean_currency (Some "infM") = Raise OverflowError
  /\ SalaryDataCleaner.clean_currency None = Ok None
  /\ SalaryDataCleaner.clean_currency (Some "N/A") = Ok None
  /\ SalaryDataCleaner.clean_currency (Some "-") = Ok None
  /\ SalaryDataCleaner.clean_currency (Some "") = Ok None
  /\ SalaryDataCleaner.clean_currency (Some "$abc") = Ok None.
Proof. repeat split; vm_compute; reflexivity. Qed.

(** C6 (counterexample).  The integer 2^53 + 1 does not survive the
    round trip through [float]: its decimal string parses to 2^53. *)
Lemma clean_currency_not_idempotent_above_2_53 :
  str_of_int 9007199254740993 = "9007199254740993"
  /\ SalaryDataCleaner.clean_currency (Some (str_of_int 9007199254740993))
     = Ok (Some 9007199254740992)
  /\ ~ (forall n : Z,
          SalaryDataCleaner.clean_currency (Some (str_of_int n)) = Ok (Some n)).
Proof.
  split; [vm_compute; reflexivity |].
  split; [vm_compute; reflexivity |].
  intros H. specialize (H 9007199254740993). vm_compute in H. discriminate H.
Qed.

(** C6 (as amended).  The three spellings of 1234567 and the spelling of
    71860921 parse to those integers, and parsing the plain decimal string
    of an integer [n] gives [n] back whenever [|n| <= 2^53]. *)
Theorem clean_currency_idempotent :
  forall n : Z,
    - 2 ^ 53 <= n <= 2 ^ 53 ->
    SalaryDataCleaner.clean_currency (Some (str_of_int n)) = Ok (Some n)
    /\ SalaryDataCleaner.clean_currency (Some "$1,234,567") = Ok (Some 1234567)
    /\ SalaryDataCleaner.clean_currency (Some "1234567") = Ok (Some 1234567)
    /\ SalaryDataCleaner.clean_currency (Some "1.234567M") = Ok (Some 1234567)
    /\ SalaryDataCleaner.clean_currency (Some "$71,860,921") = Ok (Some 71860921).
Proof.
  intros n Hn. split; [apply clean_currency_str_of_int, Hn |].
  repeat split; vm_compute; reflexivity.
Qed.

Lemma clean_currency_idempotent_witness :
  - 2 ^ 53 <= 71860921 <= 2 ^ 53
  /\ SalaryDataCleaner.clean_currency (Some (str_of_int 71860921)) = Ok (Some 71860921).
Proof.
  split; [vm_compute; split; discriminate |].
  apply (clean_currency_idempotent 71860921).
  vm_compute; split; discriminate.
Defined.

(** ** Embedded normalization *)

Lemma fold_replace_name_id (s : string) (d : list (string * string)) :
  existsb (fun m => contains (fst m) s) d = false ->
  fold_left BaseballDataCleaner.replace_name d s = s.
Proof.
  induction d as [| [old new] d IH]; cbn [existsb fold_left fst]; [reflexivity |].
  intros H. apply orb_false_elim in H as [Hc Hd].
  unfold BaseballDataCleaner.replace_name at 2. rewrite Hc. apply IH, Hd.
Qed.

Lemma sub_from_no_match (old new : string) (s : string) :
  forall prev_word,
    abbr_search old prev_word s = false ->
    BaseballDataCleaner.sub_from old new prev_word O s = s.
Proof.
  induction s as [| c s IH]; intros prev_word H; [reflexivity |].
  cbn [abbr_search] in H. apply orb_false_elim in H as [Hm Hs].
  cbn [BaseballDataCleaner.sub_from]. rewrite Hm, (IH _ Hs). reflexivity.
Qed.

Lemma fold_replace_abbr_id (s : string) (d : list (string * string)) :
  existsb (fun m => abbr_search (fst m) false s) d = false ->
  fold_left BaseballDataCleaner.replace_abbr d s = s.
Proof.
  induction d as [| [old new] d IH]; cbn [existsb fold_left fst]; [reflexivity |].
  intros H. apply orb_false_elim in H as [Hc Hd].
  unfold BaseballDataCleaner.replace_abbr at 2.
  rewrite (sub_from_no_match _ _ _ _ Hc). apply IH, Hd.
Qed.

(** *** Every character, one by one *)

Lemma In_all_ascii (c : ascii) : In c all_ascii.
Proof.
  unfold all_ascii. rewrite <- (ascii_nat_embedding c).
  apply in_map, in_seq. pose proof (nat_ascii_bounded c). lia.
Qed.

Lemma for_all_ascii (p : ascii -> bool) :
  forallb p all_ascii = true -> forall c, p c = true.
Proof. intros H c. rewrite forallb_forall in H. apply H, In_all_ascii. Qed.

Lemma letter_not_ci_equal (a c : ascii) :
  is_letter a = true -> is_letter c = false ->
  Ascii.eqb (lower_char a) (lower_char c) = false.
Proof.
  assert (H : forall a c,
    implb (is_letter a && negb (is_letter c))
          (negb (Ascii.eqb (lower_char a) (lower_char c))) = true).
  { intros a'. apply for_all_ascii. revert a'. apply for_all_ascii.
    vm_compute. reflexivity. }
  intros Ha Hc. specialize (H a c). rewrite Ha, Hc in H. cbn in H.
  apply negb_true_iff in H. exact H.
Qed.

(** *** Texts and their parts *)

Lemma app_cons (c : ascii) (s t : string) : String c s ++ t = String c (s ++ t).
Proof. reflexivity. Qed.


Lemma str_app_length (a b : string) :
  String.length (a ++ b) = (String.length a + String.length b)%nat.
Proof.
  induction a as [| x a IH]; [reflexivity |].
  rewrite app_cons. cbn [String.length]. rewrite IH. reflexivity.
Qed.











(** *** Replacing a name *)






(** *** Matching an abbreviation *)













(** *** The two tables *)












(** ** Bounded table discovery *)

Section DiscoveryFacts.
Import stdpp.base stdpp.gmap stdpp.strings.
Import BaseballScraper Discovery.

Variable DF : Type.
Variable time : clock.
Variable timeout_seconds : Z.

Lemma visible_loop_finished (ts : list (table_elem DF)) :
  forall n tables,
    (forall k, (n <= k < n + List.length ts)%nat -> over time timeout_seconds k = false) ->
    visible_loop DF time timeout_seconds (time 0%nat) ts n tables
    = (Finished, scan_visible DF ts tables, (n + List.length ts)%nat).
Proof.
  induction ts as [| t ts IH]; intros n tables Hok; cbn [visible_loop List.length].
  - rewrite Nat.add_0_r. reflexivity.
  - fold (over time timeout_seconds n). rewrite (Hok n) by (cbn [List.length]; lia).
    rewrite IH by (intros k Hk; apply Hok; cbn [List.length]; lia).
    rewrite <- plus_n_Sm. reflexivity.
Qed.

Lemma visible_loop_returned (ts : list (table_elem DF)) :
  forall i n tables,
    (i < List.length ts)%nat ->
    (forall k, (n <= k < n + i)%nat -> over time timeout_seconds k = false) ->
    over time timeout_seconds (n + i) = true ->
    exists n',
      visible_loop DF time timeout_seconds (time 0%nat) ts n tables
      = (Returned, scan_visible DF (firstn i ts) tables, n').
Proof.
  induction ts as [| t ts IH]; intros i n tables Hi Hok Hover; cbn [List.length] in Hi.
  - lia.
  - cbn [visible_loop]. fold (over time timeout_seconds n). destruct i as [| i].
    + rewrite Nat.add_0_r in Hover. rewrite Hover. eexists. reflexivity.
    + rewrite (Hok n) by lia.
      destruct (IH i (S n) (add_visible DF t tables)) as [n' Hn'].
      * lia.
      * intros k Hk. apply Hok. lia.
      * rewrite <- Hover. f_equal. lia.
      * exists n'. rewrite Hn'. reflexivity.
Qed.

(** The comment loop stops at the first reading over the budget, at the
    cap, or at the end of the comments, whichever comes first. *)
Lemma comment_loop_prefix (cs : list (comment DF)) :
  forall j cnt n tables,
    (forall k, (n <= k < n + j)%nat -> over time timeout_seconds k = false) ->
    (over time timeout_seconds (n + j) = true \/ (List.length cs <= j)%nat) ->
    exists e n',
      comment_loop DF time timeout_seconds (time 0%nat) cs cnt n tables
      = (e, scan_comments DF (firstn (Nat.min j (max_comments - cnt)) cs) tables, n').
Proof.
  induction cs as [| c cs IH]; intros j cnt n tables Hok Hend.
  - cbn [comment_loop]. rewrite firstn_nil. do 2 eexists. reflexivity.
  - cbn [comment_loop]. fold (over time timeout_seconds n). destruct j as [| j].
    + destruct Hend as [Hover | Hlen]; [| cbn [List.length] in Hlen; lia].
      rewrite Nat.add_0_r in Hover. rewrite Hover. do 2 eexists. reflexivity.
    + rewrite (Hok n) by lia.
      destruct (Nat.ltb max_comments (S cnt)) eqn:Hcap.
      * apply Nat.ltb_lt in Hcap.
        replace (max_comments - cnt)%nat with O by lia.
        rewrite Nat.min_0_r. do 2 eexists. reflexivity.
      * apply Nat.ltb_ge in Hcap.
        destruct (IH j (S cnt) (S n) (add_comment DF c tables)) as (e & n' & Hn').
        -- intros k Hk. apply Hok. lia.
        -- destruct Hend as [Hover | Hlen].
           ++ left. rewrite <- Hover. f_equal. lia.
           ++ right. cbn [List.length] in Hlen. lia.
        -- exists e, n'. rewrite Hn'.
           replace (max_comments - cnt)%nat with (S (max_comments - S cnt)) by lia.
           rewrite <- Nat.succ_min_distr. reflexivity.
Qed.

Lemma add_hidden_keeps (tables : gmap string DF) (t : table_elem DF) (id : string) (df : DF) :
  tables !! id = Some df -> add_hidden DF tables t !! id = Some df.
Proof.
  intros H. unfold add_hidden.
  destruct (String.eqb (table_id DF t) ""); [exact H |].
  destruct (tables !! table_id DF t) as [old |] eqn:E; [exact H |].
  destruct (read_html DF t) as [new | err]; [| exact H].
  rewrite lookup_insert_ne; [exact H |].
  intros Heq. rewrite Heq in E. congruence.
Qed.

Lemma add_comment_keeps (c : comment DF) (tables : gmap string DF) (id : string) (df : DF) :
  tables !! id = Some df -> add_comment DF c tables !! id = Some df.
Proof.
  unfold add_comment. destruct (has_table_tag DF c); [| trivial].
  destruct (comment_tables DF c) as [ts | err]; [| trivial].
  revert tables. induction ts as [| t ts IH]; intros tables H; cbn [fold_left].
  - exact H.
  - apply IH, add_hidden_keeps, H.
Qed.

Lemma scan_comments_keeps (cs : list (comment DF)) :
  forall (tables : gmap string DF) (id : string) (df : DF),
    tables !! id = Some df -> scan_comments DF cs tables !! id = Some df.
Proof.
  unfold scan_comments.
  induction cs as [| c cs IH]; intros tables id df H; cbn [fold_left].
  - exact H.
  - apply IH, add_comment_keeps, H.
Qed.

Lemma comment_loop_cap (cs : list (comment DF)) :
  forall cnt n tables,
    snd (fst (comment_loop DF time timeout_seconds (time 0%nat) cs cnt n tables))
    = snd (fst (comment_loop DF time timeout_seconds (time 0%nat)
                  (firstn (max_comments - cnt) cs) cnt n tables)).
Proof.
  induction cs as [| c cs IH]; intros cnt n tables.
  - rewrite firstn_nil. reflexivity.
  - destruct (max_comments - cnt)%nat as [| k] eqn:Hk.
    + cbn [firstn comment_loop]. destruct (over_budget _ _ _ _); [reflexivity |].
      replace (Nat.ltb max_comments (S cnt)) with true
        by (symmetry; apply Nat.ltb_lt; lia).
      reflexivity.
    + cbn [firstn comment_loop]. destruct (over_budget _ _ _ _); [reflexivity |].
      destruct (Nat.ltb max_comments (S cnt)); [reflexivity |].
      rewrite IH. replace (max_comments - S cnt)%nat with k by lia. reflexivity.
Qed.

(** C9.  [get_all_tables] always returns a dictionary and never an
    exception; it gives the same answer when the page is cut after its
    first 50 comment blocks; when reading number [m] of the clock is the
    first one over the budget (or the scan runs out of work first), the
    answer is what the [m - 2] units of work before that reading
    accumulated, at most 50 of them comment blocks; and a key that the
    visible pass has put in the dictionary keeps its table whatever the
    comments contain. *)
Theorem discovery_is_bounded (src : page DF) :
  (forall page_source : result (page DF),
     exists tables, get_all_tables DF time timeout_seconds page_source = Ok tables)
  /\ get_all_tables DF time timeout_seconds (Ok src)
     = get_all_tables DF time timeout_seconds
         (Ok {| visible := visible DF src;
                comments := firstn max_comments (comments DF src) |})
  /\ (forall m : nat,
        (1 <= m)%nat ->
        (forall k, (1 <= k < m)%nat -> over time timeout_seconds k = false) ->
        (over time timeout_seconds m = true
         \/ (2 + List.length (visible DF src) + List.length (comments DF src) <= m)%nat) ->
        get_all_tables DF time timeout_seconds (Ok src)
        = Ok (accumulated DF src (m - 2)
                (Nat.min (m - 2 - List.length (visible DF src)) max_comments)))
  /\ (forall (i j : nat) (id : string) (df : DF),
        accumulated DF src i 0 !! id = Some df ->
        accumulated DF src i j !! id = Some df).
Proof.
  split; [| split; [| split]].
  - intros [p | e]; unfold get_all_tables; [| eexists; reflexivity].
    destruct (over_budget _ _ _ _); [eexists; reflexivity |].
    destruct (visible_loop _ _ _ _ _ _ _) as [[[|] tv] n];
      [eexists; reflexivity |].
    destruct (comment_loop _ _ _ _ _ _ _ _) as [[e tc] n'].
    eexists; reflexivity.
  - unfold get_all_tables. cbn [visible comments].
    destruct (over_budget _ _ _ _); [reflexivity |].
    destruct (visible_loop _ _ _ _ _ _ _) as [[[|] tv] n]; [reflexivity |].
    pose proof (comment_loop_cap (comments DF src) 0 n tv) as Hcap.
    rewrite Nat.sub_0_r in Hcap.
    destruct (comment_loop DF time timeout_seconds (time 0%nat) (comments DF src) 0 n tv)
      as [[e1 t1] n1].
    destruct (comment_loop DF time timeout_seconds (time 0%nat)
                (firstn max_comments (comments DF src)) 0 n tv) as [[e2 t2] n2].
    cbn [fst snd] in Hcap. rewrite Hcap. reflexivity.
  - intros m Hm Hok Hend. unfold get_all_tables, accumulated.
    destruct (Nat.eq_dec m 1) as [-> | Hm1].
    + destruct Hend as [Hover | Hlen]; [| lia].
      unfold over in Hover. rewrite Hover. reflexivity.
    + assert (H1 : over time timeout_seconds 1 = false) by (apply Hok; lia).
      unfold over in H1. rewrite H1.
      destruct (Nat.lt_ge_cases (m - 2) (List.length (visible DF src))) as [Hlt | Hge].
      * destruct Hend as [Hover | Hlen]; [| lia].
        destruct (visible_loop_returned (visible DF src) (m - 2) 2 ∅ Hlt) as [n' Hn'].
        -- intros k Hk. apply Hok. lia.
        -- rewrite <- Hover. f_equal. lia.
        -- rewrite Hn'.
           replace (m - 2 - List.length (visible DF src))%nat with O by lia.
           reflexivity.
      * rewrite visible_loop_finished by (intros k Hk; apply Hok; lia).
        rewrite (firstn_all2 (n := (m - 2)%nat)) by exact Hge.
        destruct (comment_loop_prefix (comments DF src)
                    (m - 2 - List.length (visible DF src)) 0
                    (2 + List.length (visible DF src))
                    (scan_visible DF (visible DF src) ∅)) as (e & n' & Hn').
        -- intros k Hk. apply Hok. lia.
        -- destruct Hend as [Hover | Hlen].
           ++ left. rewrite <- Hover. f_equal. lia.
           ++ right. lia.
        -- rewrite Hn', Nat.sub_0_r. reflexivity.
  - intros i j id df H. unfold accumulated in *. cbn [firstn scan_comments fold_left] in H.
    apply scan_comments_keeps, H.
Qed.

End DiscoveryFacts.

Section DiscoveryExample.
Import stdpp.base stdpp.gmap stdpp.strings.
Import BaseballScraper Discovery.

Lemma discovery_is_bounded_witness :
  get_all_tables nat sample_clock 25 (Ok sample_page)
  = Ok (accumulated nat sample_page 1 0)
  /\ accumulated nat sample_page 1 0 !! "batting" = Some 1%nat
  /\ accumulated nat sample_page 1 0 !! "pitching" = None
  /\ accumulated nat sample_page 2 1 !! "batting" = Some 1%nat.
Proof.
  destruct (discovery_is_bounded nat sample_clock 25 sample_page)
    as (_ & _ & Hbudget & Hkeep).
  split; [| split; [| split]].
  - apply (Hbudget 3%nat).
    + apply le_S, le_S, le_n.
    + intros k [H1 H2].
      destruct k as [| [| [| k]]].
      * inversion H1.
      * reflexivity.
      * reflexivity.
      * apply le_S_n, le_S_n, le_S_n in H2. inversion H2.
    + left. reflexivity.
  - vm_compute. reflexivity.
  - vm_compute. reflexivity.
  - apply (Hkeep 2%nat 1%nat "batting" 1%nat). vm_compute. reflexivity.
Defined.

End DiscoveryExample.

(** ** Column role inference *)

Import SalaryDataCleaner.

Lemma In_collect {A B} (f : A -> option B) (xs : list A) (y : B) :
  In y (collect f xs) <-> exists x, In x xs /\ f x = Some y.
Proof.
  induction xs as [| x xs IH]; cbn [collect].
  - split; [intros [] | intros (x & [] & _)].
  - destruct (f x) as [y' |] eqn:E.
    + cbn [In]. rewrite IH. split.
      * intros [<- | (x' & Hin & Hf)]; [exists x; auto | exists x'; auto].
      * intros (x' & [<- | Hin] & Hf); [left; congruence | right; exists x'; auto].
    + rewrite IH. split.
      * intros (x' & Hin & Hf). exists x'. cbn [In]. auto.
      * intros (x' & [<- | Hin] & Hf); [congruence | exists x'; auto].
Qed.

Lemma fold_max_ge (l : list Z) (x : Z) : x <= fold_left Z.max l x.
Proof.
  revert x. induction l as [| y l IH]; intros x; cbn [fold_left]; [lia |].
  specialize (IH (Z.max x y)). lia.
Qed.

Lemma fold_max_le (l : list Z) (x b : Z) :
  x <= b -> Forall (fun v => v <= b) l -> fold_left Z.max l x <= b.
Proof.
  revert x. induction l as [| y l IH]; intros x Hx Hl; cbn [fold_left]; [lia |].
  inversion Hl; subst. apply IH; [lia | assumption].
Qed.

Lemma max_of_le (l : list Z) (b : Z) :
  l <> [] -> Forall (fun v => v <= b) l -> max_of l <= b.
Proof.
  destruct l as [| x l]; [congruence |]. intros _ H. inversion H; subst.
  cbn [max_of]. apply fold_max_le; assumption.
Qed.

Lemma max_of_ge (l : list Z) (a : Z) :
  l <> [] -> Forall (fun v => a <= v) l -> a <= max_of l.
Proof.
  destruct l as [| x l]; [congruence |]. intros _ H. inversion H; subst.
  cbn [max_of]. pose proof (fold_max_ge l x). lia.
Qed.

Lemma insert_asc_length (x : Z) (l : list Z) :
  List.length (insert_asc x l) = S (List.length l).
Proof.
  induction l as [| y l IH]; cbn [insert_asc]; [reflexivity |].
  destruct (x <=? y); cbn [List.length]; [| rewrite IH]; reflexivity.
Qed.

Lemma insert_asc_Forall (P : Z -> Prop) (x : Z) (l : list Z) :
  P x -> Forall P l -> Forall P (insert_asc x l).
Proof.
  intros Hx Hl. induction Hl as [| y l Hy Hl IH]; cbn [insert_asc].
  - constructor; [assumption | constructor].
  - destruct (x <=? y); repeat constructor; assumption.
Qed.

Lemma sort_asc_length (l : list Z) : List.length (sort_asc l) = List.length l.
Proof.
  induction l as [| x l IH]; [reflexivity |].
  cbn [sort_asc fold_right]. fold (sort_asc l).
  rewrite insert_asc_length, IH. reflexivity.
Qed.

Lemma sort_asc_Forall (P : Z -> Prop) (l : list Z) :
  Forall P l -> Forall P (sort_asc l).
Proof.
  induction 1 as [| x l Hx Hl IH]; [constructor |].
  cbn [sort_asc fold_right]. fold (sort_asc l).
  apply insert_asc_Forall; assumption.
Qed.

(** The median of values that are all at least [a] is at least [a]. *)
Lemma median2_ge (l : list Z) (a : Z) :
  l <> [] -> Forall (fun v => a <= v) l -> 2 * a <= median2 l.
Proof.
  intros Hne Hall. unfold median2.
  assert (Hlen : (0 < List.length l)%nat) by (destruct l; [congruence | cbn; lia]).
  pose proof (sort_asc_Forall _ _ Hall) as Hs.
  rewrite Forall_nth in Hs. rewrite <- (sort_asc_length l) in *.
  assert (Hhalf : (List.length (sort_asc l) / 2 < List.length (sort_asc l))%nat)
    by (apply Nat.div_lt; lia).
  destruct (Nat.even (List.length (sort_asc l))).
  - pose proof (Hs (List.length (sort_asc l) / 2 - 1)%nat 0 ltac:(lia)).
    pose proof (Hs (List.length (sort_asc l) / 2)%nat 0 Hhalf).
    cbv beta in *. lia.
  - pose proof (Hs (List.length (sort_asc l) / 2)%nat 0 Hhalf).
    cbv beta in *. lia.
Qed.

(** The descending sort puts a greatest candidate first. *)
Lemma key_gt_false_iff (x y : candidate) :
  key_gt y x = false
  <-> snd y < snd x \/ (snd y = snd x /\ snd (fst y) <= snd (fst x)).
Proof.
  destruct x as [[cx mx] px], y as [[cy my] py]. cbn [key_gt fst snd].
  rewrite orb_false_iff, andb_false_iff, Z.ltb_ge, Z.eqb_neq, Z.ltb_ge. lia.
Qed.

Lemma sort_candidates_head (l : list candidate) :
  l <> [] ->
  exists h t,
    sort_candidates l = h :: t
    /\ In h l
    /\ forall y, In y l -> key_gt y h = false.
Proof.
  assert (Hrefl : forall z : candidate, key_gt z z = false).
  { intros [[cz mz] pz]. cbn [key_gt]. rewrite !Z.ltb_irrefl, Z.eqb_refl. reflexivity. }
  induction l as [| x l IH]; [congruence |]. intros _.
  cbn [sort_candidates fold_right]. fold (sort_candidates l).
  destruct l as [| x' l'].
  - cbn. exists x, []. repeat split; [left; reflexivity |].
    intros y [Hy | []]. subst y. apply Hrefl.
  - destruct (IH ltac:(congruence)) as (h & t & Hs & Hin & Hmax).
    rewrite Hs. cbn [insert_desc].
    destruct (key_gt h x) eqn:E.
    + exists h, (insert_desc x t). repeat split; [right; assumption |].
      intros y [Hy | Hy]; [subst y | apply Hmax, Hy].
      apply key_gt_false_iff.
      destruct x as [[cy my] py], h as [[ch mh] ph]. cbn [key_gt fst snd] in *.
      apply orb_true_iff in E. rewrite andb_true_iff, !Z.ltb_lt, Z.eqb_eq in E. lia.
    + exists x, (h :: t). repeat split; [left; reflexivity |].
      intros y [Hy | Hy]; [subst y; apply Hrefl |].
      specialize (Hmax y Hy).
      apply key_gt_false_iff in Hmax. apply key_gt_false_iff in E.
      apply key_gt_false_iff. lia.
Qed.

Lemma threshold_candidate_inv (team_col col : string) (cs : list cell) (y : candidate) :
  threshold_candidate team_col (col, cs) = Some y ->
  col <> team_col
  /\ any_in avoid_keywords (lower col) = false
  /\ exists ws,
       valid_values cs = Ok ws
       /\ (10 <= List.length ws)%nat
       /\ 10000000 < max_of ws
       /\ 10000000 < median2 ws
       /\ y = (col, max_of ws,
               if any_in payroll_keywords (lower col) then 2 else 1).
Proof.
  unfold threshold_candidate.
  destruct (String.eqb_spec col team_col) as [| Hne]; [discriminate |].
  destruct (any_in avoid_keywords (lower col)); [discriminate |].
  destruct (valid_values cs) as [ws | e]; [| discriminate].
  destruct (Nat.ltb_spec (List.length ws) 10) as [| Hlen]; [discriminate |].
  destruct (10000000 <? max_of ws) eqn:Hmax; [| discriminate].
  destruct (10000000 <? median2 ws) eqn:Hmed; [| discriminate].
  cbn [andb]. intros [= <-].
  apply Z.ltb_lt in Hmax, Hmed.
  repeat split; try assumption. exists ws. repeat split; assumption.
Qed.

Lemma fallback_candidate_inv (team_col col : string) (cs : list cell) (y : candidate) :
  fallback_candidate team_col (col, cs) = Some y ->
  col <> team_col
  /\ exists ws,
       valid_values cs = Ok ws /\ (10 <= List.length ws)%nat /\ y = (col, max_of ws, 0).
Proof.
  unfold fallback_candidate.
  destruct (String.eqb_spec col team_col) as [| Hne]; [discriminate |].
  destruct (valid_values cs) as [ws | e]; [| discriminate].
  destruct (Nat.leb_spec 10 (List.length ws)) as [Hlen |]; [| discriminate].
  destruct (0 <? max_of ws); [| discriminate].
  intros [= <-]. split; [assumption |]. exists ws. repeat split; assumption.
Qed.

Lemma ten_values_nonempty (ws : list Z) : (10 <= List.length ws)%nat -> ws <> [].
Proof. destruct ws; cbn; [lia | congruence]. Qed.

Lemma collect_app {A B} (f : A -> option B) (xs ys : list A) :
  collect f (xs ++ ys)%list = (collect f xs ++ collect f ys)%list.
Proof.
  induction xs as [| x xs IH]; [reflexivity |].
  cbn [app collect]. destruct (f x); [cbn [app]; rewrite IH |]; auto.
Qed.

(** The stable descending sort puts first the first of the candidates
    with the greatest key. *)
Lemma sort_candidates_first (pre post : list candidate) (y : candidate) :
  (forall z, In z pre -> key_gt y z = true) ->
  (forall z, In z post -> key_gt z y = false) ->
  exists t, sort_candidates (pre ++ y :: post)%list = y :: t.
Proof.
  intros Hpre Hpost. induction pre as [| z pre IH].
  - cbn [app sort_candidates fold_right]. fold (sort_candidates post).
    destruct post as [| p post'].
    + exists []. reflexivity.
    + destruct (sort_candidates_head (p :: post') ltac:(congruence)) as (h & t & -> & Hin & _).
      cbn [insert_desc]. rewrite (Hpost h Hin). eexists. reflexivity.
  - cbn [app sort_candidates fold_right]. fold (sort_candidates (pre ++ y :: post)%list).
    destruct IH as (t & ->); [intros z' Hz'; apply Hpre; right; exact Hz' |].
    cbn [insert_desc]. rewrite (Hpre z (or_introl eq_refl)). eexists. reflexivity.
Qed.

Lemma key_gt_true_iff (x y : candidate) :
  key_gt x y = true
  <-> snd y < snd x \/ (snd y = snd x /\ snd (fst y) < snd (fst x)).
Proof.
  destruct x as [[cx mx] px], y as [[cy my] py]. cbn [key_gt fst snd].
  rewrite orb_true_iff, andb_true_iff, !Z.ltb_lt, Z.eqb_eq. lia.
Qed.

(** The choice among the candidates of a pass, in the order of the
    columns. *)
Lemma first_greatest_selected
    (f : string * list cell -> option candidate)
    (before after : DataFrame) (col : string) (cs : list cell) (mx pr : Z) :
  f (col, cs) = Some (col, mx, pr) ->
  (forall c c' m' p', In c before -> f c = Some (c', m', p') ->
                      p' < pr \/ (p' = pr /\ m' < mx)) ->
  (forall c c' m' p', In c after -> f c = Some (c', m', p') ->
                      p' < pr \/ (p' = pr /\ m' <= mx)) ->
  exists t, sort_candidates (collect f (before ++ (col, cs) :: after)%list) = (col, mx, pr) :: t.
Proof.
  intros Hf Hb Ha. rewrite collect_app. cbn [collect]. rewrite Hf.
  apply sort_candidates_first.
  - intros [[c' m'] p'] Hz. apply In_collect in Hz as (c & Hc & Hfc).
    apply key_gt_true_iff. cbn [fst snd]. exact (Hb c c' m' p' Hc Hfc).
  - intros [[c' m'] p'] Hz. apply In_collect in Hz as (c & Hc & Hfc).
    apply key_gt_false_iff. cbn [fst snd]. exact (Ha c c' m' p' Hc Hfc).
Qed.

Lemma collect_nil {A B} (f : A -> option B) (xs : list A) :
  (forall x, In x xs -> f x = None) -> collect f xs = [].
Proof.
  induction xs as [| x xs IH]; intros H; [reflexivity |].
  cbn [collect]. rewrite (H x (or_introl eq_refl)). apply IH.
  intros x' Hx'. apply H. right. exact Hx'.
Qed.

Lemma threshold_candidate_intro (team_col col : string) (cs : list cell) (ws : list Z) :
  col <> team_col ->
  any_in avoid_keywords (lower col) = false ->
  valid_values cs = Ok ws ->
  (10 <= List.length ws)%nat ->
  10000000 < max_of ws ->
  10000000 < median2 ws ->
  threshold_candidate team_col (col, cs)
  = Some (col, max_of ws, if any_in payroll_keywords (lower col) then 2 else 1).
Proof.
  intros Hne Hav Hws Hlen Hmax Hmed. unfold threshold_candidate.
  destruct (String.eqb_spec col team_col) as [| _]; [contradiction |].
  rewrite Hav, Hws.
  destruct (Nat.ltb_spec (List.length ws) 10); [lia |].
  destruct (Z.ltb_spec 10000000 (max_of ws)); [| lia].
  destruct (Z.ltb_spec 10000000 (median2 ws)); [| lia].
  reflexivity.
Qed.

Lemma fallback_candidate_iff (team_col col : string) (cs : list cell) (y : candidate) :
  fallback_candidate team_col (col, cs) = Some y
  <-> col <> team_col
      /\ exists ws,
           valid_values cs = Ok ws /\ (10 <= List.length ws)%nat
           /\ 0 < max_of ws /\ y = (col, max_of ws, 0).
Proof.
  unfold fallback_candidate. split.
  - destruct (String.eqb_spec col team_col) as [| Hne]; [discriminate |].
    destruct (valid_values cs) as [ws | e]; [| discriminate].
    destruct (Nat.leb_spec 10 (List.length ws)) as [Hlen |]; [| discriminate].
    destruct (Z.ltb_spec 0 (max_of ws)) as [Hpos |]; [| discriminate].
    intros [= <-]. split; [assumption |]. exists ws. repeat split; assumption.
  - intros (Hne & ws & -> & Hlen & Hpos & ->).
    destruct (String.eqb_spec col team_col) as [| _]; [contradiction |].
    destruct (Nat.leb_spec 10 (List.length ws)); [| lia].
    destruct (Z.ltb_spec 0 (max_of ws)); [reflexivity | lia].
Qed.

(** C1 (counterexample).  With three teams only, the table has a team
    column, an average-salary column around 3,000,000 and a total-payroll
    column between 80,000,000 and 150,000,000, in either order, and no
    column is selected: fewer than ten parsed values disqualify a
    column. *)
Lemma payroll_column_needs_ten_rows :
  valid_values (Frame.column "AvgSalary" three_teams) = Ok [3000000; 2900000; 2800000]
  /\ valid_values (Frame.column "TotalPayroll" three_teams)
     = Ok [150000000; 120000000; 80000000]
  /\ identify_team_column three_teams = Ok "Team"
  /\ identify_payroll_column three_teams "Team" = None
  /\ identify_payroll_column three_teams_swapped "Team" = None.
Proof. repeat split; vm_compute; reflexivity. Qed.

(** C1 (as amended).  Take any table, any choice of team column, and a
    column [P] other than the team column whose cells give at least ten
    parsed values, all between 80,000,000 and 150,000,000, while every
    other column beside the team column has parsed values of at most
    10,000,000.  Then
    [identify_payroll_column] selects [P], wherever the columns stand,
    and [P] passes the threshold test unless its own header has an avoid
    keyword (it is then selected by the fallback pass).
    In general a column enters the threshold pass exactly when it is not
    the team column, its header has no avoid keyword, none of its cells
    makes the parser raise, and it has at least ten parsed values whose
    maximum exceeds 10,000,000 and whose median exceeds 5,000,000; its
    priority is 2 with a payroll keyword and 1 without.  When that pass
    has candidates, the selected one has the greatest priority and,
    within it, the greatest maximum, and of several columns with that
    priority and that maximum the first one, in the order of the
    columns, is selected.  When that pass has no candidate, the fallback
    pass takes every column but the team column, avoid keywords or not,
    that parses without raising to at least ten values with a positive
    maximum, and selects the one with the greatest maximum, the first
    such column in a tie. *)
Theorem payroll_column_selected :
  forall (df : DataFrame) (team_col P : string) (pcells : list cell) (vs : list Z),
    In (P, pcells) df ->
    P <> team_col ->
    valid_values pcells = Ok vs ->
    (10 <= List.length vs)%nat ->
    Forall (fun v => 80000000 <= v <= 150000000) vs ->
    (forall c cs ws,
        In (c, cs) df -> c <> P -> c <> team_col -> valid_values cs = Ok ws ->
        Forall (fun v => v <= 10000000) ws) ->
    identify_payroll_column df team_col = Some P
    /\ (any_in avoid_keywords (lower P) = false ->
        In (P, max_of vs, if any_in payroll_keywords (lower P) then 2 else 1)
           (collect (threshold_candidate team_col) df))
    /\ (forall col cs y,
          threshold_candidate team_col (col, cs) = Some y
          <-> col <> team_col
              /\ any_in avoid_keywords (lower col) = false
              /\ exists ws,
                   valid_values cs = Ok ws
                   /\ (10 <= List.length ws)%nat
                   /\ 10000000 < max_of ws
                   /\ 10000000 < median2 ws
                   /\ y = (col, max_of ws,
                           if any_in payroll_keywords (lower col) then 2 else 1))
    /\ (forall df' : DataFrame,
          collect (threshold_candidate team_col) df' <> [] ->
          exists col mx pr,
            identify_payroll_column df' team_col = Some col
            /\ In (col, mx, pr) (collect (threshold_candidate team_col) df')
            /\ forall col' mx' pr',
                 In (col', mx', pr') (collect (threshold_candidate team_col) df') ->
                 pr' < pr \/ (pr' = pr /\ mx' <= mx))
    /\ (forall (before after : DataFrame) (col : string) (cs : list cell) (mx pr : Z),
          threshold_candidate team_col (col, cs) = Some (col, mx, pr) ->
          (forall c c' m' p',
              In c before -> threshold_candidate team_col c = Some (c', m', p') ->
              p' < pr \/ (p' = pr /\ m' < mx)) ->
          (forall c c' m' p',
              In c after -> threshold_candidate team_col c = Some (c', m', p') ->
              p' < pr \/ (p' = pr /\ m' <= mx)) ->
          identify_payroll_column (before ++ (col, cs) :: after)%list team_col = Some col)
    /\ (forall (before after : DataFrame) (col : string) (cs : list cell) (mx : Z),
          (forall c, In c (before ++ (col, cs) :: after)%list ->
                     threshold_candidate team_col c = None) ->
          fallback_candidate team_col (col, cs) = Some (col, mx, 0) ->
          (forall c c' m' p',
              In c before -> fallback_candidate team_col c = Some (c', m', p') ->
              m' < mx) ->
          (forall c c' m' p',
              In c after -> fallback_candidate team_col c = Some (c', m', p') ->
              m' <= mx) ->
          identify_payroll_column (before ++ (col, cs) :: after)%list team_col = Some col)
    /\ (forall col cs y,
          fallback_candidate team_col (col, cs) = Some y
          <-> col <> team_col
              /\ exists ws,
                   valid_values cs = Ok ws /\ (10 <= List.length ws)%nat
                   /\ 0 < max_of ws /\ y = (col, max_of ws, 0)).
Proof.
  intros df team_col P pcells vs HP Hnt Hvs Hlen Hrange Hdecoy.
  assert (HmaxP : 80000000 <= max_of vs).
  { apply max_of_ge; [apply ten_values_nonempty, Hlen |].
    eapply Forall_impl; [| exact Hrange]. cbv beta. intros v Hv. apply Hv. }
  split; [| split; [| split; [| split; [| split; [| split]]]]].
  - (* the total-payroll column is selected *)
    assert (Hname1 : forall y, In y (collect (threshold_candidate team_col) df) ->
                               fst (fst y) = P).
    { intros y Hy. apply In_collect in Hy as ([c cs] & Hin & Hf).
      apply threshold_candidate_inv in Hf as (Hct & _ & ws & Hws & Hl & Hmax & _ & ->).
      cbn [fst]. destruct (string_dec c P) as [| Hne]; [assumption | exfalso].
      pose proof (max_of_le ws 10000000 (ten_values_nonempty _ Hl)
                    (Hdecoy c cs ws Hin Hne Hct Hws)). lia. }
    unfold identify_payroll_column.
    destruct (collect (threshold_candidate team_col) df) as [| y0 l0] eqn:Hc1.
    + (* fallback pass *)
      assert (HinP : In (P, max_of vs, 0) (collect (fallback_candidate team_col) df)).
      { apply In_collect. exists (P, pcells). split; [assumption |].
        unfold fallback_candidate.
        destruct (String.eqb_spec P team_col) as [| _]; [contradiction |].
        rewrite Hvs. destruct (Nat.leb_spec 10 (List.length vs)); [| lia].
        pose proof (max_of_ge vs 80000000 (ten_values_nonempty _ Hlen)
                      (Forall_impl _ (fun v Hv => proj1 Hv) Hrange)).
        destruct (Z.ltb_spec 0 (max_of vs)); [reflexivity | lia]. }
      destruct (sort_candidates_head (collect (fallback_candidate team_col) df))
        as (h & t & Hs & Hin & Hmax).
      { intros E. rewrite E in HinP. destruct HinP. }
      rewrite Hs. destruct h as [[col mx] pr]. f_equal.
      apply In_collect in Hin as ([c cs] & Hinc & Hf).
      apply fallback_candidate_inv in Hf as (Hct & ws & Hws & Hl & [= -> -> ->]).
      destruct (string_dec c P) as [| Hne]; [assumption | exfalso].
      specialize (Hmax _ HinP). apply key_gt_false_iff in Hmax. cbn [fst snd] in Hmax.
      pose proof (max_of_le ws 10000000 (ten_values_nonempty _ Hl)
                    (Hdecoy c cs ws Hinc Hne Hct Hws)).
      pose proof (max_of_ge vs 80000000 (ten_values_nonempty _ Hlen)
                    (Forall_impl _ (fun v Hv => proj1 Hv) Hrange)).
      lia.
    + destruct (sort_candidates_head (y0 :: l0)) as (h & t & Hs & Hin & _);
        [congruence |].
      rewrite Hs. destruct h as [[col mx] pr]. f_equal.
      exact (Hname1 _ Hin).
  - (* and by the threshold pass, when its header has no avoid keyword *)
    intros Havoid. apply In_collect. exists (P, pcells). split; [assumption |].
    unfold threshold_candidate.
    destruct (String.eqb_spec P team_col) as [| _]; [contradiction |].
    rewrite Havoid, Hvs.
    destruct (Nat.ltb_spec (List.length vs) 10); [lia |].
    assert (Hmed : 2 * 80000000 <= median2 vs).
    { apply median2_ge; [apply ten_values_nonempty, Hlen |].
      eapply Forall_impl; [| exact Hrange]. cbv beta. intros v Hv. apply Hv. }
    destruct (Z.ltb_spec 10000000 (max_of vs)); [| lia].
    destruct (Z.ltb_spec 10000000 (median2 vs)); [| lia].
    reflexivity.
  - intros col cs y. split; [apply threshold_candidate_inv |].
    intros (Hne & Hav & ws & Hws & Hl & Hmax & Hmed & ->).
    apply threshold_candidate_intro; assumption.
  - intros df' Hne. unfold identify_payroll_column.
    destruct (sort_candidates_head _ Hne) as (h & t & Hs & Hin & Hmax).
    destruct (collect (threshold_candidate team_col) df') as [| y0 l0] eqn:Hc1;
      [congruence |].
    rewrite Hs. destruct h as [[col mx] pr]. exists col, mx, pr.
    repeat split; try assumption.
    intros col' mx' pr' Hin'. specialize (Hmax _ Hin').
    apply key_gt_false_iff in Hmax. cbn [fst snd] in Hmax. exact Hmax.
  - (* the threshold pass: the first of the greatest *)
    intros before after col cs mx pr Hf Hb Ha. unfold identify_payroll_column.
    destruct (first_greatest_selected (threshold_candidate team_col)
                before after col cs mx pr Hf Hb Ha) as (t & Hs).
    destruct (collect (threshold_candidate team_col) (before ++ (col, cs) :: after)%list)
      as [| y0 l0] eqn:Hc; [| rewrite Hs; reflexivity].
    rewrite collect_app in Hc. cbn [collect] in Hc. rewrite Hf in Hc.
    destruct (collect (threshold_candidate team_col) before); discriminate Hc.
  - (* the fallback pass *)
    intros before after col cs mx Hnone Hf Hb Ha. unfold identify_payroll_column.
    rewrite (collect_nil _ _ Hnone).
    destruct (first_greatest_selected (fallback_candidate team_col)
                before after col cs mx 0 Hf) as (t & Hs).
    + intros [c0 cs0] c' m' p' Hin Hfc.
      pose proof (Hb _ c' m' p' Hin Hfc) as Hlt.
      apply fallback_candidate_inv in Hfc as (_ & ws & _ & _ & [= _ _ ->]).
      right. split; [reflexivity | exact Hlt].
    + intros [c0 cs0] c' m' p' Hin Hfc.
      pose proof (Ha _ c' m' p' Hin Hfc) as Hle.
      apply fallback_candidate_inv in Hfc as (_ & ws & _ & _ & [= _ _ ->]).
      right. split; [reflexivity | exact Hle].
    + rewrite Hs. reflexivity.
  - intros col cs y. apply fallback_candidate_iff.
Qed.

Lemma payroll_column_selected_witness :
  identify_payroll_column ten_teams "Club" = Some "2004".
Proof.
  refine (proj1 (payroll_column_selected ten_teams "Club" "2004"
                   (Frame.column "2004" ten_teams)
                   [150000000; 140000000; 130000000; 120000000; 110000000;
                    100000000; 95000000; 90000000; 85000000; 80000000]
                   _ _ _ _ _ _)).
  - right. left. reflexivity.
  - discriminate.
  - vm_compute. reflexivity.
  - apply le_n.
  - repeat (apply Forall_cons; [split; vm_compute; discriminate |]). apply Forall_nil.
  - intros c cs ws [E | [E | [E | []]]] HneP Hnet Hv; inversion E; subst c cs.
    + contradiction Hnet. reflexivity.
    + contradiction HneP. reflexivity.
    + vm_compute in Hv. inversion Hv; subst ws.
      repeat (apply Forall_cons; [vm_compute; discriminate |]). apply Forall_nil.
Defined.

(** ** Cleaning a salary table *)

Lemma mapM_In {A B} (f : A -> result B) (xs : list A) (ys : list B) :
  mapM f xs = Ok ys ->
  forall y, In y ys -> exists x, In x xs /\ f x = Ok y.
Proof.
  revert ys. induction xs as [| x xs IH]; intros ys H y Hy; cbn [mapM] in H.
  - inversion H; subst. destruct Hy.
  - destruct (f x) as [y0 | e] eqn:Ef; cbn [bind] in H; [| discriminate].
    destruct (mapM f xs) as [ys0 | e]; cbn [bind] in H; [| discriminate].
    inversion H; subst. destruct Hy as [<- | Hy].
    + exists x. split; [left; reflexivity | assumption].
    + destruct (IH ys0 eq_refl y Hy) as (x' & Hin & Hf).
      exists x'. split; [right; assumption | assumption].
Qed.

Lemma mem_In (x : string) (xs : list string) : mem x xs = true -> In x xs.
Proof.
  unfold mem. intros H. apply existsb_exists in H as (y & Hin & Heq).
  apply String.eqb_eq in Heq. subst. assumption.
Qed.

Lemma In_mem (x : string) (xs : list string) : In x xs -> mem x xs = true.
Proof.
  unfold mem. intros H. apply existsb_exists. exists x.
  split; [assumption | apply String.eqb_refl].
Qed.

(** A row is appended only under a valid name and a positive payroll. *)
Lemma clean_row_appended (team_raw payroll_raw : cell) (r : PayrollRecord) :
  clean_row team_raw payroll_raw = Ok (Appended r) ->
  In (Tm r) VALID_TEAM_NAMES /\ 0 < Payroll r.
Proof.
  unfold clean_row.
  destruct (clean_currency payroll_raw) as [[payroll |] | e]; cbn [bind];
    destruct (standardize_team_name team_raw) as [team |]; try discriminate.
  destruct (negb (String.eqb team "")); cbn [andb]; [| discriminate].
  destruct (negb (payroll =? 0)); cbn [andb]; [| discriminate].
  destruct (Z.ltb_spec 0 payroll) as [Hpos |]; [| discriminate].
  destruct (mem team VALID_TEAM_NAMES) eqn:Hmem.
  - intros [= <-]. cbn [Tm Payroll]. split; [apply mem_In, Hmem | assumption].
  - destruct (try_harder team) as [valid_name |] eqn:Hth.
    + intros [= <-]. cbn [Tm Payroll]. split; [| assumption].
      unfold try_harder in Hth. apply find_some in Hth. apply Hth.
    + destruct (Nat.ltb 3 (String.length team)); discriminate.
Qed.

Lemma insert_record_perm (x : PayrollRecord) (l : list PayrollRecord) :
  Permutation (x :: l) (insert_record x l).
Proof.
  induction l as [| y l IH]; cbn [insert_record]; [reflexivity |].
  destruct (Payroll x <? Payroll y); [| reflexivity].
  rewrite perm_swap. apply perm_skip, IH.
Qed.

Lemma sort_values_perm (l : list PayrollRecord) : Permutation l (sort_values l).
Proof.
  induction l as [| x l IH]; [reflexivity |].
  cbn [sort_values fold_right]. fold (sort_values l).
  rewrite <- insert_record_perm. apply perm_skip, IH.
Qed.

Lemma insert_record_descending (x : PayrollRecord) (l : list PayrollRecord) :
  descending l -> descending (insert_record x l).
Proof.
  induction l as [| y l IH]; intros Hd; cbn [insert_record].
  - cbn. split; [constructor | exact I].
  - destruct Hd as [Hy Hl].
    destruct (Z.ltb_spec (Payroll x) (Payroll y)) as [Hlt | Hge].
    + cbn [descending]. split; [| apply IH, Hl].
      rewrite <- insert_record_perm. constructor; [lia | assumption].
    + cbn [descending]. repeat split; try assumption.
      constructor; [lia |].
      eapply Forall_impl; [| exact Hy]. cbv beta. intros z Hz. lia.
Qed.

Lemma sort_values_descending (l : list PayrollRecord) : descending (sort_values l).
Proof.
  induction l as [| x l IH]; [exact I |].
  cbn [sort_values fold_right]. fold (sort_values l).
  apply insert_record_descending, IH.
Qed.

(** What a cleaned table is made of. *)
Lemma clean_dataframe_spec (df : DataFrame) (year : Z)
    (recs : list PayrollRecord) (warnings : list string) :
  clean_dataframe df year = Ok (Some recs, warnings) ->
  Forall (fun r => In (Tm r) VALID_TEAM_NAMES /\ 0 < Payroll r) recs
  /\ descending recs
  /\ exists team_col payroll_col outcomes,
       identify_team_column (filter_rows df) = Ok team_col
       /\ identify_payroll_column (filter_rows df) team_col = Some payroll_col
       /\ mapM (fun '(team_raw, payroll_raw) => clean_row team_raw payroll_raw)
               (combine (Frame.column team_col (filter_rows df))
                        (Frame.column payroll_col (filter_rows df)))
          = Ok outcomes
       /\ Permutation recs (collect appended outcomes)
       /\ warnings = collect warned outcomes.
Proof.
  unfold clean_dataframe.
  destruct (Frame.empty df); [discriminate |].
  destruct (identify_team_column (filter_rows df)) as [team_col | e] eqn:Hteam;
    cbn [bind]; [| discriminate].
  destruct (identify_payroll_column (filter_rows df) team_col) as [payroll_col |]
    eqn:Hpay; [| discriminate].
  destruct (mapM _ _) as [outcomes | e] eqn:Hmap; cbn [bind]; [| discriminate].
  destruct (collect appended outcomes) as [| r0 l0] eqn:Hcol; [discriminate |].
  intros [= <- <-].
  pose proof (sort_values_perm (r0 :: l0)) as Hperm.
  split; [| split].
  - rewrite <- Hperm, <- Hcol. apply Forall_forall. intros r Hr.
    apply In_collect in Hr as (o & Ho & Happ).
    destruct o as [r' | t |]; cbn [appended] in Happ; try discriminate.
    inversion Happ; subst r'.
    destruct (mapM_In _ _ _ Hmap _ Ho) as ([team_raw payroll_raw] & _ & Hrow).
    exact (clean_row_appended _ _ _ Hrow).
  - exact (sort_values_descending (r0 :: l0)).
  - exists team_col, payroll_col, outcomes.
    split; [reflexivity |]. split; [exact Hpay |]. split; [exact Hmap |].
    split; [| reflexivity].
    rewrite Hcol. symmetry. exact Hperm.
Qed.

(** C3 (counterexample).  The Yankees stand in two rows of the table,
    under two spellings and with two amounts, and the cleaned table has
    two records for them. *)
Lemma duplicate_team_kept_twice :
  exists recs,
    clean_dataframe duplicate_team 2004 = Ok (Some recs, [])
    /\ count_occ string_dec (map Tm recs) "New York Yankees" = 2%nat
    /\ ~ NoDup (map Tm recs).
Proof.
  eexists. split; [vm_compute; reflexivity |].
  split; [vm_compute; reflexivity |].
  intros H. apply NoDup_cons_iff in H as [Hnin _].
  apply Hnin. left. reflexivity.
Qed.


Lemma select_map {A B} (p : A -> bool) (g : A -> B) (xs : list A) :
  Frame.select (map p xs) (map g xs) = map g (filter p xs).
Proof.
  induction xs as [| x xs IH]; [reflexivity |].
  cbn [map Frame.select filter]. destruct (p x); cbn [map]; rewrite IH; reflexivity.
Qed.

Lemma cells_by_index (cs : list cell) :
  cs = map (fun i => cell_at i cs) (seq 0 (List.length cs)).
Proof.
  induction cs as [| c cs IH]; [reflexivity |].
  cbn [List.length seq map]. f_equal.
  rewrite <- seq_shift, map_map. exact IH.
Qed.

Lemma zip_with_map {A B C D} (f : B -> C -> D) (g : A -> B) (h : A -> C) (xs : list A) :
  Frame.zip_with f (map g xs) (map h xs) = map (fun x => f (g x) (h x)) xs.
Proof.
  induction xs as [| x xs IH]; [reflexivity |].
  cbn [map Frame.zip_with]. rewrite IH. reflexivity.
Qed.

Lemma combine_map {A B C} (g : A -> B) (h : A -> C) (xs : list A) :
  combine (map g xs) (map h xs) = map (fun x => (g x, h x)) xs.
Proof.
  induction xs as [| x xs IH]; [reflexivity |].
  cbn [map combine]. rewrite IH. reflexivity.
Qed.

Lemma filter_filter {A} (p q : A -> bool) (xs : list A) :
  filter q (filter p xs) = filter (fun x => (p x && q x)%bool) xs.
Proof.
  induction xs as [| x xs IH]; [reflexivity |].
  cbn [filter]. destruct (p x); cbn [filter andb]; [destruct (q x) |]; rewrite IH; reflexivity.
Qed.

Lemma collect_filter {A B} (k : A -> option B) (p : A -> bool) (xs : list A) :
  collect k (filter p xs) = collect (fun x => if p x then k x else None) xs.
Proof.
  induction xs as [| x xs IH]; [reflexivity |].
  cbn [filter collect]. destruct (p x); cbn [collect]; rewrite IH; reflexivity.
Qed.

Lemma collect_ext {A B} (k k' : A -> option B) (xs : list A) :
  (forall x, k x = k' x) -> collect k xs = collect k' xs.
Proof.
  intros H. induction xs as [| x xs IH]; [reflexivity |].
  cbn [collect]. rewrite H, IH. reflexivity.
Qed.

Lemma collect_none {A B} (k : A -> option B) (xs : list A) :
  (forall x, k x = None) -> collect k xs = [].
Proof.
  intros H. induction xs as [| x xs IH]; [reflexivity |].
  cbn [collect]. rewrite H. exact IH.
Qed.

Lemma mapM_map_collect {A B C} (f : A -> result B) (k : B -> option C) (xs : list A)
    (ys : list B) :
  mapM f xs = Ok ys ->
  collect k ys = collect (fun x => match f x with Ok y => k y | Raise _ => None end) xs.
Proof.
  revert ys. induction xs as [| x xs IH]; intros ys H; cbn [mapM] in H.
  - injection H as <-. reflexivity.
  - destruct (f x) as [y | e] eqn:E; cbn [bind] in H; [| discriminate].
    destruct (mapM f xs) as [ys' | e]; cbn [bind] in H; [| discriminate].
    injection H as <-. cbn [collect]. rewrite E.
    destruct (k y); rewrite (IH ys' eq_refl); reflexivity.
Qed.

Lemma column_keep_rows (mask : list bool) (col : string) (df : DataFrame) :
  Frame.column col (Frame.keep_rows mask df) = Frame.select mask (Frame.column col df).
Proof.
  induction df as [| [c cs] df IH]; cbn [Frame.keep_rows map Frame.column].
  - destruct mask; reflexivity.
  - destruct (String.eqb col c); [reflexivity | exact IH].
Qed.

Lemma first_column_keep_rows (mask : list bool) (df : DataFrame) :
  Frame.first_column (Frame.keep_rows mask df)
  = Frame.select mask (Frame.first_column df).
Proof. destruct df as [| [c cs] df]; [destruct mask |]; reflexivity. Qed.

(** In a rectangular frame, the mask of the rows that are all missing,
    row by row. *)
Lemma all_na_by_index (df : DataFrame) (n : nat) :
  df <> [] ->
  Forall (fun c => List.length (snd c) = n) df ->
  Frame.all_na df
  = map (fun i => forallb (fun c => Frame.is_na (cell_at i (snd c))) df) (seq 0 n).
Proof.
  induction df as [| [c cs] df IH]; [congruence |]. intros _ Hrect.
  apply Forall_cons_iff in Hrect as [Hcs Hdf]. cbn [snd] in Hcs.
  assert (Hhead : map Frame.is_na cs
                  = map (fun i => Frame.is_na (cell_at i cs)) (seq 0 n)).
  { rewrite (cells_by_index cs) at 1. rewrite Hcs, map_map. reflexivity. }
  destruct df as [| c' df'].
  - cbn [Frame.all_na forallb snd]. rewrite Hhead.
    apply map_ext. intros i. rewrite andb_true_r. reflexivity.
  - change (Frame.all_na ((c, cs) :: c' :: df'))
      with (Frame.zip_with andb (map Frame.is_na cs) (Frame.all_na (c' :: df'))).
    rewrite (IH ltac:(congruence) Hdf), Hhead, zip_with_map. reflexivity.
Qed.

Lemma column_length (col : string) (df : DataFrame) (n : nat) :
  Forall (fun c => List.length (snd c) = n) df ->
  Frame.column col df = [] \/ List.length (Frame.column col df) = n.
Proof.
  induction 1 as [| [c cs] df Hc Hdf IH]; [left; reflexivity |].
  cbn [Frame.column]. destruct (String.eqb col c); [right; exact Hc | exact IH].
Qed.

(** A column of the frame after the two row filters, by the rows of the
    input. *)
Lemma column_filter_rows (df : DataFrame) (col : string) :
  df <> [] -> rectangular df ->
  List.length (Frame.column col df) = Frame.nrows df ->
  Frame.column col (filter_rows df)
  = map (fun i => cell_at i (Frame.column col df))
        (filter (row_passes df) (seq 0 (Frame.nrows df))).
Proof.
  intros Hne Hrect Hlen. unfold filter_rows, Frame.dropna_all.
  rewrite !column_keep_rows, first_column_keep_rows.
  rewrite (all_na_by_index df (Frame.nrows df) Hne Hrect).
  assert (Hfirst : List.length (Frame.first_column df) = Frame.nrows df)
    by (destruct df as [| [c cs] df']; reflexivity).
  rewrite (cells_by_index (Frame.first_column df)) at 1. rewrite Hfirst.
  rewrite (cells_by_index (Frame.column col df)) at 1. rewrite Hlen.
  rewrite !map_map, !select_map, map_map, select_map, filter_filter.
  f_equal.
Qed.

Lemma clean_row_missing_team (payroll_raw : cell) :
  match clean_row None payroll_raw with
  | Ok (Appended r) => Some r
  | _ => None
  end = None.
Proof.
  unfold clean_row. cbn [SalaryDataCleaner.standardize_team_name].
  destruct (clean_currency payroll_raw) as [[v |] | e]; reflexivity.
Qed.

Lemma clean_row_missing_payroll (team_raw : cell) :
  match clean_row team_raw None with
  | Ok (Appended r) => Some r
  | _ => None
  end = None.
Proof.
  unfold clean_row. cbn [clean_currency bind].
  destruct (SalaryDataCleaner.standardize_team_name team_raw); reflexivity.
Qed.

Lemma cell_at_nil (i : nat) : cell_at i [] = None.
Proof. unfold cell_at. destruct i; reflexivity. Qed.

(** The records appended by the loop of [clean_dataframe], by the rows
    of the input. *)
Lemma appended_by_row (df : DataFrame) (team_col payroll_col : string)
    (outcomes : list row_outcome) :
  df <> [] -> rectangular df ->
  mapM (fun '(team_raw, payroll_raw) => clean_row team_raw payroll_raw)
       (combine (Frame.column team_col (filter_rows df))
                (Frame.column payroll_col (filter_rows df)))
  = Ok outcomes ->
  collect appended outcomes
  = collect (row_record df team_col payroll_col) (seq 0 (Frame.nrows df)).
Proof.
  intros Hne Hrect Hmap.
  assert (Hnone : forall d : DataFrame, Frame.column team_col df = []
                    \/ Frame.column payroll_col df = [] ->
            collect (row_record df team_col payroll_col) (seq 0 (Frame.nrows df)) = []).
  { intros _ H. apply collect_none. intros i. unfold row_record.
    destruct (row_passes df i); [| reflexivity].
    destruct H as [-> | ->]; rewrite cell_at_nil;
      [apply clean_row_missing_team | apply clean_row_missing_payroll]. }
  assert (Hsel : forall col, Frame.column col df = [] ->
                             Frame.column col (filter_rows df) = []).
  { intros col H. unfold filter_rows, Frame.dropna_all.
    rewrite !column_keep_rows, H.
    destruct (map negb (Frame.all_na df)); cbn [Frame.select];
      match goal with |- Frame.select ?m [] = [] => destruct m; reflexivity end. }
  destruct (column_length team_col df _ Hrect) as [Ht | Ht].
  { rewrite (Hsel _ Ht) in Hmap. cbn in Hmap. injection Hmap as <-.
    rewrite (Hnone df (or_introl Ht)). reflexivity. }
  destruct (column_length payroll_col df _ Hrect) as [Hp | Hp].
  { rewrite (Hsel _ Hp) in Hmap. rewrite combine_nil in Hmap. cbn in Hmap.
    injection Hmap as <-. rewrite (Hnone df (or_intror Hp)). reflexivity. }
  rewrite (column_filter_rows df team_col Hne Hrect Ht),
          (column_filter_rows df payroll_col Hne Hrect Hp), combine_map in Hmap.
  rewrite (mapM_map_collect _ appended _ _ Hmap).
  assert (Hmm : forall (A B C : Type) (k : B -> option C) (h : A -> B) (xs : list A),
                  collect k (map h xs) = collect (fun x => k (h x)) xs).
  { intros A B C k h xs. induction xs as [| x xs IH]; [reflexivity |].
    cbn [map collect]. rewrite IH. reflexivity. }
  rewrite Hmm, collect_filter. apply collect_ext. intros i.
  unfold row_record. destruct (row_passes df i); [| reflexivity].
  destruct (clean_row _ _) as [[r | t |] | e]; reflexivity.
Qed.

(** When [clean_row] appends a record, and which. *)
Lemma clean_row_appended_iff (team_raw payroll_raw : cell) (r : PayrollRecord) :
  clean_row team_raw payroll_raw = Ok (Appended r)
  <-> exists name,
        SalaryDataCleaner.standardize_team_name team_raw = Some name
        /\ name <> ""
        /\ clean_currency payroll_raw = Ok (Some (Payroll r))
        /\ 0 < Payroll r
        /\ ((In name VALID_TEAM_NAMES /\ Tm r = name)
            \/ (~ In name VALID_TEAM_NAMES /\ try_harder name = Some (Tm r))).
Proof.
  unfold clean_row. destruct r as [tm pay]. cbn [Tm Payroll]. split.
  - destruct (clean_currency payroll_raw) as [[payroll |] | e]; cbn [bind];
      destruct (SalaryDataCleaner.standardize_team_name team_raw) as [team |];
      try discriminate.
    destruct (String.eqb_spec team "") as [| Hne]; cbn [negb andb]; [discriminate |].
    destruct (payroll =? 0); cbn [negb andb]; [discriminate |].
    destruct (Z.ltb_spec 0 payroll) as [Hpos |]; [| discriminate].
    destruct (mem team VALID_TEAM_NAMES) eqn:Hmem.
    + intros [= <- <-]. exists team. repeat split; try assumption.
      left. split; [apply mem_In, Hmem | reflexivity].
    + destruct (try_harder team) as [valid_name |] eqn:Hth.
      * intros [= <- <-]. exists team. repeat split; try assumption.
        right. split; [| exact Hth].
        intros Hin. apply In_mem in Hin. congruence.
      * destruct (Nat.ltb 3 (String.length team)); discriminate.
  - intros (name & -> & Hne & -> & Hpos & Hsrc). cbn [bind].
    destruct (String.eqb_spec name "") as [| _]; [contradiction |]. cbn [negb andb].
    replace (pay =? 0) with false by (symmetry; apply Z.eqb_neq; lia).
    cbn [negb andb].
    destruct (Z.ltb_spec 0 pay); [| lia].
    destruct Hsrc as [[Hin ->] | [Hnin Hth]].
    + rewrite (In_mem _ _ Hin). reflexivity.
    + destruct (mem name VALID_TEAM_NAMES) eqn:Hmem;
        [apply mem_In in Hmem; contradiction |].
      rewrite Hth. reflexivity.
Qed.

Lemma count_occ_collect {A} (g : A -> option PayrollRecord) (team : string) (xs : list A) :
  count_occ string_dec (map Tm (collect g xs)) team
  = List.length
      (filter (fun x => match g x with
                        | Some r => String.eqb (Tm r) team
                        | None => false
                        end) xs).
Proof.
  induction xs as [| x xs IH]; [reflexivity |].
  cbn [collect filter]. destruct (g x) as [r |]; [| exact IH].
  cbn [map count_occ].
  destruct (string_dec (Tm r) team) as [E | E].
  - rewrite E, String.eqb_refl. cbn [List.length]. rewrite IH. reflexivity.
  - destruct (String.eqb_spec (Tm r) team); [contradiction | exact IH].
Qed.

(** C3 (as amended).  There is no deduplication.  In a frame whose
    columns have one length, the cleaned table holds exactly one record
    for every row of the input that passes the two filters (some cell
    of the row is present, and the text of its first cell has none of
    the words league, average, avg, total, rank, in any letter case)
    and for which [clean_row] appends a record; so a team standing in
    several such rows has several records.  [clean_row] appends a
    record exactly when the team cell resolves to a name that is not
    empty and the payroll cell parses to a positive amount, under that
    name if it is a valid name, and else under the first valid name that
    contains it or is contained in it, if there is one.  Each record has
    a valid team name and a positive payroll, and the records are in
    descending order of payroll. *)
Theorem clean_dataframe_keeps_every_row :
  forall (df : DataFrame) (year : Z) (recs : list PayrollRecord) (warnings : list string),
    clean_dataframe df year = Ok (Some recs, warnings) ->
    rectangular df ->
    Forall (fun r => In (Tm r) VALID_TEAM_NAMES /\ 0 < Payroll r) recs
    /\ descending recs
    /\ (exists team_col payroll_col,
          identify_team_column (filter_rows df) = Ok team_col
          /\ identify_payroll_column (filter_rows df) team_col = Some payroll_col
          /\ Permutation recs
               (collect (row_record df team_col payroll_col) (seq 0 (Frame.nrows df)))
          /\ forall team,
               count_occ string_dec (map Tm recs) team
               = List.length
                   (filter (fun i => match row_record df team_col payroll_col i with
                                     | Some r => String.eqb (Tm r) team
                                     | None => false
                                     end)
                           (seq 0 (Frame.nrows df))))
    /\ (forall (team_raw payroll_raw : cell) (r : PayrollRecord),
          clean_row team_raw payroll_raw = Ok (Appended r)
          <-> exists name,
                SalaryDataCleaner.standardize_team_name team_raw = Some name
                /\ name <> ""
                /\ clean_currency payroll_raw = Ok (Some (Payroll r))
                /\ 0 < Payroll r
                /\ ((In name VALID_TEAM_NAMES /\ Tm r = name)
                    \/ (~ In name VALID_TEAM_NAMES /\ try_harder name = Some (Tm r)))).
Proof.
  intros df year recs warnings H Hrect.
  assert (Hne : df <> []).
  { intros ->. unfold clean_dataframe in H. cbn in H. discriminate. }
  destruct (clean_dataframe_spec df year recs warnings H)
    as (Hvalid & Hdesc & team_col & payroll_col & outcomes & Ht & Hp & Hm & Hperm & _).
  rewrite (appended_by_row df team_col payroll_col outcomes Hne Hrect Hm) in Hperm.
  split; [exact Hvalid |]. split; [exact Hdesc |]. split.
  - exists team_col, payroll_col.
    split; [exact Ht |]. split; [exact Hp |]. split; [exact Hperm |].
    intros team. rewrite <- count_occ_collect.
    apply Permutation_count_occ, Permutation_map, Hperm.
  - intros team_raw payroll_raw r. apply clean_row_appended_iff.
Qed.

Lemma clean_dataframe_keeps_every_row_witness :
  descending
    [ {| Tm := "New York Yankees"; Payroll := 150000000 |};
      {| Tm := "New York Yankees"; Payroll := 149000000 |};
      {| Tm := "Boston Red Sox"; Payroll := 140000000 |};
      {| Tm := "Chicago Cubs"; Payroll := 130000000 |};
      {| Tm := "Los Angeles Dodgers"; Payroll := 120000000 |};
      {| Tm := "Seattle Mariners"; Payroll := 110000000 |};
      {| Tm := "Atlanta Braves"; Payroll := 100000000 |};
      {| Tm := "Houston Astros"; Payroll := 95000000 |};
      {| Tm := "Texas Rangers"; Payroll := 90000000 |};
      {| Tm := "Detroit Tigers"; Payroll := 85000000 |};
      {| Tm := "Minnesota Twins"; Payroll := 80000000 |} ].
Proof.
  refine (proj1 (proj2 (clean_dataframe_keeps_every_row duplicate_team 2004 _ [] _ _))).
  - vm_compute. reflexivity.
  - unfold rectangular. repeat (apply Forall_cons; [reflexivity |]). apply Forall_nil.
Defined.

(** C4 (counterexample).  [Yomiuri] matches nothing and comes back from
    [standardize_team_name] as it is, and its payroll parses to a
    positive amount; yet the cleaned table has the ten known teams only.
    The row is dropped with a warning, and the row of [SK], a token of
    fewer than four characters, is dropped without one. *)
Lemma unknown_team_row_dropped :
  matches_nothing "11. Yomiuri" = true
  /\ SalaryDataCleaner.standardize_team_name (Some "11. Yomiuri") = Some "Yomiuri"
  /\ clean_currency (Some "$99,000,000") = Ok (Some 99000000)
  /\ exists recs,
       clean_dataframe unknown_teams 2004 = Ok (Some recs, ["Yomiuri"])
       /\ List.length recs = 10%nat
       /\ Forall (fun r => Tm r <> "Yomiuri" /\ Tm r <> "SK"
                           /\ Payroll r <> 99000000 /\ Payroll r <> 98000000) recs.
Proof.
  split; [vm_compute; reflexivity |].
  split; [vm_compute; reflexivity |].
  split; [vm_compute; reflexivity |].
  eexists. split; [vm_compute; reflexivity |].
  split; [reflexivity |].
  repeat (apply Forall_cons; [repeat split; discriminate |]). apply Forall_nil.
Qed.

(** C4 (as amended).  For a token that matches nothing,
    [standardize_team_name] returns the token itself, trimmed and without
    a rank prefix, and raises nothing.  When no valid name contains it or
    is contained in it either, its row is not appended: [clean_row]
    prints the warning if the payroll is positive and the token has more
    than three characters, and otherwise passes the row over in silence.
    No record of a cleaned table bears the token. *)
Theorem unmatched_team_is_dropped :
  forall s : string,
    matches_nothing s = true ->
    SalaryDataCleaner.standardize_team_name (Some s) = Some (bare_name s)
    /\ (forall (payroll_raw : cell) (payroll : option Z),
          try_harder (bare_name s) = None ->
          clean_currency payroll_raw = Ok payroll ->
          clean_row (Some s) payroll_raw
          = Ok match payroll with
               | Some v =>
                   if ((0 <? v) && Nat.ltb 3 (String.length (bare_name s)))%bool
                   then Warned (bare_name s)
                   else Skipped
               | None => Skipped
               end)
    /\ (forall (df : DataFrame) (year : Z) (recs : list PayrollRecord)
               (warnings : list string),
          clean_dataframe df year = Ok (Some recs, warnings) ->
          forall r, In r recs -> Tm r <> bare_name s).
Proof.
  intros s Hs. unfold matches_nothing in Hs.
  destruct (lookup (bare_name s) TEAM_NAME_MAPPINGS) eqn:Hlook; [discriminate |].
  apply andb_prop in Hs as [Hmem Hpm]. apply negb_true_iff in Hmem.
  destruct (partial_match (lower (bare_name s)) TEAM_NAME_MAPPINGS) eqn:Hpart;
    [discriminate |].
  assert (Hstd : SalaryDataCleaner.standardize_team_name (Some s) = Some (bare_name s)).
  { unfold SalaryDataCleaner.standardize_team_name. rewrite Hlook, Hmem, Hpart. reflexivity. }
  split; [exact Hstd | split].
  - intros payroll_raw payroll Hth Hcur. unfold clean_row.
    rewrite Hstd, Hcur. cbn [bind].
    destruct payroll as [v |]; [| reflexivity].
    destruct (String.eqb_spec (bare_name s) "") as [Hempty | _].
    { rewrite Hempty in Hpart. vm_compute in Hpart. discriminate Hpart. }
    cbn [negb andb]. rewrite Hmem, Hth.
    destruct (Z.ltb_spec 0 v) as [Hpos | Hle].
    + replace (v =? 0) with false by (symmetry; apply Z.eqb_neq; lia).
      cbn [negb andb]. destruct (Nat.ltb 3 (String.length (bare_name s))); reflexivity.
    + destruct (v =? 0); reflexivity.
  - intros df year recs warnings H r Hr Heq.
    destruct (clean_dataframe_spec df year recs warnings H) as (Hvalid & _).
    rewrite Forall_forall in Hvalid. destruct (Hvalid r Hr) as [Hin _].
    rewrite Heq in Hin. apply In_mem in Hin. congruence.
Qed.

Lemma unmatched_team_is_dropped_witness :
  SalaryDataCleaner.standardize_team_name (Some "11. Yomiuri") = Some "Yomiuri"
  /\ clean_row (Some "11. Yomiuri") (Some "$99,000,000") = Ok (Warned "Yomiuri").
Proof.
  destruct (unmatched_team_is_dropped "11. Yomiuri") as (Hstd & Hrow & _).
  - vm_compute. reflexivity.
  - split; [exact Hstd |].
    apply (Hrow (Some "$99,000,000") (Some 99000000)); vm_compute; reflexivity.
Defined.

(* ===================================================================== *)
(** * Further properties of the code                                      *)
(* ===================================================================== *)

(** ** salary_cleaning.py *)

Lemma float_of_str_raises (s : string) (e : exn) :
  float_of_str s = Raise e -> e = ValueError.
Proof.
  unfold float_of_str. destruct (sign (strip s)) as [neg body].
  destruct (_ || _)%bool; [discriminate |].
  destruct (String.eqb (lower body) "nan"); [discriminate |].
  destruct (number body) as [[[m nfrac] r] |]; [| congruence].
  destruct (exponent r) as [[e10 [| c r']] |]; try congruence.
  destruct m; discriminate.
Qed.

Lemma int_of_float_raises (f : spec_float) (e : exn) :
  int_of_float f = Raise e -> e = OverflowError \/ e = ValueError.
Proof. destruct f; cbn [int_of_float]; intros H; inversion H; auto. Qed.

Lemma except_ValueError_raises {A} (body handler : result A) (e : exn) :
  except_ValueError body handler = Raise e ->
  (body = Raise e /\ e <> ValueError) \/ handler = Raise e.
Proof.
  unfold except_ValueError. destruct body as [a | []]; intros H;
    try discriminate; auto; left; split; congruence.
Qed.

(** X1.  The only exception that [clean_currency] lets out is
    [OverflowError]: a text that is no number never raises. *)
Theorem clean_currency_raises_only_overflow :
  forall (value : cell) (e : exn),
    clean_currency value = Raise e -> e = OverflowError.
Proof.
  intros [v |] e; [| discriminate].
  unfold clean_currency. destruct (mem (strip v) _); [discriminate |].
  set (s := replace " " "" (replace "$" "" (strip v))).
  assert (Hplain : forall e',
    except_ValueError (bind (int_float (replace "," "" s)) (fun n => Ok (Some n)))
                      (Ok None) = Raise e' -> e' = OverflowError).
  { intros e' H. apply except_ValueError_raises in H as [[H Hne] | H]; [| discriminate].
    unfold int_float in H.
    destruct (float_of_str (replace "," "" s)) as [f | e0] eqn:Ef; cbn [bind] in H.
    - destruct (int_of_float f) as [n | e1] eqn:Ei; cbn [bind] in H; [discriminate |].
      inversion H; subst e1. apply int_of_float_raises in Ei as [|]; congruence.
    - inversion H; subst e0. apply float_of_str_raises in Ef. congruence. }
  destruct (ends_with_M s); [| apply Hplain].
  intros H. apply except_ValueError_raises in H as [[H Hne] | H]; [| apply Hplain, H].
  destruct (float_of_str (replace "," "" (drop_last s))) as [f | e0] eqn:Ef; cbn [bind] in H.
  - destruct (int_of_float (mul_million f)) as [n | e1] eqn:Ei; cbn [bind] in H;
      [discriminate |].
    inversion H; subst e1. apply int_of_float_raises in Ei as [|]; congruence.
  - inversion H; subst e0. apply float_of_str_raises in Ef. congruence.
Qed.

Lemma clean_currency_raises_only_overflow_witness :
  clean_currency (Some "1e999") = Raise OverflowError
  /\ OverflowError = OverflowError.
Proof.
  split; [vm_compute; reflexivity |].
  apply (clean_currency_raises_only_overflow (Some "1e999") OverflowError).
  vm_compute. reflexivity.
Defined.

Lemma lookup_In_values (k v : string) (d : list (string * string)) :
  lookup k d = Some v -> In v (map snd d).
Proof.
  induction d as [| [k' v'] d IH]; cbn [lookup map snd In]; [discriminate |].
  destruct (String.eqb k k'); [intros [= ->]; left; reflexivity | auto].
Qed.

Lemma partial_match_In_values (n v : string) (d : list (string * string)) :
  partial_match n d = Some v -> In v (map snd d).
Proof.
  induction d as [| [k' v'] d IH]; cbn [partial_match map snd In]; [discriminate |].
  destruct (_ || _)%bool; [intros [= ->]; left; reflexivity | auto].
Qed.

Lemma mapping_values_valid :
  forall v, In v (map snd TEAM_NAME_MAPPINGS) -> In v VALID_TEAM_NAMES.
Proof.
  assert (H : forallb (fun v => mem v VALID_TEAM_NAMES) (map snd TEAM_NAME_MAPPINGS) = true)
    by (vm_compute; reflexivity).
  rewrite forallb_forall in H. intros v Hv. apply mem_In, H, Hv.
Qed.

(** X2.  [standardize_team_name] of the salary cleaner answers with one
    of the 30 valid names, or else with the token itself (trimmed, rank
    prefix removed), and the latter only for a token that matches
    nothing. *)
Theorem standardize_team_name_range :
  forall s : string,
    exists v,
      SalaryDataCleaner.standardize_team_name (Some s) = Some v
      /\ (In v VALID_TEAM_NAMES \/ (v = bare_name s /\ matches_nothing s = true)).
Proof.
  intros s. unfold SalaryDataCleaner.standardize_team_name, matches_nothing.
  destruct (lookup (bare_name s) TEAM_NAME_MAPPINGS) as [v |] eqn:Hl.
  - exists v. split; [reflexivity | left].
    apply mapping_values_valid, (lookup_In_values _ _ _ Hl).
  - destruct (mem (bare_name s) VALID_TEAM_NAMES) eqn:Hm.
    + exists (bare_name s). split; [reflexivity | left; apply mem_In, Hm].
    + destruct (partial_match (lower (bare_name s)) TEAM_NAME_MAPPINGS) as [v |] eqn:Hp.
      * exists v. split; [reflexivity | left].
        apply mapping_values_valid, (partial_match_In_values _ _ _ Hp).
      * exists (bare_name s). split; [reflexivity | right; split; reflexivity].
Qed.

(** X3.  [identify_team_column] answers with a header of the frame; it
    raises (an [IndexError]) only for a frame without columns.  A header
    with one of the keywords wins over the content of the columns. *)
Theorem identify_team_column_in_frame :
  forall df : DataFrame,
    (forall col, identify_team_column df = Ok col -> In col (Frame.columns df))
    /\ (forall e, identify_team_column df = Raise e -> df = [] /\ e = IndexError)
    /\ (forall col rest cs,
          df = (col, cs) :: rest ->
          any_in team_keywords (lower col) = true ->
          identify_team_column df = Ok col).
Proof.
  intros df. unfold identify_team_column. split; [| split].
  - intros col.
    destruct (find _ (Frame.columns df)) as [c |] eqn:Hf.
    + intros [= <-]. apply find_some in Hf. apply Hf.
    + destruct df as [| [first_col cs] rest]; [discriminate |].
      destruct (Nat.leb 3 (team_matches cs)); [intros [= <-]; left; reflexivity |].
      destruct (find _ ((first_col, cs) :: rest)) as [[c cs'] |] eqn:Hf2.
      * intros [= <-]. apply find_some in Hf2 as [Hin _].
        apply (in_map fst) in Hin. exact Hin.
      * intros [= <-]. left. reflexivity.
  - intros e.
    destruct (find _ (Frame.columns df)) as [c |]; [discriminate |].
    destruct df as [| [first_col cs] rest]; [intros [= <-]; auto |].
    destruct (Nat.leb 3 (team_matches cs)); [discriminate |].
    destruct (find _ ((first_col, cs) :: rest)) as [[c cs'] |]; discriminate.
  - intros col rest cs -> Hkw. cbn [Frame.columns map fst find]. rewrite Hkw. reflexivity.
Qed.

Lemma identify_team_column_in_frame_witness :
  identify_team_column ten_teams = Ok "Club".
Proof.
  refine (proj2 (proj2 (identify_team_column_in_frame ten_teams)) "Club" _ _ eq_refl _).
  vm_compute. reflexivity.
Defined.

Lemma threshold_implies_fallback (team_col : string) (c : string * list cell) (y : candidate) :
  threshold_candidate team_col c = Some y ->
  exists y', fallback_candidate team_col c = Some y'.
Proof.
  destruct c as [col cs]. intros H.
  apply threshold_candidate_inv in H as (Hne & _ & ws & Hws & Hlen & Hmax & _ & _).
  unfold fallback_candidate.
  destruct (String.eqb_spec col team_col) as [| _]; [contradiction |].
  rewrite Hws. destruct (Nat.leb_spec 10 (List.length ws)); [| lia].
  destruct (Z.ltb_spec 0 (max_of ws)); [| lia]. eexists. reflexivity.
Qed.

Lemma fallback_candidate_positive (team_col col : string) (cs : list cell) (y : candidate) :
  fallback_candidate team_col (col, cs) = Some y ->
  exists ws, valid_values cs = Ok ws /\ 0 < max_of ws.
Proof.
  unfold fallback_candidate.
  destruct (String.eqb col team_col); [discriminate |].
  destruct (valid_values cs) as [ws | e]; [| discriminate].
  destruct (Nat.leb 10 (List.length ws)); [| discriminate].
  destruct (Z.ltb_spec 0 (max_of ws)); [| discriminate].
  intros _. exists ws. split; [reflexivity | assumption].
Qed.

(** The column that [identify_payroll_column] names. *)
Lemma identify_payroll_column_some (df : DataFrame) (team_col pc : string) :
  identify_payroll_column df team_col = Some pc ->
  pc <> team_col
  /\ exists cs vs,
       In (pc, cs) df /\ valid_values cs = Ok vs
       /\ (10 <= List.length vs)%nat /\ 0 < max_of vs.
Proof.
  unfold identify_payroll_column.
  destruct (collect (threshold_candidate team_col) df) as [| y0 l0] eqn:Hc1.
  - destruct (collect (fallback_candidate team_col) df) as [| z0 m0] eqn:Hc2;
      [discriminate |].
    destruct (sort_candidates_head (z0 :: m0)) as (h & t & Hs & Hin & _); [congruence |].
    rewrite Hs. destruct h as [[col mx] pr]. intros [= ->].
    rewrite <- Hc2 in Hin. apply In_collect in Hin as ([c cs] & Hinc & Hf).
    pose proof (fallback_candidate_positive _ _ _ _ Hf) as (ws' & Hws' & Hpos).
    apply fallback_candidate_inv in Hf as (Hne & ws & Hws & Hl & [= -> -> ->]).
    split; [assumption |]. exists cs, ws. rewrite Hws in Hws'. inversion Hws'; subst ws'.
    repeat split; assumption.
  - destruct (sort_candidates_head (y0 :: l0)) as (h & t & Hs & Hin & _); [congruence |].
    rewrite Hs. destruct h as [[col mx] pr]. intros [= ->].
    rewrite <- Hc1 in Hin. apply In_collect in Hin as ([c cs] & Hinc & Hf).
    apply threshold_candidate_inv in Hf as (Hne & _ & ws & Hws & Hl & Hmax & _ & [= -> -> ->]).
    split; [assumption |]. exists cs, ws. repeat split; try assumption. lia.
Qed.

(** X4.  The column that [identify_payroll_column] selects is never the
    team column: it is a column of the frame none of whose cells makes
    the parser raise, with at least ten parsed values and a positive
    maximum.  The answer is [None] exactly when no column passes the
    test of the fallback loop. *)
Theorem identify_payroll_column_sound :
  forall (df : DataFrame) (team_col : string),
    (forall pc,
        identify_payroll_column df team_col = Some pc ->
        pc <> team_col
        /\ exists cs vs,
             In (pc, cs) df /\ valid_values cs = Ok vs
             /\ (10 <= List.length vs)%nat /\ 0 < max_of vs)
    /\ (identify_payroll_column df team_col = None
        <-> forall c, In c df -> fallback_candidate team_col c = None).
Proof.
  intros df team_col. split; [intros pc; apply identify_payroll_column_some |].
  unfold identify_payroll_column. split.
  - intros H c Hc.
    destruct (collect (threshold_candidate team_col) df) as [| y0 l0] eqn:Hc1.
    + destruct (collect (fallback_candidate team_col) df) as [| z0 m0] eqn:Hc2.
      * destruct (fallback_candidate team_col c) as [y |] eqn:Hf; [| reflexivity].
        assert (Hin : In y (collect (fallback_candidate team_col) df))
          by (apply In_collect; exists c; auto).
        rewrite Hc2 in Hin. destruct Hin.
      * destruct (sort_candidates_head (z0 :: m0)) as (h & t & Hs & _); [congruence |].
        rewrite Hs in H. destruct h as [[col mx] pr]. discriminate.
    + destruct (sort_candidates_head (y0 :: l0)) as (h & t & Hs & _); [congruence |].
      rewrite Hs in H. destruct h as [[col mx] pr]. discriminate.
  - intros Hnone.
    assert (H2 : collect (fallback_candidate team_col) df = []).
    { destruct (collect (fallback_candidate team_col) df) as [| z0 m0] eqn:Hc2;
        [reflexivity | exfalso].
      assert (Hin : In z0 (collect (fallback_candidate team_col) df))
        by (rewrite Hc2; left; reflexivity).
      apply In_collect in Hin as (c & Hc & Hf). rewrite (Hnone c Hc) in Hf. discriminate. }
    assert (H1 : collect (threshold_candidate team_col) df = []).
    { destruct (collect (threshold_candidate team_col) df) as [| y0 l0] eqn:Hc1;
        [reflexivity | exfalso].
      assert (Hin : In y0 (collect (threshold_candidate team_col) df))
        by (rewrite Hc1; left; reflexivity).
      apply In_collect in Hin as (c & Hc & Hf).
      apply threshold_implies_fallback in Hf as [y' Hf].
      rewrite (Hnone c Hc) in Hf. discriminate. }
    rewrite H1, H2. reflexivity.
Qed.

Lemma identify_payroll_column_sound_witness :
  "2004" <> "Club"
  /\ identify_payroll_column three_teams "Team" = None.
Proof.
  destruct (identify_payroll_column_sound ten_teams "Club") as [Hsome _].
  destruct (identify_payroll_column_sound three_teams "Team") as [_ Hnone].
  split.
  - apply (Hsome "2004"). vm_compute. reflexivity.
  - apply Hnone. intros c [<- | [<- | [<- | []]]]; vm_compute; reflexivity.
Defined.

Lemma columns_keep_rows (mask : list bool) (df : DataFrame) :
  Frame.columns (Frame.keep_rows mask df) = Frame.columns df.
Proof.
  unfold Frame.columns, Frame.keep_rows. rewrite map_map.
  apply map_ext. intros [c cs]. reflexivity.
Qed.

Lemma columns_filter_rows (df : DataFrame) :
  Frame.columns (filter_rows df) = Frame.columns df.
Proof.
  unfold filter_rows, Frame.dropna_all. rewrite !columns_keep_rows. reflexivity.
Qed.

Lemma column_of_In (df : DataFrame) (c : string) (cs : list cell) :
  NoDup (Frame.columns df) -> In (c, cs) df -> Frame.column c df = cs.
Proof.
  induction df as [| [c' cs'] df IH]; intros Hnd Hin; [destruct Hin |].
  cbn [Frame.columns map fst] in Hnd. inversion Hnd as [| ? ? Hnotin Hnd']; subst.
  cbn [Frame.column]. destruct Hin as [[= -> ->] | Hin].
  - rewrite String.eqb_refl. reflexivity.
  - destruct (String.eqb_spec c c') as [-> | _]; [| apply IH; assumption].
    exfalso. apply Hnotin. apply (in_map fst) in Hin. exact Hin.
Qed.

Lemma mapM_Ok_inv {A B} (f : A -> result B) (xs : list A) (ys : list B) :
  mapM f xs = Ok ys -> forall x, In x xs -> exists y, f x = Ok y.
Proof.
  revert ys. induction xs as [| x0 xs IH]; intros ys H x Hx; [destruct Hx |].
  cbn [mapM] in H. destruct (f x0) as [y0 | e] eqn:Ef; cbn [bind] in H; [| discriminate].
  destruct (mapM f xs) as [ys0 | e]; cbn [bind] in H; [| discriminate].
  destruct Hx as [<- | Hx]; [eauto | exact (IH ys0 eq_refl x Hx)].
Qed.

Lemma mapM_Ok_intro {A B} (f : A -> result B) (xs : list A) :
  (forall x, In x xs -> exists y, f x = Ok y) -> exists ys, mapM f xs = Ok ys.
Proof.
  induction xs as [| x0 xs IH]; intros H; [exists []; reflexivity |].
  destruct (H x0 (or_introl eq_refl)) as [y0 Hy0].
  destruct IH as [ys Hys]; [intros x Hx; apply H; right; exact Hx |].
  exists (y0 :: ys). cbn [mapM]. rewrite Hy0. cbn [bind]. rewrite Hys. reflexivity.
Qed.

Lemma clean_row_Ok (team_raw payroll_raw : cell) (payroll : option Z) :
  clean_currency payroll_raw = Ok payroll ->
  exists o, clean_row team_raw payroll_raw = Ok o.
Proof.
  intros H. unfold clean_row. rewrite H. cbn [bind].
  destruct (SalaryDataCleaner.standardize_team_name team_raw) as [team |];
    destruct payroll as [v |]; try (eexists; reflexivity).
  destruct (_ && _)%bool; [| eexists; reflexivity].
  destruct (mem team VALID_TEAM_NAMES); [eexists; reflexivity |].
  destruct (try_harder team); [eexists; reflexivity |].
  destruct (Nat.ltb 3 (String.length team)); eexists; reflexivity.
Qed.

(** X5.  [clean_dataframe] never raises on a frame with distinct headers,
    even though [clean_currency] can: a column with a cell on which the
    parser raises is never selected as the payroll column. *)
Theorem clean_dataframe_never_raises :
  forall (df : DataFrame) (year : Z),
    NoDup (Frame.columns df) ->
    exists r, clean_dataframe df year = Ok r.
Proof.
  intros df year Hnd. unfold clean_dataframe.
  destruct (Frame.empty df) eqn:Hempty; [eexists; reflexivity |].
  assert (Hcols : NoDup (Frame.columns (filter_rows df)))
    by (rewrite columns_filter_rows; exact Hnd).
  destruct (identify_team_column (filter_rows df)) as [team_col | e] eqn:Hteam.
  2:{ exfalso. unfold identify_team_column in Hteam.
      destruct (find _ (Frame.columns (filter_rows df))); [discriminate |].
      destruct (filter_rows df) as [| [c cs] rest] eqn:Hf.
      - apply (f_equal Frame.columns) in Hf. rewrite columns_filter_rows in Hf.
        destruct df; [discriminate Hempty | discriminate Hf].
      - destruct (Nat.leb 3 (team_matches cs)); [discriminate |].
        destruct (find _ ((c, cs) :: rest)) as [[c' cs'] |]; discriminate. }
  cbn [bind].
  destruct (identify_payroll_column (filter_rows df) team_col) as [payroll_col |] eqn:Hpay;
    [| eexists; reflexivity].
  apply identify_payroll_column_some in Hpay as (_ & cs & vs & Hin & Hvs & _).
  rewrite (column_of_In _ _ _ Hcols Hin).
  unfold valid_values in Hvs.
  destruct (mapM clean_currency cs) as [cleaned | e] eqn:Hclean; [| discriminate].
  destruct (mapM_Ok_intro
              (fun '(team_raw, payroll_raw) => clean_row team_raw payroll_raw)
              (combine (Frame.column team_col (filter_rows df)) cs)) as [outcomes Ho].
  { intros [t p] Htp. apply in_combine_r in Htp.
    destruct (mapM_Ok_inv _ _ _ Hclean p Htp) as [v Hv].
    exact (clean_row_Ok t p v Hv). }
  rewrite Ho. cbn [bind].
  destruct (collect appended outcomes); eexists; reflexivity.
Qed.

Lemma clean_dataframe_never_raises_witness :
  exists r, clean_dataframe unknown_teams 2004 = Ok r.
Proof.
  apply clean_dataframe_never_raises.
  cbn. repeat (apply NoDup_cons; [cbn; intuition discriminate |]).
  apply NoDup_nil.
Defined.

Lemma hardcoded_records_valid :
  Forall (fun r => In (Tm r) VALID_TEAM_NAMES /\ 0 < Payroll r) HARDCODED_1998
  /\ Forall (fun r => In (Tm r) VALID_TEAM_NAMES /\ 0 < Payroll r) HARDCODED_1999.
Proof.
  assert (H : forall l,
    forallb (fun r => (mem (Tm r) VALID_TEAM_NAMES && (0 <? Payroll r))%bool) l = true ->
    Forall (fun r => In (Tm r) VALID_TEAM_NAMES /\ 0 < Payroll r) l).
  { intros l Hl. rewrite forallb_forall in Hl. apply Forall_forall. intros r Hr.
    specialize (Hl r Hr). apply andb_prop in Hl as [Hm Hp].
    split; [apply mem_In, Hm | apply Z.ltb_lt, Hp]. }
  split; apply H; vm_compute; reflexivity.
Qed.

(** What [process_file] writes and reports. *)
Lemma process_file_shape (read_csv : result DataFrame) (year : Z) :
  (exists recs,
      process_file read_csv year = (Some recs, (true, List.length recs))
      /\ recs <> []
      /\ Forall (fun r => In (Tm r) VALID_TEAM_NAMES /\ 0 < Payroll r) recs)
  \/ process_file read_csv year = (None, (false, O)).
Proof.
  unfold process_file.
  destruct (year =? 1998).
  { left. exists HARDCODED_1998. repeat split; [discriminate | apply hardcoded_records_valid]. }
  destruct (year =? 1999).
  { left. exists HARDCODED_1999. repeat split; [discriminate | apply hardcoded_records_valid]. }
  destruct read_csv as [df | e]; cbn [bind]; [| right; reflexivity].
  destruct (clean_dataframe df year) as [[[[| r recs] |] warnings] | e] eqn:Hc;
    try (right; reflexivity).
  left. exists (r :: recs). repeat split; [discriminate |].
  apply (clean_dataframe_spec df year (r :: recs) warnings Hc).
Qed.

(** X6.  Whatever the year and the file, [process_file] reports success
    exactly when it writes the file back, the count it reports is the
    number of records written and is positive, and every record it writes
    has a valid team name and a positive payroll; on failure it writes
    nothing and reports a count of zero. *)
Theorem process_file_writes_valid_records :
  forall (read_csv : result DataFrame) (year : Z)
         (written : option (list PayrollRecord)) (ok : bool) (count : nat),
    process_file read_csv year = (written, (ok, count)) ->
    match written with
    | Some recs =>
        ok = true /\ count = List.length recs /\ (0 < count)%nat
        /\ Forall (fun r => In (Tm r) VALID_TEAM_NAMES /\ 0 < Payroll r) recs
    | None => ok = false /\ count = O
    end.
Proof.
  intros read_csv year written ok count H.
  destruct (process_file_shape read_csv year) as [(recs & Hp & Hne & Hvalid) | Hp];
    rewrite Hp in H; inversion H; subst.
  - repeat split; try assumption. destruct recs; [congruence | cbn; lia].
  - split; reflexivity.
Qed.

Lemma process_file_writes_valid_records_witness :
  true = true /\ 30%nat = List.length HARDCODED_1999 /\ (0 < 30)%nat
  /\ Forall (fun r => In (Tm r) VALID_TEAM_NAMES /\ 0 < Payroll r) HARDCODED_1999.
Proof.
  apply (process_file_writes_valid_records (Raise ValueError) 1999
           (Some HARDCODED_1999) true 30%nat).
  reflexivity.
Defined.

Lemma process_one_year_inv (files : Z -> option (result DataFrame)) (r : summary) (year : Z) :
  processed r = (success r + failed r)%nat /\ (success r <= total_teams r)%nat ->
  let r' := process_one_year files r year in
  processed r' = (success r' + failed r')%nat
  /\ (success r' <= total_teams r')%nat
  /\ (processed r <= processed r' <= S (processed r))%nat.
Proof.
  intros [H1 H2]. unfold process_one_year.
  destruct (files year) as [read_csv |]; [| cbn; lia].
  destruct (process_file_shape read_csv year) as [(recs & Hp & Hne & _) | Hp]; rewrite Hp.
  - cbn. destruct recs; [congruence |]. cbn [List.length]. lia.
  - cbn. lia.
Qed.

Lemma process_years_inv (files : Z -> option (result DataFrame)) (years : list Z) :
  forall r,
    processed r = (success r + failed r)%nat /\ (success r <= total_teams r)%nat ->
    let r' := fold_left (process_one_year files) years r in
    processed r' = (success r' + failed r')%nat
    /\ (success r' <= total_teams r')%nat
    /\ (processed r' <= processed r + List.length years)%nat.
Proof.
  induction years as [| y years IH]; intros r Hr; cbn [fold_left List.length].
  - cbv zeta. destruct Hr. repeat split; try assumption. lia.
  - pose proof (process_one_year_inv files r y Hr) as (Ha & Hb & Hc).
    specialize (IH (process_one_year files r y) (conj Ha Hb)).
    cbv zeta in *. destruct IH as (Hd & He & Hf). repeat split; try assumption. lia.
Qed.

(** X7.  In the summary of [process_all_years] every processed file is
    counted once as a success or as a failure, no more files are
    processed than there are years in the range, and the total of team
    records is at least the number of successes. *)
Theorem process_all_years_counts :
  forall (files : Z -> option (result DataFrame)) (start_year end_year : Z),
    let r := process_all_years files start_year end_year in
    processed r = (success r + failed r)%nat
    /\ (processed r <= Z.to_nat (end_year + 1 - start_year))%nat
    /\ (success r <= total_teams r)%nat.
Proof.
  intros files start_year end_year. unfold process_all_years.
  pose proof (process_years_inv files (range start_year (end_year + 1))
                {| processed := 0; success := 0; failed := 0; total_teams := 0 |}
                (conj eq_refl (le_n 0))) as (Ha & Hb & Hc).
  cbv zeta in *. repeat split; try assumption.
  unfold range in Hc. rewrite length_map, length_seq in Hc. exact Hc.
Qed.

(** ** data_cleaning.py *)

(** *** [strip] is idempotent *)

Lemma last_char_rev_onto (s acc : string) :
  last_char (rev_onto s acc)
  = match acc with
    | EmptyString => first_char s
    | _ => last_char acc
    end.
Proof.
  revert acc. induction s as [| c s IH]; intros acc; cbn [rev_onto first_char].
  - destruct acc; reflexivity.
  - rewrite IH. destruct acc; reflexivity.
Qed.

Lemma last_char_rev (s : string) : last_char (rev s) = first_char s.
Proof. unfold rev. apply last_char_rev_onto. Qed.

Lemma first_char_rev (s : string) : first_char (rev s) = last_char s.
Proof. rewrite <- (rev_involutive s) at 2. symmetry. apply last_char_rev. Qed.

Lemma head_ok_lstrip (s : string) : head_ok (lstrip s) = true.
Proof.
  induction s as [| c s IH]; [reflexivity |].
  cbn [lstrip]. destruct (is_space c) eqn:E; [exact IH |].
  unfold head_ok. cbn [first_char]. rewrite E. reflexivity.
Qed.

Lemma lstrip_head_ok (s : string) : head_ok s = true -> lstrip s = s.
Proof.
  destruct s as [| c s]; [reflexivity |]. unfold head_ok. cbn [first_char lstrip].
  destruct (is_space c); [discriminate | reflexivity].
Qed.

Lemma tail_ok_lstrip (s : string) : tail_ok s = true -> tail_ok (lstrip s) = true.
Proof.
  induction s as [| c s IH]; [reflexivity |]. intros H.
  cbn [lstrip]. destruct (is_space c) eqn:E; [| exact H].
  apply IH. unfold tail_ok in *. cbn [last_char] in H.
  destruct s as [| c' s']; [reflexivity | exact H].
Qed.

Lemma tail_ok_rev (s : string) : tail_ok (rev s) = head_ok s.
Proof. unfold tail_ok, head_ok. rewrite last_char_rev. reflexivity. Qed.

Lemma head_ok_rev (s : string) : head_ok (rev s) = tail_ok s.
Proof. unfold tail_ok, head_ok. rewrite first_char_rev. reflexivity. Qed.

Lemma tail_ok_rstrip (s : string) : tail_ok (rstrip s) = true.
Proof. unfold rstrip. rewrite tail_ok_rev. apply head_ok_lstrip. Qed.

Lemma head_ok_rstrip (s : string) : head_ok s = true -> head_ok (rstrip s) = true.
Proof.
  intros H. unfold rstrip. rewrite head_ok_rev. apply tail_ok_lstrip.
  rewrite tail_ok_rev. exact H.
Qed.

Lemma rstrip_tail_ok (s : string) : tail_ok s = true -> rstrip s = s.
Proof.
  intros H. unfold rstrip. rewrite lstrip_head_ok by (rewrite head_ok_rev; exact H).
  apply rev_involutive.
Qed.

Lemma strip_trimmed (s : string) :
  head_ok s = true -> tail_ok s = true -> strip s = s.
Proof.
  intros Hh Ht. unfold strip. rewrite (lstrip_head_ok s Hh). apply rstrip_tail_ok, Ht.
Qed.

Lemma strip_idempotent (s : string) : strip (strip s) = strip s.
Proof.
  apply strip_trimmed; unfold strip.
  - apply head_ok_rstrip, head_ok_lstrip.
  - apply tail_ok_rstrip.
Qed.

(** *** Case mapping and [strip] *)

Lemma is_space_upper_char (c : ascii) : is_space (upper_char c) = is_space c.
Proof.
  apply Bool.eqb_prop.
  revert c. apply for_all_ascii. vm_compute. reflexivity.
Qed.

Lemma upper_char_idempotent (c : ascii) : upper_char (upper_char c) = upper_char c.
Proof.
  apply Ascii.eqb_eq. revert c. apply for_all_ascii. vm_compute. reflexivity.
Qed.

Lemma upper_lower_char (c : ascii) : upper_char (lower_char c) = upper_char c.
Proof.
  apply Ascii.eqb_eq. revert c. apply for_all_ascii. vm_compute. reflexivity.
Qed.

Lemma map_chars_map_chars (f g : ascii -> ascii) (s : string) :
  map_chars f (map_chars g s) = map_chars (fun c => f (g c)) s.
Proof. induction s as [| c s IH]; cbn [map_chars]; [| rewrite IH]; reflexivity. Qed.

Lemma map_chars_ext (f g : ascii -> ascii) (s : string) :
  (forall c, f c = g c) -> map_chars f s = map_chars g s.
Proof.
  intros H. induction s as [| c s IH]; cbn [map_chars]; [| rewrite IH, H]; reflexivity.
Qed.

Lemma rev_onto_map_chars (f : ascii -> ascii) (s acc : string) :
  rev_onto (map_chars f s) (map_chars f acc) = map_chars f (rev_onto s acc).
Proof.
  revert acc. induction s as [| c s IH]; intros acc; cbn [map_chars rev_onto];
    [reflexivity |].
  rewrite <- IH. reflexivity.
Qed.

Lemma lstrip_map_chars (f : ascii -> ascii) (s : string) :
  (forall c, is_space (f c) = is_space c) ->
  lstrip (map_chars f s) = map_chars f (lstrip s).
Proof.
  intros H. induction s as [| c s IH]; [reflexivity |].
  cbn [map_chars lstrip]. rewrite H. destruct (is_space c); [exact IH | reflexivity].
Qed.

Lemma strip_map_chars (f : ascii -> ascii) (s : string) :
  (forall c, is_space (f c) = is_space c) ->
  strip (map_chars f s) = map_chars f (strip s).
Proof.
  intros H. unfold strip, rstrip, rev.
  rewrite (lstrip_map_chars f s H).
  change EmptyString with (map_chars f EmptyString) at 1 2.
  rewrite rev_onto_map_chars, (lstrip_map_chars f _ H).
  change (map_chars f "") with (map_chars f EmptyString).
  rewrite rev_onto_map_chars. reflexivity.
Qed.

Lemma upper_strip_fixed (s : string) :
  upper (strip (upper (strip s))) = upper (strip s).
Proof.
  unfold upper. rewrite (strip_map_chars upper_char _ is_space_upper_char).
  rewrite strip_idempotent, map_chars_map_chars.
  apply map_chars_ext, upper_char_idempotent.
Qed.

Lemma abbreviation_values_fixed :
  forall v, In v (map snd BaseballDataCleaner.ABBREVIATION_MAPPINGS) ->
            BaseballDataCleaner.standardize_abbreviation (Some v) = Some v.
Proof.
  intros v Hv. cbn in Hv.
  repeat (destruct Hv as [<- | Hv]; [vm_compute; reflexivity |]). destruct Hv.
Qed.

(** X8.  Applying [standardize_abbreviation] to its own result changes
    nothing, and on an argument of ASCII characters it does not depend
    on the case of the argument. *)
Theorem standardize_abbreviation_idempotent :
  forall abbr : cell,
    BaseballDataCleaner.standardize_abbreviation
      (BaseballDataCleaner.standardize_abbreviation abbr)
    = BaseballDataCleaner.standardize_abbreviation abbr
    /\ (forall s, abbr = Some s ->
          all_chars is_ascii s = true ->
          BaseballDataCleaner.standardize_abbreviation (Some (lower s))
          = BaseballDataCleaner.standardize_abbreviation (Some s)
          /\ BaseballDataCleaner.standardize_abbreviation (Some (upper s))
             = BaseballDataCleaner.standardize_abbreviation (Some s)).
Proof.
  intros [s |]; [| split; [reflexivity | discriminate]]. split.
  - destruct (lookup (upper (strip s)) BaseballDataCleaner.STANDARD_ABBREVIATIONS) eqn:Hstd.
    + assert (E : BaseballDataCleaner.standardize_abbreviation (Some s)
                  = Some (upper (strip s)))
        by (unfold BaseballDataCleaner.standardize_abbreviation; rewrite Hstd; reflexivity).
      rewrite E. unfold BaseballDataCleaner.standardize_abbreviation.
      rewrite upper_strip_fixed, Hstd. reflexivity.
    + destruct (lookup (upper (strip s)) BaseballDataCleaner.ABBREVIATION_MAPPINGS)
        as [v |] eqn:Hmap.
      * assert (E : BaseballDataCleaner.standardize_abbreviation (Some s) = Some v)
          by (unfold BaseballDataCleaner.standardize_abbreviation;
              rewrite Hstd, Hmap; reflexivity).
        rewrite E. apply abbreviation_values_fixed, (lookup_In_values _ _ _ Hmap).
      * assert (E : BaseballDataCleaner.standardize_abbreviation (Some s)
                    = Some (upper (strip s)))
          by (unfold BaseballDataCleaner.standardize_abbreviation;
              rewrite Hstd, Hmap; reflexivity).
        rewrite E. unfold BaseballDataCleaner.standardize_abbreviation.
        rewrite upper_strip_fixed, Hstd, Hmap. reflexivity.
  - intros s' [= <-] _.
    assert (Hl : upper (strip (lower s)) = upper (strip s)).
    { unfold upper, lower.
      rewrite (strip_map_chars lower_char) by
        (intros c; apply Bool.eqb_prop; revert c; apply for_all_ascii;
         vm_compute; reflexivity).
      rewrite map_chars_map_chars. apply map_chars_ext, upper_lower_char. }
    assert (Hu : upper (strip (upper s)) = upper (strip s)).
    { unfold upper. rewrite (strip_map_chars upper_char _ is_space_upper_char).
      rewrite map_chars_map_chars. apply map_chars_ext, upper_char_idempotent. }
    unfold BaseballDataCleaner.standardize_abbreviation. rewrite Hl, Hu. split; reflexivity.
Qed.

Lemma standardize_abbreviation_idempotent_witness :
  BaseballDataCleaner.standardize_abbreviation (Some "oak")
  = BaseballDataCleaner.standardize_abbreviation (Some "OAK").
Proof.
  exact (proj1 (proj2 (standardize_abbreviation_idempotent (Some "OAK")) "OAK"
                  eq_refl eq_refl)).
Defined.

Lemma name_values_fixed :
  forall v, In v (map snd BaseballDataCleaner.NAME_MAPPINGS) ->
            BaseballDataCleaner.standardize_team_name (Some v) = Some v.
Proof.
  intros v Hv. cbn in Hv.
  repeat (destruct Hv as [<- | Hv]; [vm_compute; reflexivity |]). destruct Hv.
Qed.

(** X9.  [standardize_team_name] of the statistics cleaner is
    idempotent, and its answer is a standard name or a mapped name, or
    else the argument itself without the white space around it. *)
Theorem stats_standardize_team_name_idempotent :
  forall name : cell,
    BaseballDataCleaner.standardize_team_name
      (BaseballDataCleaner.standardize_team_name name)
    = BaseballDataCleaner.standardize_team_name name
    /\ (forall s, name = Some s ->
          exists v,
            BaseballDataCleaner.standardize_team_name name = Some v
            /\ (In v (map fst BaseballDataCleaner.STANDARD_TEAM_NAMES)
                \/ (v = strip s
                    /\ lookup (strip s) BaseballDataCleaner.NAME_MAPPINGS = None))).
Proof.
  intros [s |]; [| split; [reflexivity | discriminate]]. split.
  - destruct (lookup (strip s) BaseballDataCleaner.STANDARD_TEAM_NAMES) eqn:Hstd.
    + assert (E : BaseballDataCleaner.standardize_team_name (Some s) = Some (strip s))
        by (unfold BaseballDataCleaner.standardize_team_name; rewrite Hstd; reflexivity).
      rewrite E. unfold BaseballDataCleaner.standardize_team_name.
      rewrite strip_idempotent, Hstd. reflexivity.
    + destruct (lookup (strip s) BaseballDataCleaner.NAME_MAPPINGS) as [v |] eqn:Hmap.
      * assert (E : BaseballDataCleaner.standardize_team_name (Some s) = Some v)
          by (unfold BaseballDataCleaner.standardize_team_name;
              rewrite Hstd, Hmap; reflexivity).
        rewrite E. apply name_values_fixed, (lookup_In_values _ _ _ Hmap).
      * assert (E : BaseballDataCleaner.standardize_team_name (Some s) = Some (strip s))
          by (unfold BaseballDataCleaner.standardize_team_name;
              rewrite Hstd, Hmap; reflexivity).
        rewrite E. unfold BaseballDataCleaner.standardize_team_name.
        rewrite strip_idempotent, Hstd, Hmap. reflexivity.
  - intros s' [= <-]. unfold BaseballDataCleaner.standardize_team_name.
    destruct (lookup (strip s) BaseballDataCleaner.STANDARD_TEAM_NAMES) eqn:Hstd.
    + exists (strip s). split; [reflexivity | left].
      clear - Hstd. revert Hstd.
      generalize BaseballDataCleaner.STANDARD_TEAM_NAMES as d.
      induction d as [| [k v] d IH]; cbn [lookup map fst In]; [discriminate |].
      destruct (String.eqb_spec (strip s) k) as [-> | _]; [left; reflexivity | auto].
    + destruct (lookup (strip s) BaseballDataCleaner.NAME_MAPPINGS) as [v |] eqn:Hmap.
      * exists v. split; [reflexivity | left].
        assert (Hall : forallb (fun v => mem v (map fst BaseballDataCleaner.STANDARD_TEAM_NAMES))
                         (map snd BaseballDataCleaner.NAME_MAPPINGS) = true)
          by (vm_compute; reflexivity).
        rewrite forallb_forall in Hall.
        apply mem_In, Hall, (lookup_In_values _ _ _ Hmap).
      * exists (strip s). split; [reflexivity | right; split; reflexivity].
Qed.

Lemma stats_standardize_team_name_idempotent_witness :
  exists v,
    BaseballDataCleaner.standardize_team_name (Some " Oakland A's ") = Some v
    /\ (In v (map fst BaseballDataCleaner.STANDARD_TEAM_NAMES)
        \/ (v = strip " Oakland A's "
            /\ lookup (strip " Oakland A's ") BaseballDataCleaner.NAME_MAPPINGS = None)).
Proof.
  exact (proj2 (stats_standardize_team_name_idempotent (Some " Oakland A's "))
           " Oakland A's " eq_refl).
Defined.

Lemma contains_letter_free (a : ascii) (p s : string) :
  is_letter a = true ->
  all_chars (fun c => negb (is_letter c)) s = true ->
  contains (String a p) s = false.
Proof.
  intros Ha. induction s as [| c s IH]; intros Hs; [reflexivity |].
  cbn [all_chars] in Hs. apply andb_prop in Hs as [Hc Hs']. apply negb_true_iff in Hc.
  cbn [contains startswith]. rewrite (IH Hs'), orb_false_r.
  destruct (Ascii.eqb_spec a c) as [-> | _]; [congruence | reflexivity].
Qed.

Lemma abbr_search_letter_free (a : ascii) (p s : string) :
  is_letter a = true ->
  all_chars (fun c => negb (is_letter c)) s = true ->
  forall prev_word, abbr_search (String a p) prev_word s = false.
Proof.
  intros Ha. induction s as [| c s IH]; intros Hs prev_word; [reflexivity |].
  cbn [all_chars] in Hs. apply andb_prop in Hs as [Hc Hs']. apply negb_true_iff in Hc.
  cbn [abbr_search BaseballDataCleaner.abbr_match BaseballDataCleaner.startswith_ci].
  rewrite (letter_not_ci_equal a c Ha Hc), (IH Hs').
  cbn [andb]. rewrite andb_false_r. reflexivity.
Qed.

(** X10.  A cell without a letter in it (a number, a percentage, a
    dash, an empty text) goes through [standardize_cell_value]
    unchanged. *)
Theorem standardize_cell_value_keeps_numbers :
  forall s : string,
    all_chars (fun c => negb (is_letter c)) s = true ->
    BaseballDataCleaner.standardize_cell_value (Some s) = Some s.
Proof.
  intros s Hs. unfold BaseballDataCleaner.standardize_cell_value.
  assert (Hkeys : forall d : list (string * string),
            forallb (fun m => starts_with_letter (fst m)) d = true ->
            existsb (fun m => contains (fst m) s) d = false
            /\ existsb (fun m => abbr_search (fst m) false s) d = false).
  { induction d as [| [[| a p] v] d IH]; cbn [forallb existsb fst starts_with_letter];
      [split; reflexivity | discriminate |].
    intros H. apply andb_prop in H as [Ha Hd]. destruct (IH Hd) as [IH1 IH2].
    rewrite (contains_letter_free a p s Ha Hs), (abbr_search_letter_free a p s Ha Hs), IH1, IH2.
    split; reflexivity. }
  rewrite (fold_replace_name_id s BaseballDataCleaner.NAME_MAPPINGS)
    by (apply Hkeys; vm_compute; reflexivity).
  rewrite (fold_replace_abbr_id s BaseballDataCleaner.ABBREVIATION_MAPPINGS)
    by (apply Hkeys; vm_compute; reflexivity).
  reflexivity.
Qed.

Lemma standardize_cell_value_keeps_numbers_witness :
  BaseballDataCleaner.standardize_cell_value (Some "-18.5%") = Some "-18.5%".
Proof.
  apply standardize_cell_value_keeps_numbers. vm_compute. reflexivity.
Defined.

(** *** The statistics cleaner on a whole frame *)

Lemma astype_str_differs (a b : cell) :
  String.eqb (Frame.astype_str a) (Frame.astype_str b) = false -> a <> b.
Proof. intros H ->. rewrite String.eqb_refl in H. discriminate. Qed.

Lemma clean_cell_spec (filename col : string) (idx : nat) (value : cell) :
  let '(v, ch) := BaseballDataCleaner.clean_cell filename col idx value in
  (List.length ch <= 1)%nat /\ (ch = [] <-> v = value).
Proof.
  unfold BaseballDataCleaner.clean_cell.
  destruct (String.eqb _ _) eqn:E.
  - split; [cbn; lia | split; reflexivity].
  - apply astype_str_differs in E. split; [cbn; lia |].
    split; [discriminate | intros H; congruence].
Qed.

Lemma clean_cells_spec (filename col : string) (cells : list cell) :
  forall idx,
    let '(vs, chs) := BaseballDataCleaner.clean_cells filename col idx cells in
    List.length vs = List.length cells
    /\ (List.length chs <= List.length cells)%nat
    /\ (chs = [] <-> vs = cells).
Proof.
  induction cells as [| value cells IH]; intros idx;
    cbn [BaseballDataCleaner.clean_cells].
  - repeat split; reflexivity.
  - pose proof (clean_cell_spec filename col idx value) as Hc.
    destruct (BaseballDataCleaner.clean_cell filename col idx value) as [v ch].
    specialize (IH (S idx)).
    destruct (BaseballDataCleaner.clean_cells filename col (S idx) cells) as [vs chs].
    destruct Hc as [Hc1 Hc2], IH as (Hl & Hn & Hiff).
    cbn [List.length]. rewrite length_app. repeat split; try lia.
    + intros H. apply app_eq_nil in H as [H1 H2].
      apply Hc2 in H1. apply Hiff in H2. congruence.
    + intros [= H1 H2]. apply Hc2 in H1. apply Hiff in H2. subst. reflexivity.
Qed.

Lemma clean_columns_spec (filename : string) (df : DataFrame) :
  let '(d, chs) := BaseballDataCleaner.clean_columns filename df in
  map fst d = map fst df
  /\ map (fun c => List.length (snd c)) d = map (fun c => List.length (snd c)) df
  /\ (chs = [] <-> d = df).
Proof.
  induction df as [| [col cells] df IH]; cbn [BaseballDataCleaner.clean_columns].
  - repeat split; reflexivity.
  - pose proof (clean_cells_spec filename col cells 0%nat) as Hc.
    destruct (BaseballDataCleaner.clean_cells filename col 0 cells) as [cells' ch].
    destruct (BaseballDataCleaner.clean_columns filename df) as [d chs].
    destruct Hc as (Hl & _ & Hiff), IH as (Hn & Hs & Hiff').
    cbn [map fst snd]. rewrite Hn, Hs, Hl. repeat split.
    + intros H. apply app_eq_nil in H as [H1 H2].
      apply Hiff in H1. apply Hiff' in H2. congruence.
    + intros [= H1 H2]. apply Hiff in H1. apply Hiff' in H2. subst. reflexivity.
Qed.

Lemma clean_headers_spec (filename : string) (df : DataFrame) :
  let '(d, chs) := BaseballDataCleaner.clean_headers filename df in
  map snd d = map snd df /\ (chs = [] <-> d = df).
Proof.
  induction df as [| [col cells] df IH]; cbn [BaseballDataCleaner.clean_headers].
  - repeat split; reflexivity.
  - assert (Hh : let '(new_col, ch) := BaseballDataCleaner.clean_header filename col in
                 ch = [] <-> new_col = col).
    { unfold BaseballDataCleaner.clean_header.
      destruct (BaseballDataCleaner.standardize_cell_value (Some col)) as [new_col |];
        [| split; reflexivity].
      destruct (String.eqb_spec col new_col) as [-> | Hne];
        [split; reflexivity | split; [discriminate | congruence]]. }
    destruct (BaseballDataCleaner.clean_header filename col) as [new_col ch].
    destruct (BaseballDataCleaner.clean_headers filename df) as [d chs].
    destruct IH as (Hs & Hiff). cbn [map snd]. rewrite Hs. split; [reflexivity |]. split.
    + intros H. apply app_eq_nil in H as [H1 H2].
      apply Hh in H1. apply Hiff in H2. congruence.
    + intros [= H1 H2]. apply Hh in H1. apply Hiff in H2. subst. reflexivity.
Qed.

Lemma stats_clean_dataframe_spec (df : DataFrame) (filename : string) :
  let '(d, changes) := BaseballDataCleaner.clean_dataframe df filename in
  List.length d = List.length df
  /\ map (fun c => List.length (snd c)) d = map (fun c => List.length (snd c)) df
  /\ (changes = [] <-> d = df).
Proof.
  unfold BaseballDataCleaner.clean_dataframe.
  pose proof (clean_columns_spec filename df) as Hc.
  destruct (BaseballDataCleaner.clean_columns filename df) as [d1 ch1].
  pose proof (clean_headers_spec filename d1) as Hh.
  destruct (BaseballDataCleaner.clean_headers filename d1) as [d2 ch2].
  destruct Hc as (Hn & Hs & Hiff), Hh as (Hs2 & Hiff2).
  split; [| split].
  - rewrite <- (length_map snd d2), Hs2, length_map, <- (length_map fst d1), Hn.
    apply length_map.
  - rewrite <- Hs. rewrite <- !(map_map snd (@List.length cell)), Hs2. reflexivity.
  - split.
    + intros H. apply app_eq_nil in H as [H1 H2].
      apply Hiff in H1. apply Hiff2 in H2. congruence.
    + intros ->. 
      assert (E1 : d1 = df).
      { clear - Hn Hs2. revert d1 Hn Hs2.
        induction df as [| [c cs] df IH]; intros [| [c1 cs1] d1] Hn Hs2;
          try discriminate; [reflexivity |].
        cbn [map fst snd] in *. inversion Hn; inversion Hs2; subst.
        f_equal. apply IH; assumption. }
      subst d1. rewrite (proj2 Hiff eq_refl), (proj2 Hiff2 eq_refl). reflexivity.
Qed.

(** X11.  The statistics cleaner's [clean_dataframe] keeps the shape of
    the frame (as many columns, and as many cells in each), and its list
    of changes is empty exactly when the cleaned frame is the frame it
    was given. *)
Theorem stats_clean_dataframe_shape :
  forall (df : DataFrame) (filename : string),
    let '(df_clean, changes) := BaseballDataCleaner.clean_dataframe df filename in
    List.length df_clean = List.length df
    /\ map (fun c => List.length (snd c)) df_clean
       = map (fun c => List.length (snd c)) df
    /\ (changes = [] <-> df_clean = df).
Proof. intros df filename. apply stats_clean_dataframe_spec. Qed.

Lemma stats_process_file_spec (filename : string) (read_csv : result DataFrame)
    (changes_made : list BaseballDataCleaner.change) :
  let '(written, changes_made', (ok, n)) :=
    BaseballDataCleaner.process_file filename read_csv changes_made in
  (exists added, changes_made' = (changes_made ++ added)%list /\ List.length added = n)
  /\ match read_csv with
     | Ok df =>
         ok = true
         /\ match written with
            | None => fst (BaseballDataCleaner.clean_dataframe df filename) = df /\ n = O
            | Some d =>
                d = fst (BaseballDataCleaner.clean_dataframe df filename)
                /\ d <> df /\ (0 < n)%nat
            end
     | Raise _ => ok = false /\ written = None /\ n = O
     end.
Proof.
  unfold BaseballDataCleaner.process_file.
  destruct read_csv as [df | e].
  - pose proof (stats_clean_dataframe_spec df filename) as H.
    destruct (BaseballDataCleaner.clean_dataframe df filename) as [d changes].
    destruct H as (_ & _ & Hiff). destruct changes as [| c changes].
    + split; [exists []; rewrite app_nil_r; split; reflexivity |].
      split; [reflexivity |]. split; [apply Hiff; reflexivity | reflexivity].
    + split; [exists (c :: changes); split; reflexivity |].
      split; [reflexivity |]. cbn [fst]. repeat split.
      * intros E. apply Hiff in E. discriminate.
      * cbn. lia.
  - split; [exists []; rewrite app_nil_r; split; reflexivity |].
    repeat split.
Qed.

(** X12.  The statistics cleaner's [process_file] writes a file back
    only when cleaning alters its frame: after a successful read,
    nothing is written exactly when the frame is already clean, and what
    is written is the cleaned frame.  The count it returns is the number
    of entries it adds to the cleaner's list of changes; a file that
    cannot be read is reported as a failure and nothing is written or
    logged. *)
Theorem stats_process_file_rewrites_on_change :
  forall (filename : string) (read_csv : result DataFrame) (changes_made : list BaseballDataCleaner.change),
    let '(written, changes_made', (ok, n)) :=
      BaseballDataCleaner.process_file filename read_csv changes_made in
    (exists added, changes_made' = (changes_made ++ added)%list /\ List.length added = n)
    /\ match read_csv with
       | Ok df =>
           ok = true
           /\ match written with
              | None => fst (BaseballDataCleaner.clean_dataframe df filename) = df /\ n = O
              | Some d =>
                  d = fst (BaseballDataCleaner.clean_dataframe df filename)
                  /\ d <> df /\ (0 < n)%nat
              end
       | Raise _ => ok = false /\ written = None /\ n = O
       end.
Proof. intros. apply stats_process_file_spec. Qed.

Lemma process_files_spec (csv_files : list (string * result DataFrame)) :
  forall (results : BaseballDataCleaner.year_results) (changes_made : list BaseballDataCleaner.change),
    let '(r, changes_made') :=
      BaseballDataCleaner.process_files csv_files results changes_made in
    (BaseballDataCleaner.files_processed r + BaseballDataCleaner.errors r
     = BaseballDataCleaner.files_processed results + BaseballDataCleaner.errors results + List.length csv_files)%nat
    /\ (exists added,
          changes_made' = (changes_made ++ added)%list
          /\ (BaseballDataCleaner.changes_made_count r = BaseballDataCleaner.changes_made_count results + List.length added)%nat)
    /\ BaseballDataCleaner.errors r
       = (BaseballDataCleaner.errors results
          + List.length (filter (fun f => match snd f with Ok _ => false | Raise _ => true end)
                                csv_files))%nat.
Proof.
  induction csv_files as [| [filename read_csv] rest IH]; intros results changes_made;
    cbn [BaseballDataCleaner.process_files].
  - split; [cbn; lia | split; [| cbn; lia]].
    exists []. rewrite app_nil_r. split; [reflexivity | cbn; lia].
  - pose proof (stats_process_file_spec filename read_csv changes_made) as Hp.
    destruct (BaseballDataCleaner.process_file filename read_csv changes_made)
      as [[written cm1] [ok n]].
    destruct Hp as ((added & -> & Hlen) & Hread).
    match goal with
    | |- context [BaseballDataCleaner.process_files rest ?R ?C] =>
        specialize (IH R C);
        destruct (BaseballDataCleaner.process_files rest R C) as [r cm2]
    end.
    destruct IH as (Hcount & (added2 & -> & Hch) & Herr).
    assert (Hok : ok = match read_csv with Ok _ => true | Raise _ => false end)
      by (destruct read_csv; destruct Hread; assumption).
    cbn [filter snd List.length]. destruct read_csv as [df | e]; subst ok;
      cbn [BaseballDataCleaner.files_processed BaseballDataCleaner.errors BaseballDataCleaner.changes_made_count] in *.
    + split; [lia | split; [| lia]].
      exists (added ++ added2)%list. rewrite app_assoc, length_app. split; [reflexivity | lia].
    + destruct Hread as (_ & _ & ->). cbn [List.length].
      split; [lia | split; [| lia]].
      exists (added ++ added2)%list. rewrite app_assoc, length_app. split; [reflexivity | lia].
Qed.

(** X13.  In the counts of [process_year] every CSV file of the folder
    is counted once, as processed or as an error; the errors are the
    files that could not be read; and the number of changes reported is
    the number of entries the call adds to the cleaner's list of changes,
    which it only extends.  For a missing folder the dict returned has
    [success] false and the error [Folder not found], and the list of
    changes is left as it was. *)
Theorem stats_process_year_counts :
  forall (folder : option (list (string * result DataFrame))) (changes_made : list BaseballDataCleaner.change),
    match BaseballDataCleaner.process_year folder changes_made with
    | (BaseballDataCleaner.Counted r, changes_made') =>
        exists csv_files added,
          folder = Some csv_files
          /\ (BaseballDataCleaner.files_processed r + BaseballDataCleaner.errors r = List.length csv_files)%nat
          /\ BaseballDataCleaner.errors r
             = List.length
                 (filter (fun f => match snd f with Ok _ => false | Raise _ => true end)
                         csv_files)
          /\ changes_made' = (changes_made ++ added)%list
          /\ BaseballDataCleaner.changes_made_count r = List.length added
    | (BaseballDataCleaner.NotProcessed success error, changes_made') =>
        folder = None /\ success = false /\ error = "Folder not found"
        /\ changes_made' = changes_made
    end.
Proof.
  intros [csv_files |] changes_made; cbn [BaseballDataCleaner.process_year];
    [| repeat split; reflexivity].
  pose proof (process_files_spec csv_files
                {| BaseballDataCleaner.files_processed := 0; BaseballDataCleaner.changes_made_count := 0; BaseballDataCleaner.errors := 0 |}
                changes_made) as H.
  destruct (BaseballDataCleaner.process_files csv_files _ changes_made) as [r cm].
  destruct H as (Hcount & (added & -> & Hch) & Herr).
  cbn [BaseballDataCleaner.files_processed BaseballDataCleaner.errors BaseballDataCleaner.changes_made_count] in *.
  exists csv_files, added.
  split; [reflexivity |]. split; [lia |]. split; [lia |]. split; [reflexivity | lia].
Qed.

(** ** baseball_scraper.py *)

Section DiscoveryProvenance.
Import stdpp.base stdpp.gmap stdpp.strings.
Import BaseballScraper Discovery.

Variable DF : Type.
Variable time : clock.
Variable timeout_seconds : Z.
Variable src : page DF.

Lemma from_page_add_visible (t : table_elem DF) (tables : gmap string DF) :
  In t (visible DF src) -> from_page DF src tables -> from_page DF src (add_visible DF t tables).
Proof.
  intros Hin Hinv. unfold add_visible.
  destruct (String.eqb_spec (table_id DF t) "") as [| Hne]; [exact Hinv |].
  destruct (read_html DF t) as [df |] eqn:Hr; [| exact Hinv].
  intros id df'. destruct (string_dec (table_id DF t) id) as [<- | Hid].
  - rewrite lookup_insert_eq. intros [= <-]. split; [exact Hne |].
    left. exists t. repeat split; assumption.
  - rewrite lookup_insert_ne by exact Hid. apply Hinv.
Qed.

Lemma from_page_add_hidden (c : comment DF) (ts : list (table_elem DF))
    (t : table_elem DF) (tables : gmap string DF) :
  In c (comments DF src) -> has_table_tag DF c = true -> comment_tables DF c = Ok ts ->
  In t ts -> from_page DF src tables -> from_page DF src (add_hidden DF tables t).
Proof.
  intros Hc Htag Hts Hin Hinv. unfold add_hidden.
  destruct (String.eqb_spec (table_id DF t) "") as [| Hne]; [exact Hinv |].
  destruct (tables !! table_id DF t); [exact Hinv |].
  destruct (read_html DF t) as [df |] eqn:Hr; [| exact Hinv].
  intros id df'. destruct (string_dec (table_id DF t) id) as [<- | Hid].
  - rewrite lookup_insert_eq. intros [= <-]. split; [exact Hne |].
    right. exists c, ts, t. repeat split; assumption.
  - rewrite lookup_insert_ne by exact Hid. apply Hinv.
Qed.

Lemma from_page_add_comment (c : comment DF) (tables : gmap string DF) :
  In c (comments DF src) -> from_page DF src tables -> from_page DF src (add_comment DF c tables).
Proof.
  intros Hc Hinv. unfold add_comment.
  destruct (has_table_tag DF c) eqn:Htag; [| exact Hinv].
  destruct (comment_tables DF c) as [ts |] eqn:Hts; [| exact Hinv].
  assert (H : forall l tables',
             incl l ts -> from_page DF src tables' -> from_page DF src (fold_left (add_hidden DF) l tables')).
  { induction l as [| t l IH]; intros tables' Hl Hi; [exact Hi |].
    cbn [fold_left]. apply IH; [intros x Hx; apply Hl; right; exact Hx |].
    apply (from_page_add_hidden c ts t); auto. apply Hl. left. reflexivity. }
  apply H; [apply incl_refl | exact Hinv].
Qed.

Lemma from_page_visible_loop (ts : list (table_elem DF)) :
  forall n tables,
    incl ts (visible DF src) -> from_page DF src tables ->
    from_page DF src (snd (fst (visible_loop DF time timeout_seconds (time 0%nat) ts n tables))).
Proof.
  induction ts as [| t ts IH]; intros n tables Hincl Hinv; cbn [visible_loop];
    [exact Hinv |].
  destruct (over_budget _ _ _ _); [exact Hinv |].
  apply IH; [intros x Hx; apply Hincl; right; exact Hx |].
  apply from_page_add_visible; [apply Hincl; left; reflexivity | exact Hinv].
Qed.

Lemma from_page_comment_loop (cs : list (comment DF)) :
  forall cnt n tables,
    incl cs (comments DF src) -> from_page DF src tables ->
    from_page DF src (snd (fst (comment_loop DF time timeout_seconds (time 0%nat) cs cnt n tables))).
Proof.
  induction cs as [| c cs IH]; intros cnt n tables Hincl Hinv; cbn [comment_loop];
    [exact Hinv |].
  destruct (over_budget _ _ _ _); [exact Hinv |].
  destruct (Nat.ltb max_comments (S cnt)); [exact Hinv |].
  apply IH; [intros x Hx; apply Hincl; right; exact Hx |].
  apply from_page_add_comment; [apply Hincl; left; reflexivity | exact Hinv].
Qed.

(** X14.  [get_all_tables] invents nothing: every key of the dictionary
    it returns is the non-empty id of a table of the page, visible or in
    a comment block that has the text [<table], and the value under it
    is what [pd.read_html] made of that table.  Tables that cannot be
    read and tables with an empty id leave no entry. *)
Theorem get_all_tables_provenance :
  forall (tables : gmap string DF) (id : string) (df : DF),
    get_all_tables DF time timeout_seconds (Ok src) = Ok tables ->
    tables !! id = Some df ->
    id <> "" /\ offered DF src id df.
Proof.
  intros tables id df H. revert id df. change (from_page DF src tables).
  unfold get_all_tables in H.
  destruct (over_budget _ _ _ _).
  { inversion H; subst. intros id df Hl. rewrite lookup_empty in Hl. discriminate. }
  assert (Hempty : from_page DF src ∅)
    by (intros id df Hl; rewrite lookup_empty in Hl; discriminate).
  pose proof (from_page_visible_loop (visible DF src) 2 ∅ (incl_refl _) Hempty) as Hv.
  destruct (visible_loop DF time timeout_seconds (time 0%nat) (visible DF src) 2 ∅)
    as [[[|] tv] n]; cbn [fst snd] in Hv.
  - inversion H; subst. exact Hv.
  - pose proof (from_page_comment_loop (comments DF src) 0 n tv (incl_refl _) Hv) as Hc.
    destruct (comment_loop DF time timeout_seconds (time 0%nat) (comments DF src) 0 n tv)
      as [[e tc] n']. cbn [fst snd] in Hc. inversion H; subst. exact Hc.
Qed.

End DiscoveryProvenance.

Section DiscoveryProvenanceExample.
Import stdpp.base stdpp.gmap stdpp.strings.
Import BaseballScraper Discovery.

Lemma get_all_tables_provenance_witness :
  "fielding" <> "" /\ offered nat sample_page "fielding" 4%nat.
Proof.
  apply (get_all_tables_provenance nat sample_clock 1000 sample_page
           (accumulated nat sample_page 2 1) "fielding" 4%nat).
  - vm_compute. reflexivity.
  - vm_compute. reflexivity.
Defined.

End DiscoveryProvenanceExample.

(* --------------------------------------------------------------------- *)
(** ** The payroll page: [salary_scraper.py]                              *)
(* --------------------------------------------------------------------- *)

Lemma contains_cons (p : string) (a : ascii) (s : string) :
  PyStr.contains p s = true -> PyStr.contains p (String a s) = true.
Proof.
  intros H. destruct p; cbn [PyStr.contains]; [reflexivity |].
  apply orb_true_iff. right. exact H.
Qed.

Lemma contains_prefix (p s : string) :
  PyStr.startswith p s = true -> PyStr.contains p s = true.
Proof.
  intros H. destruct s; cbn [PyStr.contains]; rewrite H; reflexivity.
Qed.

Lemma year_at_value (a b c d : ascii) :
  SalaryScraper.year_at a b c d = true ->
  1900 <= 1000 * SalaryScraper.digit a + 100 * SalaryScraper.digit b
          + 10 * SalaryScraper.digit c + SalaryScraper.digit d <= 2029
  /\ str_of_int (1000 * SalaryScraper.digit a + 100 * SalaryScraper.digit b
                 + 10 * SalaryScraper.digit c + SalaryScraper.digit d)
     = String a (String b (String c (String d ""))).
Proof.
  pose (ok := fun a b c d : ascii =>
    implb (SalaryScraper.year_at a b c d)
      (let y := 1000 * SalaryScraper.digit a + 100 * SalaryScraper.digit b
                + 10 * SalaryScraper.digit c + SalaryScraper.digit d in
       (1900 <=? y) && (y <=? 2029)
       && String.eqb (str_of_int y) (String a (String b (String c (String d "")))))%bool).
  assert (Hok : forall a b, (a = "1"%char /\ b = "9"%char) \/ (a = "2"%char /\ b = "0"%char) ->
                forall c d, ok a b c d = true).
  { intros a0 b0 Hab c0.
    apply for_all_ascii.
    apply (for_all_ascii (fun c => forallb (ok a0 b0 c) all_ascii)).
    destruct Hab as [[-> ->] | [-> ->]]; vm_compute; reflexivity. }
  intros H.
  assert (Hab : (a = "1"%char /\ b = "9"%char) \/ (a = "2"%char /\ b = "0"%char)).
  { unfold SalaryScraper.year_at in H.
    apply orb_true_iff in H as [H | H]; rewrite !andb_true_iff in H;
      destruct H as [[[Ha Hb] _] _]; [left | right];
      split; apply Ascii.eqb_eq; assumption. }
  specialize (Hok a b Hab c d). unfold ok in Hok. rewrite H in Hok.
  cbn [implb] in Hok. cbv zeta in Hok.
  apply andb_true_iff in Hok as [Hr Hs].
  apply andb_true_iff in Hr as [Hlo Hhi].
  apply String.eqb_eq in Hs.
  split; [lia | exact Hs].
Qed.

Lemma search_year_spec (text : string) (y : Z) :
  SalaryScraper.search_year text = Some y ->
  1900 <= y <= 2029 /\ PyStr.contains (str_of_int y) text = true.
Proof.
  induction text as [| a rest IH]; [discriminate |].
  destruct rest as [| b [| c [| d r]]]; try discriminate.
  change (SalaryScraper.search_year (String a (String b (String c (String d r)))))
    with (if SalaryScraper.year_at a b c d
          then Some (1000 * SalaryScraper.digit a + 100 * SalaryScraper.digit b
                     + 10 * SalaryScraper.digit c + SalaryScraper.digit d)
          else SalaryScraper.search_year (String b (String c (String d r)))).
  destruct (SalaryScraper.year_at a b c d) eqn:E.
  - intros [= <-]. destruct (year_at_value _ _ _ _ E) as [Hr Hs].
    split; [exact Hr |].
    apply contains_prefix. rewrite Hs. cbn [PyStr.startswith].
    rewrite !Ascii.eqb_refl. reflexivity.
  - intros H. destruct (IH H) as [Hr Hc]. split; [exact Hr |].
    apply contains_cons. exact Hc.
Qed.

(** X15.  [parse_year_from_header]: a year read from the text of an
    element lies between 1900 and 2029, and when the text is made of
    ASCII characters its four digits, as [str] writes them, stand in
    that text. *)
Theorem parse_year_from_header_range (element : string) (y : Z) :
  SalaryScraper.parse_year_from_header element = Some y ->
  1900 <= y <= 2029
  /\ (all_chars is_ascii element = true ->
      PyStr.contains (str_of_int y) element = true).
Proof.
  unfold SalaryScraper.parse_year_from_header. intros H.
  destruct (search_year_spec element y H) as [Hr Hc].
  split; [exact Hr | intros _; exact Hc].
Qed.

Lemma parse_year_from_header_range_witness :
  1900 <= 2019 <= 2029
  /\ PyStr.contains (str_of_int 2019) "<h2>2019 MLB Payrolls</h2>" = true.
Proof.
  destruct (parse_year_from_header_range "<h2>2019 MLB Payrolls</h2>" 2019) as [Hr Hc].
  - vm_compute. reflexivity.
  - split; [exact Hr | apply Hc; vm_compute; reflexivity].
Defined.

Section PayrollSections.
Import stdpp.base stdpp.gmap.
Import SalaryScraper.
Local Open Scope Z_scope.

Variable T : Type.

Lemma section_year_search (text : string) (y : Z) :
  section_year text = Some y -> search_year text = Some y.
Proof.
  unfold section_year. destruct (search_year text); [| discriminate].
  destruct (_ || _)%bool; [auto | discriminate].
Qed.

Lemma listed_year_search (text : string) (y : Z) :
  listed_year text = Some y -> search_year text = Some y.
Proof.
  unfold listed_year. destruct (search_year text); [| discriminate].
  destruct (_ || _)%bool; [auto | discriminate].
Qed.

Lemma append_table_same (y : Z) (t : T) (m : gmap Z (list T)) :
  exists l, append_table T y t m !! y = Some l /\ In t l
            /\ forall t', (exists l', m !! y = Some l' /\ In t' l') -> In t' l.
Proof.
  unfold append_table. destruct (m !! y) as [l |] eqn:E.
  - exists (l ++ [t])%list. rewrite lookup_insert_eq. split; [reflexivity |].
    split; [apply in_or_app; right; left; reflexivity |].
    intros t' (l' & [= <-] & Hin). apply in_or_app. left. exact Hin.
  - exists [t]. rewrite lookup_insert_eq. split; [reflexivity |].
    split; [left; reflexivity |].
    intros t' (l' & [=] & _).
Qed.

Lemma append_table_other (y y' : Z) (t : T) (m : gmap Z (list T)) :
  y <> y' -> append_table T y t m !! y' = m !! y'.
Proof.
  intros Hne. unfold append_table.
  destruct (m !! y); apply lookup_insert_ne; exact Hne.
Qed.

Lemma append_table_keeps (y y' : Z) (t t' : T) (m : gmap Z (list T)) :
  (exists l, m !! y' = Some l /\ In t' l) ->
  exists l, append_table T y t m !! y' = Some l /\ In t' l.
Proof.
  intros H. destruct (Z.eq_dec y y') as [<- | Hne].
  - destruct (append_table_same y t m) as (l & Hl & _ & Hkeep).
    exists l. split; [exact Hl | apply Hkeep, H].
  - rewrite append_table_other by exact Hne. exact H.
Qed.

Lemma attach_tables_keeps (elems : list (element T)) :
  forall (cur : option Z) (m : gmap Z (list T)) (y : Z) (t : T),
  (exists l, m !! y = Some l /\ In t l) ->
  exists l, attach_tables T elems cur m !! y = Some l /\ In t l.
Proof.
  induction elems as [| e rest IH]; intros cur m y t H; [exact H |].
  destruct e as [text | t0]; cbn [attach_tables].
  - destruct (section_year text); apply IH, H.
  - destruct cur as [y0 |]; [| apply IH, H].
    destruct (y0 =? 0); [apply IH, H |].
    apply IH, append_table_keeps, H.
Qed.

Lemma attach_tables_app (l1 l2 : list (element T)) :
  forall (cur : option Z) (m : gmap Z (list T)),
  exists cur',
    attach_tables T (l1 ++ l2) cur m = attach_tables T l2 cur' (attach_tables T l1 cur m)
    /\ ((forall h, In (Heading T h) l1 -> section_year h = None) -> cur' = cur).
Proof.
  induction l1 as [| e rest IH]; intros cur m.
  - exists cur. split; reflexivity.
  - destruct e as [text | t0]; cbn [attach_tables app].
    + destruct (section_year text) as [y |] eqn:E.
      * destruct (IH (Some y) m) as (cur' & Heq & _).
        exists cur'. split; [exact Heq |].
        intros Hq. rewrite (Hq text) in E by (left; reflexivity). discriminate.
      * destruct (IH cur m) as (cur' & Heq & Hq').
        exists cur'. split; [exact Heq |].
        intros Hq. apply Hq'. intros h Hh. apply Hq. right. exact Hh.
    + assert (Hstep : forall m', exists cur',
        attach_tables T (rest ++ l2) cur m' = attach_tables T l2 cur' (attach_tables T rest cur m')
        /\ ((forall h, In (Heading T h) (Table T t0 :: rest) -> section_year h = None) ->
            cur' = cur)).
      { intros m'. destruct (IH cur m') as (cur' & Heq & Hq').
        exists cur'. split; [exact Heq |].
        intros Hq. apply Hq'. intros h Hh. apply Hq. right. exact Hh. }
      destruct cur as [y0 |]; [| apply Hstep].
      destruct (y0 =? 0); apply Hstep.
Qed.

(** X16.  [extract_payroll_tables]: a table is stored under the year of
    the nearest section heading before it.  When a heading names a year
    and one of payroll, mlb, team, and no such heading stands between it
    and a later table, the table is in the list of that year. *)
Theorem tables_follow_their_heading
    (pre mid post : list (element T)) (text : string) (t : T) (y : Z) :
  section_year text = Some y ->
  (forall h, In (Heading T h) mid -> section_year h = None) ->
  exists l,
    extract_payroll_tables T (pre ++ Heading T text :: mid ++ Table T t :: post) !! y
      = Some l
    /\ In t l.
Proof.
  intros Hy Hmid. unfold extract_payroll_tables.
  set (m0 := list_years T _ _). clearbody m0.
  destruct (attach_tables_app pre (Heading T text :: mid ++ Table T t :: post) None m0)
    as (cur1 & -> & _).
  set (m1 := attach_tables T pre None m0). clearbody m1.
  cbn [attach_tables]. rewrite Hy.
  destruct (attach_tables_app mid (Table T t :: post) (Some y) m1) as (cur2 & -> & Hcur).
  rewrite (Hcur Hmid).
  set (m2 := attach_tables T mid (Some y) m1). clearbody m2.
  cbn [attach_tables].
  assert (Hnz : (y =? 0) = false).
  { apply section_year_search, search_year_spec in Hy. apply Z.eqb_neq. lia. }
  rewrite Hnz. apply attach_tables_keeps.
  destruct (append_table_same y t m2) as (l & Hl & Hin & _).
  exists l. split; assumption.
Qed.

Lemma ensure_key_inv (y y' : Z) (m : gmap Z (list T)) (l : list T) :
  ensure_key T y m !! y' = Some l -> m !! y' = Some l \/ (y' = y /\ l = []).
Proof.
  unfold ensure_key. destruct (m !! y) eqn:E; [auto |].
  destruct (Z.eq_dec y y') as [<- | Hne].
  - rewrite lookup_insert_eq. intros [= <-]. right. split; reflexivity.
  - rewrite lookup_insert_ne by exact Hne. auto.
Qed.

Lemma append_table_inv (y y' : Z) (t : T) (m : gmap Z (list T)) (l : list T) :
  append_table T y t m !! y' = Some l ->
  m !! y' = Some l
  \/ (y' = y /\ exists l0, l = (l0 ++ [t])%list /\ (m !! y = Some l0 \/ (m !! y = None /\ l0 = []))).
Proof.
  destruct (Z.eq_dec y y') as [<- | Hne].
  - unfold append_table. destruct (m !! y) as [l0 |] eqn:E;
      rewrite lookup_insert_eq; intros [= <-]; right; (split; [reflexivity |]).
    + exists l0. split; [reflexivity | left; reflexivity].
    + exists []. split; [reflexivity | right; split; reflexivity].
  - rewrite append_table_other by exact Hne. auto.
Qed.

(** What the dict holds while the loops run over a page [page]: every
    key is the year of a heading of the page, every stored table is a
    table of the page. *)
Lemma list_years_inv (page : list (element T)) (elems : list (element T)) :
  forall (m : gmap Z (list T)),
  incl elems page ->
  (forall y l, m !! y = Some l ->
     (exists text, In (Heading T text) page /\ search_year text = Some y) /\ l = []) ->
  forall y l, list_years T elems m !! y = Some l ->
     (exists text, In (Heading T text) page /\ search_year text = Some y) /\ l = [].
Proof.
  induction elems as [| e rest IH]; intros m Hincl Hm; [exact Hm |].
  assert (Hrest : incl rest page) by (intros x Hx; apply Hincl; right; exact Hx).
  destruct e as [text | t0]; cbn [list_years]; [| apply IH; assumption].
  destruct (listed_year text) as [y0 |] eqn:E; [| apply IH; assumption].
  apply IH; [exact Hrest |].
  intros y l Hl. apply ensure_key_inv in Hl as [Hl | [-> ->]]; [apply Hm, Hl |].
  split; [| reflexivity].
  exists text. split; [apply Hincl; left; reflexivity | apply listed_year_search, E].
Qed.

Lemma attach_tables_inv (page : list (element T)) (elems : list (element T)) :
  forall (cur : option Z) (m : gmap Z (list T)),
  incl elems page ->
  (forall y, cur = Some y ->
     exists text, In (Heading T text) page /\ search_year text = Some y) ->
  (forall y l, m !! y = Some l ->
     (exists text, In (Heading T text) page /\ search_year text = Some y)
     /\ forall t, In t l -> In (Table T t) page) ->
  forall y l, attach_tables T elems cur m !! y = Some l ->
     (exists text, In (Heading T text) page /\ search_year text = Some y)
     /\ forall t, In t l -> In (Table T t) page.
Proof.
  induction elems as [| e rest IH]; intros cur m Hincl Hcur Hm; [exact Hm |].
  assert (Hrest : incl rest page) by (intros x Hx; apply Hincl; right; exact Hx).
  destruct e as [text | t0]; cbn [attach_tables].
  - destruct (section_year text) as [y0 |] eqn:E; [| apply IH; assumption].
    apply IH; [exact Hrest | | exact Hm].
    intros y [= <-]. exists text.
    split; [apply Hincl; left; reflexivity | apply section_year_search, E].
  - destruct cur as [y0 |]; [| apply IH; assumption].
    destruct (y0 =? 0); [apply IH; assumption |].
    apply IH; [exact Hrest | exact Hcur |].
    intros y l Hl. apply append_table_inv in Hl as [Hl | [-> (l0 & -> & Hl0)]];
      [apply Hm, Hl |].
    split; [apply Hcur; reflexivity |].
    intros t Ht. apply in_app_or in Ht as [Ht | [<- | []]].
    + destruct Hl0 as [Hl0 | [_ ->]]; [| destruct Ht].
      apply (Hm _ _ Hl0), Ht.
    + apply Hincl. left. reflexivity.
Qed.

(** X17.  [extract_payroll_tables]: every key of the result is the year
    of a heading of the page, hence between 1900 and 2029, and every
    table stored under it is a table of the page. *)
Theorem extract_payroll_tables_sound
    (elems : list (element T)) (y : Z) (l : list T) :
  extract_payroll_tables T elems !! y = Some l ->
  (exists text, In (Heading T text) elems /\ search_year text = Some y)
  /\ 1900 <= y <= 2029
  /\ forall t, In t l -> In (Table T t) elems.
Proof.
  intros H. unfold extract_payroll_tables in H.
  apply (attach_tables_inv elems) in H.
  - destruct H as [(text & Hin & Hy) Hl].
    split; [exists text; split; assumption |].
    split; [apply (search_year_spec text), Hy | exact Hl].
  - apply incl_refl.
  - discriminate.
  - intros y' l' Hl'.
    apply (list_years_inv elems) in Hl' as [Hk ->].
    + split; [exact Hk | intros t []].
    + apply incl_refl.
    + intros y0 l0 H0. rewrite lookup_empty in H0. discriminate.
Qed.

End PayrollSections.

Lemma tables_follow_their_heading_witness :
  exists l,
    stdpp.base.lookup 2019
      (SalaryScraper.extract_payroll_tables nat
         ([SalaryScraper.Table nat 7%nat]
          ++ SalaryScraper.Heading nat "2019 MLB Payrolls"
             :: [SalaryScraper.Heading nat "Notes"]
             ++ SalaryScraper.Table nat 8%nat :: [])) = Some l
    /\ In 8%nat l.
Proof.
  apply (tables_follow_their_heading nat).
  - vm_compute. reflexivity.
  - intros h [[= <-] | []]. vm_compute. reflexivity.
Defined.

Lemma extract_payroll_tables_sound_witness :
  (exists text,
     In (SalaryScraper.Heading nat text)
        [SalaryScraper.Heading nat "2019 MLB Payrolls"; SalaryScraper.Table nat 8%nat]
     /\ SalaryScraper.search_year text = Some 2019)
  /\ 1900 <= 2019 <= 2029
  /\ forall t, In t [8%nat] ->
       In (SalaryScraper.Table nat t)
          [SalaryScraper.Heading nat "2019 MLB Payrolls"; SalaryScraper.Table nat 8%nat].
Proof.
  apply (extract_payroll_tables_sound nat
           [SalaryScraper.Heading nat "2019 MLB Payrolls"; SalaryScraper.Table nat 8%nat]).
  vm_compute. reflexivity.
Defined.

Lemma last_cons {A : Type} (rest : list A) :
  forall x d : A, last (x :: rest) d = last rest x.
Proof.
  induction rest as [| y r IH]; intros x d; [reflexivity |].
  change (last (x :: y :: r) d) with (last (y :: r) d).
  rewrite (IH y d), (IH y x). reflexivity.
Qed.

Lemma choose_frame_small (tables : list (option DataFrame)) :
  forall df : option DataFrame,
  (forall d, In (Some d) tables -> (Frame.nrows d < 20)%nat) ->
  SalaryScraper.choose_frame tables df = last tables df.
Proof.
  induction tables as [| table rest IH]; intros df Hsmall; [reflexivity |].
  assert (Hrest : forall d, In (Some d) rest -> (Frame.nrows d < 20)%nat)
    by (intros d Hd; apply Hsmall; right; exact Hd).
  rewrite last_cons.
  cbn [SalaryScraper.choose_frame]. destruct table as [d |].
  - assert (Hd : (Frame.nrows d < 20)%nat) by (apply Hsmall; left; reflexivity).
    apply Nat.leb_gt in Hd. rewrite Hd. apply IH, Hrest.
  - apply IH, Hrest.
Qed.

(** X18.  [scrape_payrolls], the loop over the tables of a year: the
    first table whose frame has at least 20 rows ends the loop, and its
    frame is the one kept. *)
Theorem choose_frame_first_large
    (pre post : list (option DataFrame)) (d : DataFrame) (df : option DataFrame) :
  (20 <= Frame.nrows d)%nat ->
  (forall d', In (Some d') pre -> (Frame.nrows d' < 20)%nat) ->
  SalaryScraper.choose_frame (pre ++ Some d :: post) df = Some d.
Proof.
  intros Hd. revert df.
  induction pre as [| table rest IH]; intros df Hsmall.
  - cbn [app SalaryScraper.choose_frame].
    apply Nat.leb_le in Hd. rewrite Hd. reflexivity.
  - assert (Hrest : forall d', In (Some d') rest -> (Frame.nrows d' < 20)%nat)
      by (intros d' Hd'; apply Hsmall; right; exact Hd').
    cbn [app SalaryScraper.choose_frame]. destruct table as [d0 |].
    + assert (Hd0 : (Frame.nrows d0 < 20)%nat) by (apply Hsmall; left; reflexivity).
      apply Nat.leb_gt in Hd0. rewrite Hd0. apply IH, Hrest.
    + apply IH, Hrest.
Qed.

Lemma choose_frame_first_large_witness :
  SalaryScraper.choose_frame ([Some three_teams; None] ++ Some twenty_rows :: [Some ten_teams]) None
  = Some twenty_rows.
Proof.
  apply choose_frame_first_large.
  - vm_compute. lia.
  - intros d' [[= <-] | [[=] | []]]. vm_compute. lia.
Defined.

(** X19.  [scrape_payrolls], the loop over the tables of a year: when no
    table gives a frame of at least 20 rows, what is kept is what the
    last table gave, a missing frame included, and not the largest or
    the first frame. *)
Theorem choose_frame_keeps_last (tables : list (option DataFrame)) :
  (forall d, In (Some d) tables -> (Frame.nrows d < 20)%nat) ->
  SalaryScraper.choose_frame tables None = last tables None.
Proof. apply choose_frame_small. Qed.

Lemma choose_frame_keeps_last_witness :
  SalaryScraper.choose_frame [Some ten_teams; Some three_teams; None] None = None.
Proof.
  apply (choose_frame_keeps_last [Some ten_teams; Some three_teams; None]).
  intros d [[= <-] | [[= <-] | [[=] | []]]]; vm_compute; lia.
Defined.

Lemma insert_asc_In (x z : Z) (l : list Z) :
  In z (SalaryDataCleaner.insert_asc x l) <-> z = x \/ In z l.
Proof.
  induction l as [| y l IH]; cbn [SalaryDataCleaner.insert_asc].
  - cbn. intuition.
  - destruct (x <=? y); cbn [In]; [intuition | rewrite IH; intuition].
Qed.

Lemma sort_asc_In (z : Z) (l : list Z) :
  In z (SalaryDataCleaner.sort_asc l) <-> In z l.
Proof.
  induction l as [| x l IH]; [reflexivity |].
  cbn [SalaryDataCleaner.sort_asc fold_right]. fold (SalaryDataCleaner.sort_asc l).
  rewrite insert_asc_In, IH. cbn [In]. intuition.
Qed.

Lemma insert_asc_sorted (x : Z) (l : list Z) :
  StronglySorted Z.lt l -> ~ In x l ->
  StronglySorted Z.lt (SalaryDataCleaner.insert_asc x l).
Proof.
  induction l as [| y l IH]; intros Hs Hx; cbn [SalaryDataCleaner.insert_asc].
  - constructor; constructor.
  - apply StronglySorted_inv in Hs as [Hl Hy].
    destruct (Z.leb_spec x y) as [Hle | Hgt].
    + assert (Hlt : x < y) by (assert (x <> y) by (intros ->; apply Hx; left; reflexivity); lia).
      constructor; [constructor; assumption |].
      constructor; [exact Hlt |].
      rewrite Forall_forall in Hy |- *. intros z Hz. specialize (Hy z Hz). lia.
    + constructor.
      * apply IH; [exact Hl | intros Hin; apply Hx; right; exact Hin].
      * rewrite Forall_forall in Hy |- *. intros z Hz.
        apply insert_asc_In in Hz as [-> | Hz]; [lia | apply Hy, Hz].
Qed.

Lemma sort_asc_sorted (l : list Z) :
  NoDup l -> StronglySorted Z.lt (SalaryDataCleaner.sort_asc l).
Proof.
  induction 1 as [| x l Hx Hl IH]; [constructor |].
  cbn [SalaryDataCleaner.sort_asc fold_right]. fold (SalaryDataCleaner.sort_asc l).
  apply insert_asc_sorted; [exact IH |].
  rewrite sort_asc_In. exact Hx.
Qed.

Section PayrollReport.
Import stdpp.base stdpp.gmap.
Import SalaryScraper.
Local Open Scope Z_scope.

Variables (start_year end_year : Z) (year_tables : gmap Z (list (option DataFrame))).

Lemma keys_sorted :
  let years := SalaryDataCleaner.sort_asc (map fst (map_to_list year_tables)) in
  StronglySorted Z.lt years
  /\ forall y, In y years <-> exists tables, year_tables !! y = Some tables.
Proof.
  assert (Hmap : map fst (map_to_list year_tables) = (map_to_list year_tables).*1).
  { induction (map_to_list year_tables) as [| p l IH]; [reflexivity |].
    cbn. rewrite IH. reflexivity. }
  cbv zeta. split.
  - apply sort_asc_sorted. rewrite Hmap. apply NoDup_ListNoDup, NoDup_fst_map_to_list.
  - intros y. rewrite sort_asc_In, in_map_iff. split.
    + intros ([y' tables] & Hy & Hin). cbn in Hy. subst y'.
      exists tables. apply elem_of_map_to_list, list_elem_of_In, Hin.
    + intros (tables & Hl). exists (y, tables). split; [reflexivity |].
      apply list_elem_of_In, elem_of_map_to_list, Hl.
Qed.

Lemma scrape_one_year_spec (acc : list (Z * DataFrame) * list Z) (year : Z) :
  (scrape_one_year start_year end_year year_tables acc year = acc
   /\ forall df, saved start_year end_year year_tables year df -> False)
  \/ exists df,
       saved start_year end_year year_tables year df
       /\ scrape_one_year start_year end_year year_tables acc year
          = ((fst acc ++ [(year, df)])%list, (snd acc ++ [year])%list).
Proof.
  unfold scrape_one_year, saved.
  destruct (Z.ltb_spec year start_year) as [Hlo | Hlo];
    [left; split; [reflexivity | intros df (Hr & _); lia] |].
  destruct (Z.ltb_spec end_year year) as [Hhi | Hhi];
    [left; split; [reflexivity | intros df (Hr & _); lia] |].
  cbn [orb].
  destruct (year_tables !! year) as [tables |] eqn:E;
    [| left; split; [reflexivity | intros df (_ & _ & ts & [=] & _)]].
  assert (Hgen :
    (match choose_frame tables None with
     | Some df => if Frame.empty df then acc
                  else ((fst acc ++ [(year, df)])%list, (snd acc ++ [year])%list)
     | None => acc
     end = acc
     /\ forall df, (start_year <= year <= end_year /\ Frame.empty df = false
          /\ exists ts, Some tables = Some ts /\ choose_frame ts None = Some df) -> False)
    \/ exists df,
         (start_year <= year <= end_year /\ Frame.empty df = false
          /\ exists ts, Some tables = Some ts /\ choose_frame ts None = Some df)
         /\ match choose_frame tables None with
            | Some df => if Frame.empty df then acc
                         else ((fst acc ++ [(year, df)])%list, (snd acc ++ [year])%list)
            | None => acc
            end = ((fst acc ++ [(year, df)])%list, (snd acc ++ [year])%list)).
  { destruct (choose_frame tables None) as [df |] eqn:Ec.
    - destruct (Frame.empty df) eqn:Ee.
      + left. split; [reflexivity |].
        intros df' (_ & He & ts & [= <-] & Hc). rewrite Ec in Hc.
        injection Hc as <-. congruence.
      + right. exists df. split; [| reflexivity].
        split; [lia |]. split; [exact Ee |]. exists tables. split; [reflexivity | exact Ec].
    - left. split; [reflexivity |].
      intros df' (_ & _ & ts & [= <-] & Hc). rewrite Ec in Hc. discriminate. }
  destruct tables as [| table rest]; [| exact Hgen].
  left. split; [reflexivity |].
  intros df (_ & _ & ts & [= <-] & Hc). discriminate.
Qed.

Lemma scrape_years_spec (years : list Z) :
  forall acc : list (Z * DataFrame) * list Z,
  exists fs,
    fold_left (scrape_one_year start_year end_year year_tables) years acc
      = ((fst acc ++ fs)%list, (snd acc ++ map fst fs)%list)
    /\ (forall y df, In (y, df) fs ->
          In y years /\ saved start_year end_year year_tables y df)
    /\ (forall y df, In y years -> saved start_year end_year year_tables y df ->
          In (y, df) fs)
    /\ (StronglySorted Z.lt years -> StronglySorted Z.lt (map fst fs)).
Proof.
  induction years as [| year rest IH]; intros acc.
  - exists []. cbn [fold_left map]. rewrite !app_nil_r.
    split; [destruct acc; reflexivity |].
    split; [intros y df [] |]. split; [intros y df [] | intros _; constructor].
  - cbn [fold_left].
    destruct (scrape_one_year_spec acc year) as [[-> Hno] | (df & Hsaved & ->)].
    + destruct (IH acc) as (fs & Heq & Hsound & Hcomplete & Hsorted).
      exists fs. split; [exact Heq |].
      split; [intros y d Hin; destruct (Hsound y d Hin); split; [right |]; assumption |].
      split.
      * intros y d [<- | Hin] Hs; [destruct (Hno d Hs) | apply Hcomplete; assumption].
      * intros Hs. apply StronglySorted_inv in Hs as [Hs _]. apply Hsorted, Hs.
    + destruct (IH ((fst acc ++ [(year, df)])%list, (snd acc ++ [year])%list))
        as (fs & Heq & Hsound & Hcomplete & Hsorted).
      exists ((year, df) :: fs). cbn [fst snd map] in *.
      rewrite <- !app_assoc in Heq. split; [exact Heq |].
      split.
      * intros y d [[= <- <-] | Hin]; [split; [left; reflexivity | exact Hsaved] |].
        destruct (Hsound y d Hin). split; [right |]; assumption.
      * split.
        -- intros y d [<- | Hin] Hs; [| right; apply Hcomplete; assumption].
           left. f_equal.
           destruct Hsaved as (_ & _ & ts & Hts & Hc).
           destruct Hs as (_ & _ & ts' & Hts' & Hc').
           congruence.
        -- intros Hs. apply StronglySorted_inv in Hs as [Hs Hall].
           constructor; [apply Hsorted, Hs |].
           rewrite List.Forall_forall in Hall |- *. intros z Hz.
           apply in_map_iff in Hz as ([z' d] & <- & Hin).
           apply Hall. apply (Hsound z' d Hin).
Qed.

End PayrollReport.

(** X20.  [scrape_payrolls]: when the page loads, the years processed are
    the years of the files created, in the same order; they are strictly
    ascending; and a file is created for a year exactly when the year is
    within the bounds asked for and the loop over its tables keeps a
    frame that is not empty. *)
Theorem scrape_payrolls_report
    (get : result unit) (loaded : result bool)
    (elems : list (SalaryScraper.element (option DataFrame)))
    (start_year end_year : Z)
    (files_created : list (Z * DataFrame)) (years_processed : list Z) :
  SalaryScraper.scrape_payrolls get loaded elems start_year end_year
    = Ok (SalaryScraper.Success files_created years_processed) ->
  years_processed = map fst files_created
  /\ StronglySorted Z.lt years_processed
  /\ forall y df,
       In (y, df) files_created <->
       saved start_year end_year
         (SalaryScraper.extract_payroll_tables (option DataFrame) elems) y df.
Proof.
  unfold SalaryScraper.scrape_payrolls.
  destruct (end_year <? start_year); [discriminate |].
  destruct get as [[] | e]; [| discriminate]. cbn [bind].
  destruct loaded as [[|] | e]; [| discriminate | discriminate]. cbn [bind negb].
  set (year_tables := SalaryScraper.extract_payroll_tables (option DataFrame) elems).
  destruct (keys_sorted year_tables) as [Hsorted Hkeys]. cbv zeta in Hsorted, Hkeys.
  destruct (scrape_years_spec start_year end_year year_tables
              (SalaryDataCleaner.sort_asc (map fst (stdpp.fin_maps.map_to_list year_tables)))
              ([], [])) as (fs & -> & Hsound & Hcomplete & Hs).
  cbn [fst snd app]. intros [= <- <-].
  split; [reflexivity |]. split; [apply Hs, Hsorted |].
  intros y df. split.
  - intros Hin. apply (Hsound y df Hin).
  - intros Hsaved. apply Hcomplete; [| exact Hsaved].
    apply Hkeys. destruct Hsaved as (_ & _ & ts & Hts & _). exists ts. exact Hts.
Qed.

Lemma scrape_payrolls_report_witness :
  [2019] = map fst [(2019, twenty_rows)]
  /\ StronglySorted Z.lt [2019]
  /\ forall y df,
       In (y, df) [(2019, twenty_rows)] <->
       saved 1998 2025
         (SalaryScraper.extract_payroll_tables (option DataFrame) payroll_page) y df.
Proof.
  apply (scrape_payrolls_report (Ok tt) (Ok true) payroll_page 1998 2025).
  vm_compute. reflexivity.
Defined.

(* --------------------------------------------------------------------- *)
(** ** Cleaning and saving the tables of a year: [baseball_scraper.py]    *)
(* --------------------------------------------------------------------- *)

Section ScraperCleaning.
Import BaseballScraperYear.

Lemma keep_Forall_mask {A : Type} (f : A -> bool) (xs : list A) :
  Forall (fun x => f x = true) (keep (map f xs) xs).
Proof.
  induction xs as [| x xs IH]; cbn [map keep]; [constructor |].
  destruct (f x) eqn:E; [constructor; assumption | exact IH].
Qed.

Lemma keep_Forall {A : Type} (P : A -> Prop) (mask : list bool) :
  forall xs : list A, Forall P xs -> Forall P (keep mask xs).
Proof.
  induction mask as [| b mask IH]; intros xs H; [constructor |].
  destruct xs as [| x xs]; [constructor |]. cbn [keep].
  apply Forall_cons_iff in H as [Hx Hxs].
  destruct b; [constructor; [exact Hx |] |]; apply IH, Hxs.
Qed.

Lemma keep_length_le {A B : Type} (mask : list bool) :
  forall (xs : list A) (ys : list B),
  (List.length mask <= List.length xs)%nat ->
  (List.length (keep mask ys) <= List.length (keep mask xs))%nat.
Proof.
  induction mask as [| b mask IH]; intros xs ys H; [cbn; lia |].
  destruct xs as [| x xs]; [cbn in H; lia |].
  destruct ys as [| y ys]; [cbn [keep List.length]; lia |].
  cbn [keep]. cbn [List.length] in H.
  specialize (IH xs ys ltac:(lia)).
  destruct b; cbn [List.length]; lia.
Qed.

Lemma keep_all_true {A B : Type} (f : A -> bool) (xs : list A) :
  forall ys : list B,
  Forall (fun x => f x = true) xs ->
  (List.length ys <= List.length xs)%nat ->
  keep (map f xs) ys = ys.
Proof.
  induction xs as [| x xs IH]; intros ys Hall Hlen.
  - destruct ys; [reflexivity | cbn in Hlen; lia].
  - destruct ys as [| y ys]; [reflexivity |].
    apply Forall_cons_iff in Hall as [Hx Hxs].
    cbn [map keep]. rewrite Hx. f_equal. apply IH; [exact Hxs |].
    cbn [List.length] in Hlen. lia.
Qed.

Lemma keep_rows_names (mask : list bool) (cols : list (string * list value)) :
  map fst (keep_rows mask cols) = map fst cols.
Proof.
  unfold keep_rows. rewrite map_map. reflexivity.
Qed.

Lemma count_name_names (name : string) (cols cols' : list (string * list value)) :
  map fst cols = map fst cols' -> count_name name cols = count_name name cols'.
Proof.
  unfold count_name. revert cols'.
  induction cols as [| c cols IH]; intros [| c' cols'] H; try discriminate; [reflexivity |].
  cbn [map] in H. injection H as Hc Hcols. cbn [filter]. cbv beta. rewrite Hc.
  destruct (String.eqb (fst c') name); cbn [List.length]; rewrite (IH cols' Hcols); reflexivity.
Qed.

(** The two filters of [clean_dataframe], written out. *)
Lemma scraper_clean_dataframe_spec
    (df : frame) (label : string) (cells : list value) (rest : list (string * list value)) :
  flatten df = (label, cells) :: rest ->
  clean_dataframe (Some df)
  = if Nat.ltb 1 (count_name label ((label, cells) :: rest)) then Raises AttributeError
    else
      let mask1 := map (differs label) cells in
      let mask2 := map (fun v => negb (league_row (astype_str v))) (keep mask1 cells) in
      Returns (Some (Flat
        ((label, keep mask2 (keep mask1 cells)) :: keep_rows mask2 (keep_rows mask1 rest)))).
Proof.
  intros H. unfold clean_dataframe. rewrite H.
  cbn [keep_rows map fst snd].
  fold (keep_rows (map (differs label) cells) rest).
  change ((label, keep (map (differs label) cells) cells)
          :: keep_rows (map (differs label) cells) rest)
    with (keep_rows (map (differs label) cells) ((label, cells) :: rest)) at 1.
  rewrite (count_name_names label _ ((label, cells) :: rest)) by apply keep_rows_names.
  destruct (Nat.ltb 1 (count_name label ((label, cells) :: rest))); reflexivity.
Qed.

Lemma keep_rows_lengths (mask : list bool) (n : nat) (cols : list (string * list value)) :
  (forall ys : list value, List.length (keep mask ys) <= n)%nat ->
  Forall (fun c => (List.length (snd c) <= n)%nat) (keep_rows mask cols).
Proof.
  intros H. unfold keep_rows. apply Forall_forall. intros c Hc.
  apply in_map_iff in Hc as (c0 & <- & _). cbn [snd]. apply H.
Qed.

Lemma keep_rows_all_true (f : value -> bool) (xs : list value)
    (cols : list (string * list value)) :
  Forall (fun x => f x = true) xs ->
  Forall (fun c => (List.length (snd c) <= List.length xs)%nat) cols ->
  keep_rows (map f xs) cols = cols.
Proof.
  intros Hall Hlen. unfold keep_rows.
  induction cols as [| [name ys] cols IH]; [reflexivity |].
  apply Forall_cons_iff in Hlen as [Hy Hcols]. cbn [map fst snd] in *.
  rewrite (keep_all_true f xs ys Hall Hy), (IH Hcols). reflexivity.
Qed.

(** X21.  [BaseballScraper.clean_dataframe]: the frame returned has the
    columns of the input under their flattened names, and no row of it
    has the name of the first column, or a text with avg, average or
    league in any letter case, in its first cell. *)
Theorem scraper_clean_dataframe_rows (df : frame) (r : option frame) :
  clean_dataframe (Some df) = Returns r ->
  exists name cells rest,
    r = Some (Flat ((name, cells) :: rest))
    /\ map fst ((name, cells) :: rest) = map fst (flatten df)
    /\ Forall (fun v => differs name v = true /\ league_row (astype_str v) = false) cells.
Proof.
  destruct (flatten df) as [| [label cells] rest] eqn:E.
  - unfold clean_dataframe. rewrite E. discriminate.
  - rewrite (scraper_clean_dataframe_spec df label cells rest E).
    destruct (Nat.ltb 1 (count_name label ((label, cells) :: rest))); [discriminate |].
    cbv zeta. intros [= <-].
    eexists label, _, _. split; [reflexivity |].
    split; [cbn [map fst]; rewrite !keep_rows_names; reflexivity |].
    apply Forall_forall. intros v Hv. split.
    + revert v Hv. apply Forall_forall. apply keep_Forall.
      apply (keep_Forall_mask (differs label)).
    + apply negb_true_iff. revert v Hv. apply Forall_forall.
      apply (keep_Forall_mask (fun v => negb (league_row (astype_str v)))).
Qed.

Lemma scraper_clean_dataframe_rows_witness :
  exists name cells rest,
    Some (Flat [ ("Unnamed: 0_level_0 Tm",
                  [Str "Boston Red Sox"; Str "New York Yankees"; NonStr "nan"]);
                 ("Batting R", [NonStr "735"; NonStr "804"; NonStr "nan"]) ])
      = Some (Flat ((name, cells) :: rest))
    /\ map fst ((name, cells) :: rest) = map fst (flatten batting_table)
    /\ Forall (fun v => differs name v = true /\ league_row (astype_str v) = false) cells.
Proof.
  apply (scraper_clean_dataframe_rows batting_table).
  vm_compute. reflexivity.
Defined.

(** X22.  [BaseballScraper.clean_dataframe] is idempotent: cleaning a
    frame that it returned gives that frame again. *)
Theorem scraper_clean_dataframe_idempotent (df df' : frame) :
  clean_dataframe (Some df) = Returns (Some df') ->
  clean_dataframe (Some df') = Returns (Some df').
Proof.
  destruct (flatten df) as [| [label cells] rest] eqn:E.
  - unfold clean_dataframe. rewrite E. discriminate.
  - rewrite (scraper_clean_dataframe_spec df label cells rest E).
    destruct (Nat.ltb 1 (count_name label ((label, cells) :: rest))) eqn:Ec; [discriminate |].
    cbv zeta. intros [= <-].
    set (mask1 := map (differs label) cells).
    set (mask2 := map (fun v => negb (league_row (astype_str v))) (keep mask1 cells)).
    set (cells' := keep mask2 (keep mask1 cells)).
    set (rest' := keep_rows mask2 (keep_rows mask1 rest)).
    rewrite (scraper_clean_dataframe_spec (Flat ((label, cells') :: rest')) label cells' rest' eq_refl).
    assert (Hnames : map fst ((label, cells') :: rest') = map fst ((label, cells) :: rest))
      by (cbn [map fst]; unfold rest'; rewrite !keep_rows_names; reflexivity).
    rewrite (count_name_names label _ _ Hnames), Ec. cbv zeta.
    assert (H1 : Forall (fun v => differs label v = true) cells')
      by (apply keep_Forall, (keep_Forall_mask (differs label))).
    assert (H2 : Forall (fun v => negb (league_row (astype_str v)) = true) cells')
      by apply (keep_Forall_mask (fun v => negb (league_row (astype_str v)))).
    assert (Hlen : Forall (fun c => (List.length (snd c) <= List.length cells')%nat) rest').
    { unfold rest', keep_rows. rewrite map_map. apply Forall_forall. intros c Hc.
      apply in_map_iff in Hc as (c0 & <- & _). cbn [fst snd].
      unfold cells'. apply keep_length_le.
      unfold mask2. rewrite length_map. lia. }
    rewrite (keep_all_true (differs label) cells' cells' H1 (le_n _)).
    rewrite (keep_all_true _ cells' cells' H2 (le_n _)).
    rewrite (keep_rows_all_true (differs label) cells' rest' H1 Hlen).
    rewrite (keep_rows_all_true _ cells' rest' H2 Hlen).
    reflexivity.
Qed.

Lemma scraper_clean_dataframe_idempotent_witness :
  clean_dataframe
    (Some (Flat [ ("Unnamed: 0_level_0 Tm",
                   [Str "Boston Red Sox"; Str "New York Yankees"; NonStr "nan"]);
                  ("Batting R", [NonStr "735"; NonStr "804"; NonStr "nan"]) ]))
  = Returns
      (Some (Flat [ ("Unnamed: 0_level_0 Tm",
                     [Str "Boston Red Sox"; Str "New York Yankees"; NonStr "nan"]);
                    ("Batting R", [NonStr "735"; NonStr "804"; NonStr "nan"]) ])).
Proof.
  apply (scraper_clean_dataframe_idempotent batting_table).
  vm_compute. reflexivity.
Defined.

(** When the scraper's [clean_dataframe] raises, and what. *)
Lemma clean_dataframe_raises_iff (df : frame) (e : error) :
  clean_dataframe (Some df) = Raises e <->
  (flatten df = [] /\ e = Builtin IndexError)
  \/ (exists name cells rest,
        flatten df = (name, cells) :: rest
        /\ In name (map fst rest) /\ e = AttributeError).
Proof.
  assert (Hcount : forall name (cols : list (string * list value)),
            (0 < count_name name cols)%nat <-> In name (map fst cols)).
  { intros name cols. unfold count_name.
    induction cols as [| c cols IH]; cbn [filter map In List.length]; [lia |].
    destruct (String.eqb_spec (fst c) name) as [-> | Hne]; cbn [List.length].
    - split; [left; reflexivity | lia].
    - rewrite IH. split; [right; assumption | intros [H | H]; [contradiction | exact H]]. }
  destruct (flatten df) as [| [label cells] rest] eqn:E.
  - unfold clean_dataframe. rewrite E. split.
    + intros [= <-]. left. split; reflexivity.
    + intros [[_ ->] | (name & cells & rest & [=] & _)]. reflexivity.
  - rewrite (scraper_clean_dataframe_spec df label cells rest E).
    assert (Hc : count_name label ((label, cells) :: rest) = S (count_name label rest)).
    { unfold count_name. cbn [filter fst]. rewrite String.eqb_refl. reflexivity. }
    rewrite Hc. destruct (Nat.ltb_spec 1 (S (count_name label rest))) as [Hlt | Hge].
    + split.
      * intros [= <-]. right. exists label, cells, rest.
        split; [reflexivity |]. split; [apply Hcount; lia | reflexivity].
      * intros [[[=] _] | (name & cells' & rest' & _ & _ & ->)]. reflexivity.
    + cbv zeta. split; [discriminate |].
      intros [[[=] _] | (name & cells' & rest' & [= <- <- <-] & Hin & _)].
      apply Hcount in Hin. lia.
Qed.

(** X23.  [BaseballScraper.clean_dataframe] raises on two kinds of frame
    only: [IndexError] on a frame without columns, [AttributeError] on a
    frame in which another column bears the (flattened) name of the
    first; on every other frame it returns a frame. *)
Theorem scraper_clean_dataframe_raises (df : frame) (e : error) :
  clean_dataframe (Some df) = Raises e <->
  (flatten df = [] /\ e = Builtin IndexError)
  \/ (exists name cells rest,
        flatten df = (name, cells) :: rest
        /\ In name (map fst rest) /\ e = AttributeError).
Proof. apply clean_dataframe_raises_iff. Qed.

Lemma scraper_clean_dataframe_raises_witness :
  clean_dataframe (Some twin_columns_table) = Raises AttributeError.
Proof.
  apply (proj2 (scraper_clean_dataframe_raises twin_columns_table AttributeError)).
  right. exists "Tm", [Str "Boston Red Sox"], [("Tm", [Str "BOS"])].
  split; [reflexivity |]. split; [left; reflexivity | reflexivity].
Defined.

End ScraperCleaning.

Section ScrapeYear.
Import stdpp.base stdpp.gmap stdpp.strings.
Import BaseballScraperYear.
Local Open Scope Z_scope.

Variable all_tables : gmap string frame.

Lemma try_alternatives_spec (alt_ids : list string) (df : frame) :
  try_alternatives all_tables alt_ids = Returns (Some df) ->
  empty df = false
  /\ exists alt_id table,
       In alt_id alt_ids /\ all_tables !! alt_id = Some table
       /\ clean_dataframe (Some table) = Returns (Some df).
Proof.
  induction alt_ids as [| alt_id rest IH]; [discriminate |].
  cbn [try_alternatives].
  assert (Hrest : try_alternatives all_tables rest = Returns (Some df) ->
                  empty df = false
                  /\ exists alt_id0 table,
                       In alt_id0 (alt_id :: rest) /\ all_tables !! alt_id0 = Some table
                       /\ clean_dataframe (Some table) = Returns (Some df)).
  { intros H. destruct (IH H) as (He & a & t & Hin & Ht & Hc).
    split; [exact He |]. exists a, t. split; [right; exact Hin | split; assumption]. }
  destruct (all_tables !! alt_id) as [table |] eqn:E; [| exact Hrest].
  destruct (clean_dataframe (Some table)) as [[d |] | e] eqn:Ec;
    [| exact Hrest | discriminate].
  destruct (empty d) eqn:Ee; [exact Hrest |].
  intros [= <-]. split; [exact Ee |].
  exists alt_id, table. split; [left; reflexivity | split; assumption].
Qed.

(** What one round of the loop over [table_mapping] adds. *)
Lemma save_table_spec (files files' : list (kind * frame))
    (table_id : string) (filename : kind) :
  save_table all_tables files table_id filename = Returns files' ->
  files' = files
  \/ exists df,
       files' = (files ++ [(filename, df)])%list
       /\ empty df = false
       /\ exists id table,
            all_tables !! id = Some table
            /\ clean_dataframe (Some table) = Returns (Some df)
            /\ (id = table_id
                \/ exists alt_ids,
                     all_tables !! table_id = None
                     /\ alternatives filename = Some alt_ids /\ In id alt_ids).
Proof.
  unfold save_table.
  destruct (all_tables !! table_id) as [table |] eqn:E.
  - destruct (clean_dataframe (Some table)) as [[d |] | e] eqn:Ec;
      [| intros [= <-]; left; reflexivity | discriminate].
    destruct (empty d) eqn:Ee; intros [= <-]; [left; reflexivity |].
    right. exists d. split; [reflexivity |]. split; [exact Ee |].
    exists table_id, table. split; [exact E |]. split; [exact Ec | left; reflexivity].
  - destruct (alternatives filename) as [alt_ids |] eqn:Ea;
      [| intros [= <-]; left; reflexivity].
    destruct (try_alternatives all_tables alt_ids) as [[d |] | e] eqn:Et;
      [| intros [= <-]; left; reflexivity | discriminate].
    intros [= <-]. right. exists d. split; [reflexivity |].
    apply try_alternatives_spec in Et as (Ee & id & t & Hin & Ht & Hc).
    split; [exact Ee |]. exists id, t. split; [exact Ht |]. split; [exact Hc |].
    right. exists alt_ids. split; [reflexivity |]. split; [reflexivity | exact Hin].
Qed.

Lemma save_tables_spec (mapping : list (string * kind)) :
  forall files files' : list (kind * frame),
  save_tables all_tables mapping files = Returns files' ->
  exists added,
    files' = (files ++ added)%list
    /\ sublist (map fst added) (map snd mapping)
    /\ forall filename df, In (filename, df) added ->
         empty df = false
         /\ exists id table,
              all_tables !! id = Some table
              /\ clean_dataframe (Some table) = Returns (Some df)
              /\ (In (id, filename) mapping
                  \/ exists primary alt_ids,
                       In (primary, filename) mapping
                       /\ all_tables !! primary = None
                       /\ alternatives filename = Some alt_ids /\ In id alt_ids).
Proof.
  induction mapping as [| [table_id filename] rest IH]; intros files files'.
  - cbn [save_tables]. intros [= <-]. exists []. rewrite app_nil_r.
    split; [reflexivity |]. split; [constructor | intros k d []].
  - cbn [save_tables].
    destruct (save_table all_tables files table_id filename) as [files1 | e] eqn:E1;
      [| discriminate].
    intros H. destruct (IH files1 files' H) as (added & -> & Hsub & Hfrom).
    assert (Hlift : forall k d, In (k, d) added ->
              empty d = false
              /\ exists id table,
                   all_tables !! id = Some table
                   /\ clean_dataframe (Some table) = Returns (Some d)
                   /\ (In (id, k) ((table_id, filename) :: rest)
                       \/ exists primary alt_ids,
                            In (primary, k) ((table_id, filename) :: rest)
                            /\ all_tables !! primary = None
                            /\ alternatives k = Some alt_ids /\ In id alt_ids)).
    { intros k d Hin. destruct (Hfrom k d Hin) as (He & id & t & Ht & Hc & Hsrc).
      split; [exact He |]. exists id, t. split; [exact Ht |]. split; [exact Hc |].
      destruct Hsrc as [Hp | (p & alts & Hp & Hnone & Ha & Hi)].
      - left. right. exact Hp.
      - right. exists p, alts. split; [right; exact Hp |]. split; [exact Hnone |].
        split; assumption. }
    apply save_table_spec in E1 as [-> | (d & -> & Hrest)].
    + exists added. split; [reflexivity |].
      split; [cbn [map snd]; apply sublist_cons, Hsub | exact Hlift].
    + exists ((filename, d) :: added). rewrite <- app_assoc.
      split; [reflexivity |].
      split; [cbn [map fst snd]; apply sublist_skip, Hsub |].
      intros k d' [[= <- <-] | Hin]; [| apply Hlift, Hin].
      destruct Hrest as (He & id & t & Ht & Hc & Hsrc).
      split; [exact He |]. exists id, t. split; [exact Ht |]. split; [exact Hc |].
      destruct Hsrc as [-> | (alts & Hnone & Ha & Hi)].
      * left. left. reflexivity.
      * right. exists table_id, alts. split; [left; reflexivity |].
        split; [exact Hnone |]. split; assumption.
Qed.

End ScrapeYear.

Section ScrapeYearFacts.
Import stdpp.base stdpp.gmap stdpp.strings.
Import BaseballScraperYear.
Local Open Scope Z_scope.

Lemma get_all_tables_returns (time : BaseballScraper.clock) (budget : Z)
    (page_source : result (BaseballScraper.page frame)) :
  exists all_tables,
    BaseballScraper.get_all_tables frame time budget page_source = Ok all_tables.
Proof.
  unfold BaseballScraper.get_all_tables.
  destruct page_source as [src | e]; [| eexists; reflexivity].
  destruct (BaseballScraper.over_budget time budget (time 0%nat) 1); [eexists; reflexivity |].
  destruct (BaseballScraper.visible_loop frame time budget (time 0%nat)
              (BaseballScraper.visible frame src) 2 ∅) as [[[] tables] n];
    [eexists; reflexivity |].
  destruct (BaseballScraper.comment_loop frame time budget (time 0%nat)
              (BaseballScraper.comments frame src) 0 n tables) as [[? tables'] ?].
  eexists; reflexivity.
Qed.

(** X24.  [scrape_year]: a run that succeeds has given table discovery a
    budget between 10 and 60; the kinds of the files created follow the
    order Batting, Pitching, Fielding, WAA_Positions, Postseason, each at
    most once; every file holds a cleaned frame that is not empty, taken
    from the table under the primary id of its kind, or, only when that
    id was not found, from a table under an alternative id. *)
Theorem scrape_year_files
    (time : BaseballScraper.clock) (get : option string) (loaded : outcome bool)
    (page_source : result (BaseballScraper.page frame)) (max_time : Z)
    (files_created : list (kind * frame)) (tables_found : gset string) :
  scrape_year time get loaded page_source max_time
    = Returns (Success files_created tables_found) ->
  exists budget all_tables,
    10 <= budget <= 60
    /\ BaseballScraper.get_all_tables frame (fun n => time (3 + n)%nat) budget page_source
       = Ok all_tables
    /\ tables_found = dom all_tables
    /\ sublist (map fst files_created)
         [Batting; Pitching; Fielding; WAA_Positions; Postseason]
    /\ forall filename df, In (filename, df) files_created ->
         written_from all_tables filename df.
Proof.
  unfold scrape_year.
  destruct get as [e |]; [discriminate |].
  destruct loaded as [[|] | e]; [| discriminate | discriminate]. cbv zeta.
  destruct (Z.ltb_spec max_time (time 1%nat - time 0%nat)) as [| _]; [discriminate |].
  destruct (Z.ltb_spec (max_time - (time 2%nat - time 0%nat)) 10) as [| Hleft];
    [discriminate |].
  set (budget := Z.min (max_time - (time 2%nat - time 0%nat)) 60).
  destruct (BaseballScraper.get_all_tables frame (fun n => time (3 + n)%nat) budget page_source)
    as [all_tables | e] eqn:Eg; [| discriminate].
  destruct (save_tables all_tables table_mapping []) as [files | e] eqn:Es; [| discriminate].
  intros [= <- <-].
  apply save_tables_spec in Es as (added & -> & Hsub & Hfrom).
  exists budget, all_tables.
  split; [unfold budget; lia |]. split; [exact Eg |]. split; [reflexivity |].
  split; [exact Hsub |].
  intros k d Hin. destruct (Hfrom k d Hin) as (He & id & t & Ht & Hc & Hsrc).
  split; [exact He |]. exists id, t. split; [exact Ht |]. split; [exact Hc | exact Hsrc].
Qed.

(** X25.  With the directory and the files written without error,
    [scrape_year] raises only what [wait_for_page_load] lets through
    (any exception but a [TimeoutException]) or what [clean_dataframe]
    raises on a table, [AttributeError] or [IndexError].  An exception
    of [driver.get] is reported in the result and not raised. *)
Theorem scrape_year_raises
    (time : BaseballScraper.clock) (get : option string) (loaded : outcome bool)
    (page_source : result (BaseballScraper.page frame)) (max_time : Z) (e : error) :
  scrape_year time get loaded page_source max_time = Raises e ->
  get = None
  /\ (loaded = Raises e
      \/ (loaded = Returns true
          /\ exists table,
               clean_dataframe (Some table) = Raises e
               /\ (e = AttributeError \/ e = Builtin IndexError))).
Proof.
  assert (Hclean : forall table e0, clean_dataframe (Some table) = Raises e0 ->
            exists table0, clean_dataframe (Some table0) = Raises e0
                           /\ (e0 = AttributeError \/ e0 = Builtin IndexError)).
  { intros table e0 H. exists table. split; [exact H |].
    apply clean_dataframe_raises_iff in H as [[_ ->] | (? & ? & ? & _ & _ & ->)]; auto. }
  assert (Halt : forall all_tables alt_ids e0,
            try_alternatives all_tables alt_ids = Raises e0 ->
            exists table0, clean_dataframe (Some table0) = Raises e0
                           /\ (e0 = AttributeError \/ e0 = Builtin IndexError)).
  { intros all_tables alt_ids e0. induction alt_ids as [| a rest IH]; [discriminate |].
    cbn [try_alternatives].
    destruct (all_tables !! a) as [table |]; [| exact IH].
    destruct (clean_dataframe (Some table)) as [[d |] | e1] eqn:Ec; [| exact IH |].
    - destruct (empty d); [exact IH | discriminate].
    - intros [= <-]. apply (Hclean table), Ec. }
  assert (Hone : forall all_tables files id k e0,
            save_table all_tables files id k = Raises e0 ->
            exists table0, clean_dataframe (Some table0) = Raises e0
                           /\ (e0 = AttributeError \/ e0 = Builtin IndexError)).
  { intros all_tables files id k e0. unfold save_table.
    destruct (all_tables !! id) as [table |].
    - destruct (clean_dataframe (Some table)) as [[d |] | e1] eqn:Ec; [| discriminate |].
      + destruct (empty d); discriminate.
      + intros [= <-]. apply (Hclean table), Ec.
    - destruct (alternatives k) as [alts |]; [| discriminate].
      destruct (try_alternatives all_tables alts) as [[d |] | e1] eqn:Et;
        [discriminate | discriminate |].
      intros [= <-]. apply (Halt all_tables alts), Et. }
  assert (Hall : forall all_tables mapping files e0,
            save_tables all_tables mapping files = Raises e0 ->
            exists table0, clean_dataframe (Some table0) = Raises e0
                           /\ (e0 = AttributeError \/ e0 = Builtin IndexError)).
  { intros all_tables mapping. induction mapping as [| [id k] rest IH]; intros files e0;
      [discriminate |].
    cbn [save_tables].
    destruct (save_table all_tables files id k) as [files1 | e1] eqn:E1.
    - apply IH.
    - intros [= <-]. apply (Hone all_tables files id k), E1. }
  unfold scrape_year.
  destruct get as [msg |]; [discriminate |].
  destruct loaded as [[|] | e0];
    [| discriminate | intros [= <-]; split; [reflexivity | left; reflexivity]].
  cbv zeta.
  destruct (max_time <? time 1%nat - time 0%nat); [discriminate |].
  destruct (max_time - (time 2%nat - time 0%nat) <? 10); [discriminate |].
  destruct (get_all_tables_returns (fun n => time (3 + n)%nat)
              (Z.min (max_time - (time 2%nat - time 0%nat)) 60) page_source)
    as (all_tables & ->).
  destruct (save_tables all_tables table_mapping []) as [files | e1] eqn:Es; [discriminate |].
  intros [= <-]. split; [reflexivity |]. right. split; [reflexivity |].
  apply (Hall all_tables table_mapping []), Es.
Qed.

(** X26.  [scrape_year], the loop over [table_mapping]: a table found
    under the primary id of a file shadows the alternatives.  When it
    cleans to an empty frame, no file of that kind is created, whatever
    the tables under the alternative ids hold. *)
Theorem primary_table_shadows_alternatives
    (all_tables : gmap string frame) (files_created : list (kind * frame))
    (table_id : string) (filename : kind) (table df : frame) :
  In (table_id, filename) table_mapping ->
  all_tables !! table_id = Some table ->
  clean_dataframe (Some table) = Returns (Some df) ->
  empty df = true ->
  save_tables all_tables table_mapping [] = Returns files_created ->
  ~ In filename (map fst files_created).
Proof.
  intros Hmap Htable Hclean Hempty Hsave Hin.
  apply save_tables_spec in Hsave as (added & -> & _ & Hfrom).
  cbn [app] in Hin. apply in_map_iff in Hin as ([k d] & Hk & Hin).
  cbn [fst] in Hk. subst k.
  destruct (Hfrom filename d Hin) as (He & id & t & Ht & Hc & Hsrc).
  assert (Huniq : forall id1 id2 k, In (id1, k) table_mapping -> In (id2, k) table_mapping ->
                                    id1 = id2).
  { intros id1 id2 k H1 H2. unfold table_mapping in H1, H2. cbn [In] in H1, H2.
    repeat (destruct H1 as [H1 | H1]; [injection H1 as <- <- |]); try contradiction;
    repeat (destruct H2 as [H2 | H2]; [try discriminate H2; injection H2 as <- |]);
      try contradiction; reflexivity. }
  destruct Hsrc as [Hp | (p & alts & Hp & Hnone & _)].
  - pose proof (Huniq _ _ _ Hp Hmap) as ->.
    rewrite Htable in Ht. injection Ht as <-.
    rewrite Hclean in Hc. injection Hc as <-. congruence.
  - pose proof (Huniq _ _ _ Hp Hmap) as ->. congruence.
Qed.

End ScrapeYearFacts.

Section ScrapeYearExample.
Import stdpp.base stdpp.gmap stdpp.strings.
Local Open Scope Z_scope.

Lemma scrape_year_files_witness :
  exists budget all_tables,
    10 <= budget <= 60
    /\ BaseballScraper.get_all_tables BaseballScraperYear.frame
         (fun n => steady_clock (3 + n)%nat) budget (Ok year_page)
       = Ok all_tables
    /\ dom year_tables = dom all_tables
    /\ sublist (map fst [(BaseballScraperYear.Pitching, batting_cleaned)])
         [BaseballScraperYear.Batting; BaseballScraperYear.Pitching;
          BaseballScraperYear.Fielding; BaseballScraperYear.WAA_Positions;
          BaseballScraperYear.Postseason]
    /\ forall filename df,
         In (filename, df) [(BaseballScraperYear.Pitching, batting_cleaned)] ->
         written_from all_tables filename df.
Proof.
  apply (scrape_year_files steady_clock None (BaseballScraperYear.Returns true)
           (Ok year_page) 180).
  vm_compute. reflexivity.
Defined.

Lemma scrape_year_raises_witness :
  @None string = None
  /\ (BaseballScraperYear.Returns true
        = BaseballScraperYear.Raises BaseballScraperYear.AttributeError
      \/ (BaseballScraperYear.Returns true = BaseballScraperYear.Returns true
          /\ exists table,
               BaseballScraperYear.clean_dataframe (Some table)
                 = BaseballScraperYear.Raises BaseballScraperYear.AttributeError
               /\ (BaseballScraperYear.AttributeError = BaseballScraperYear.AttributeError
                   \/ BaseballScraperYear.AttributeError
                      = BaseballScraperYear.Builtin IndexError))).
Proof.
  apply (scrape_year_raises steady_clock None (BaseballScraperYear.Returns true)
           (Ok twin_page) 180).
  vm_compute. reflexivity.
Defined.

Lemma primary_table_shadows_alternatives_witness :
  ~ In BaseballScraperYear.Batting
       (map fst [(BaseballScraperYear.Pitching, batting_cleaned)]).
Proof.
  apply (primary_table_shadows_alternatives year_tables
           [(BaseballScraperYear.Pitching, batting_cleaned)]
           "teams_standard_batting" BaseballScraperYear.Batting header_only_table
           (BaseballScraperYear.Flat [("Tm", []); ("R", [])])).
  - left. reflexivity.
  - vm_compute. reflexivity.
  - vm_compute. reflexivity.
  - vm_compute. reflexivity.
  - vm_compute. reflexivity.
Defined.

End ScrapeYearExample.
